(** * yolo12test: the synthetic red-square dataset generator and its scripts

    A shallow embedding of
      - [generate_red_square_image] and [save_dataset] with its label
        writer (generate_dataset3.py),
      - [detect_red_square] and [main] (helloTest2.py),
      - [predict_single_image], [predict_batch_images], [predict_with_onnx]
        and [main] (predict_with_trained_model5.py).
    OpenCV's codecs and contour finder and the detection library are
    parameters of the sections that use them.

    Python integers are [Z]; Python floats are the rationals they denote
    ([Q]); the two global random generators ([random] and [np.random]), the
    filesystem and the console are fields of one explicit [World] that every
    operation threads through a state-and-exception monad. *)

From Stdlib Require Import ZArith QArith Qround Qabs List String Ascii Lia Bool.
From Stdlib Require Import Lqa.
From stdpp Require Import gmap strings.

Open Scope Z_scope.

(* ===================================================================== *)
(** * Python outcomes and the world                                       *)
(* ===================================================================== *)

(** The exceptions that the modelled code paths can meet. *)
Inductive pyexn : Type :=
  | ValueError
  | IndexError
  | ZeroDivisionError
  | FileExistsError
  | ExternalError (what : string).

Inductive outcome (A : Type) : Type :=
  | Returned (a : A)
  | Raised (e : pyexn).
Arguments Returned {A} a.
Arguments Raised {A} e.

(** A random generator is a tape of real-valued entropy and a cursor.  Each
    draw reads the tape at the cursor, keeps the fractional part (a point
    of the unit interval [0,1)) and advances the cursor.  A generator is
    "uniform" when these points are; every distribution below is the image
    of that law, so the probability of an outcome is the length of the
    interval of points that produce it. *)
Record Entropy : Type := mkEntropy { tape : nat -> Q; cursor : nat }.

Definition frac (q : Q) : Q := (q - inject_Z (Qfloor q))%Q.

Definition peek (e : Entropy) (k : nat) : Q := frac (tape e (cursor e + k)%nat).

Definition skip (e : Entropy) (k : nat) : Entropy :=
  {| tape := tape e; cursor := (cursor e + k)%nat |}.

(** What a path of the filesystem holds. *)
Inductive fsnode : Type :=
  | RegularFile (content : string)
  | Directory.

Record World : Type := mkWorld {
  py_random : Entropy;          (* state of the [random] module *)
  np_random : Entropy;          (* state of [np.random] *)
  files : gmap string fsnode;   (* the filesystem *)
  stdout : list string          (* console lines, oldest first *)
}.

Definition with_py_random (e : Entropy) (w : World) : World :=
  {| py_random := e; np_random := np_random w; files := files w; stdout := stdout w |}.

Definition with_np_random (e : Entropy) (w : World) : World :=
  {| py_random := py_random w; np_random := e; files := files w; stdout := stdout w |}.

Definition with_files (f : gmap string fsnode) (w : World) : World :=
  {| py_random := py_random w; np_random := np_random w; files := f; stdout := stdout w |}.

Definition with_stdout (o : list string) (w : World) : World :=
  {| py_random := py_random w; np_random := np_random w; files := files w; stdout := o |}.

(** Computations: a world in, an outcome and a world out. *)
Definition Py (A : Type) : Type := World -> outcome A * World.

Definition ret {A} (a : A) : Py A := fun w => (Returned a, w).

Definition raise {A} (e : pyexn) : Py A := fun w => (Raised e, w).

Definition bind {A B} (m : Py A) (k : A -> Py B) : Py B :=
  fun w =>
    match m w with
    | (Returned a, w') => k a w'
    | (Raised e, w') => (Raised e, w')
    end.

Notation "x <~ m ;; k" := (bind m (fun x => k))
  (at level 20, m at level 99, k at level 200, only parsing).
Notation "'run' m ;; k" := (bind m (fun _ => k))
  (at level 20, m at level 99, k at level 200, only parsing).

(* ===================================================================== *)
(** * The [random] module and [np.random]                                 *)
(* ===================================================================== *)

(** The integer of [a..b] that a unit-interval point [u] selects. *)
Definition randint_val (a b : Z) (u : Q) : Z :=
  a + Qfloor (u * inject_Z (b - a + 1)).

(** [random.randint(a, b)]: both ends included; an empty range raises
    ValueError without consuming entropy. *)
Definition randint (a b : Z) : Py Z := fun w =>
  if a <=? b
  then (Returned (randint_val a b (peek (py_random w) 0)),
        with_py_random (skip (py_random w) 1) w)
  else (Raised ValueError, w).

(** [random.choice(seq)]. *)
Definition choice_val {A} (seq : list A) (d : A) (u : Q) : A :=
  nth (Z.to_nat (Qfloor (u * inject_Z (Z.of_nat (length seq))))) seq d.

Definition choice {A} (seq : list A) : Py A := fun w =>
  match seq with
  | [] => (Raised IndexError, w)
  | d :: _ =>
      (Returned (choice_val seq d (peek (py_random w) 0)),
       with_py_random (skip (py_random w) 1) w)
  end.

(** [random.random()]: a float of [0.0, 1.0). *)
Definition random : Py Q := fun w =>
  (Returned (peek (py_random w) 0), with_py_random (skip (py_random w) 1) w).

(** The value of [np.random.randint(low, high)]: [high] is excluded. *)
Definition np_randint_val (low high : Z) (u : Q) : Z :=
  low + Qfloor (u * inject_Z (high - low)).

(* ===================================================================== *)
(** * Arrays and drawing                                                  *)
(* ===================================================================== *)

(** An image array of shape (side, side, 3): [pix row col ch].  NumPy's
    element types are made explicit by the casts below. *)
Record Canvas : Type := mkCanvas { side : Z; pix : Z -> Z -> Z -> Z }.

Definition in_canvas (img : Canvas) (row col ch : Z) : bool :=
  (0 <=? row) && (row <? side img) && (0 <=? col) && (col <? side img)
  && (0 <=? ch) && (ch <? 3).

(** Reading one channel of one pixel; [None] outside the array. *)
Definition channel_at (img : Canvas) (row col ch : Z) : option Z :=
  if in_canvas img row col ch then Some (pix img row col ch) else None.

(** [.astype(np.uint8)] and [.astype(np.int16)] wrap around. *)
Definition astype_uint8 (v : Z) : Z := v mod 256.
Definition astype_int16 (v : Z) : Z := (v + 32768) mod 65536 - 32768.

(** [np.clip(v, lo, hi)], i.e. minimum(maximum(v, lo), hi). *)
Definition np_clip (v lo hi : Z) : Z := Z.min (Z.max v lo) hi.

(** [np.full((n, n, 3), color, dtype=np.uint8)]; a negative dimension
    raises ValueError. *)
Definition np_full (n : Z) (color : list Z) : Py Canvas :=
  if n <? 0 then raise ValueError
  else ret {| side := n; pix := fun _ _ ch => astype_uint8 (nth (Z.to_nat ch) color 0) |}.

(** [np.random.randint(low, high, (n, n, 3), dtype=np.int16)]: n*n*3 draws
    laid out row by row, pixel by pixel, channel by channel. *)
Definition noise_index (n row col ch : Z) : nat := Z.to_nat ((row * n + col) * 3 + ch).

Definition np_random_randint (low high n : Z) : Py Canvas := fun w =>
  if low <? high
  then let e := np_random w in
       (Returned {| side := n;
                    pix := fun row col ch =>
                      astype_int16 (np_randint_val low high (peek e (noise_index n row col ch))) |},
        with_np_random (skip e (Z.to_nat (n * n * 3))) w)
  else (Raised ValueError, w).

(** [np.clip(image.astype(np.int16) + noise, 0, 255).astype(np.uint8)]:
    the sum is an int16 sum. *)
Definition add_noise (image noise : Canvas) : Canvas :=
  {| side := side image;
     pix := fun row col ch =>
       astype_uint8
         (np_clip (astype_int16 (astype_int16 (pix image row col ch) + pix noise row col ch))
                  0 255) |}.

(** OpenCV writes a colour into an 8-bit image with a saturating cast. *)
Definition saturate_u8 (v : Z) : Z := Z.max 0 (Z.min v 255).

Section Drawing.

(** The pixels that OpenCV colours when it strokes the outline of the
    rectangle (x1,y1)-(x2,y2) with a line of the given thickness:
    [outline thickness x1 y1 x2 y2 col row].  The rasteriser belongs to
    OpenCV; the generator only chooses the corners, the colour and the
    thickness. *)
Variable outline : Z -> Z -> Z -> Z -> Z -> Z -> Z -> bool.

(** Whether [cv2.rectangle] touches pixel (col, row): a negative
    thickness fills the rectangle, both corners included. *)
Definition covered (thickness x1 y1 x2 y2 col row : Z) : bool :=
  if thickness <? 0
  then (x1 <=? col) && (col <=? x2) && (y1 <=? row) && (row <=? y2)
  else outline thickness x1 y1 x2 y2 col row.

(** [cv2.rectangle(img, (x1, y1), (x2, y2), color, thickness)] on an
    8-bit, 3-channel image; pixels outside the image are clipped away. *)
Definition cv2_rectangle (img : Canvas) (x1 y1 x2 y2 : Z) (color : list Z)
    (thickness : Z) : Canvas :=
  {| side := side img;
     pix := fun row col ch =>
       if covered thickness x1 y1 x2 y2 col row
       then saturate_u8 (nth (Z.to_nat ch) color 0)
       else pix img row col ch |}.

(* =================================================================== *)
(** * generate_dataset3.py: [generate_red_square_image]                 *)
(* =================================================================== *)

(** One annotation [[class_id, center_x, center_y, width, height]]. *)
Record Label : Type := mkLabel {
  class_id : Z; center_x : Q; center_y : Q; width : Q; height : Q
}.

(** The locals of one loop iteration: the shape that is drawn. *)
Record Placement : Type := mkPlacement {
  size_px : Z; origin_x : Z; origin_y : Z;
  fill_color : list Z; has_border : bool
}.

Definition red_variations : list (list Z) :=
  [ [30; 30; 255]; [50; 50; 230]; [40; 80; 255]; [20; 20; 200]; [60; 60; 255] ].

(** [[c - 50 for c in red_color]]. *)
Definition border_color (red_color : list Z) : list Z :=
  map (fun c => c - 50) red_color.

(** The test [random.random() > 0.5]. *)
Definition border_threshold : Q := 1 # 2.
Definition border_test (r : Q) : bool := negb (Qle_bool r border_threshold).

(** Python's [a / b] on floats. *)
Definition truediv (a b : Q) : Py Q :=
  if Qeq_bool b 0 then raise ZeroDivisionError else ret (a / b)%Q.

(** Lines 22-33: the noisy background. *)
Definition background (img_size : Z) : Py Canvas :=
  b <~ randint 100 255 ;;
  g <~ randint 100 255 ;;
  r <~ randint 50 150 ;;
  let bg_color := [b; g; r] in
  image <~ np_full img_size bg_color ;;
  noise <~ np_random_randint (-30) 30 img_size ;;
  ret (add_noise image noise).

(** Lines 42-74: the body of the loop. *)
Definition draw_square (img_size : Z) (image : Canvas)
    : Py (Canvas * Label * Placement) :=
  square_size <~ randint 50 200 ;;
  x <~ randint 0 (img_size - square_size) ;;
  y <~ randint 0 (img_size - square_size) ;;
  red_color <~ choice red_variations ;;
  let image :=
    cv2_rectangle image x y (x + square_size) (y + square_size) red_color (-1) in
  r <~ random ;;
  let image :=
    if border_test r
    then cv2_rectangle image x y (x + square_size) (y + square_size)
           (border_color red_color) 2
    else image in
  center_x <~ truediv (inject_Z x + inject_Z square_size / 2) (inject_Z img_size) ;;
  center_y <~ truediv (inject_Z y + inject_Z square_size / 2) (inject_Z img_size) ;;
  width <~ truediv (inject_Z square_size) (inject_Z img_size) ;;
  height <~ truediv (inject_Z square_size) (inject_Z img_size) ;;
  ret (image,
       mkLabel 0 center_x center_y width height,
       {| size_px := square_size; origin_x := x; origin_y := y;
          fill_color := red_color; has_border := border_test r |}).

(** Line 41: [for _ in range(num_squares)], with [labels.append]. *)
Fixpoint draw_squares (count : nat) (img_size : Z) (image : Canvas)
    (labels : list Label) (shapes : list Placement)
    : Py (Canvas * list Label * list Placement) :=
  match count with
  | O => ret (image, labels, shapes)
  | S count' =>
      step <~ draw_square img_size image ;;
      let '(image', label, shape) := step in
      draw_squares count' img_size image' (labels ++ [label]) (shapes ++ [shape])
  end.

(** The generator, also reporting the shapes it drew, in draw order. *)
Definition generate_traced (img_size : Z) (num_squares : option Z)
    : Py (Canvas * list Label * list Placement) :=
  image <~ background img_size ;;
  num_squares <~ match num_squares with
                 | None => randint 1 3
                 | Some n => ret n
                 end ;;
  draw_squares (Z.to_nat num_squares) img_size image [] [].

(** [generate_red_square_image(img_size=640, num_squares=None)]. *)
Definition generate_red_square_image (img_size : Z) (num_squares : option Z)
    : Py (Canvas * list Label) :=
  traced <~ generate_traced img_size num_squares ;;
  ret (fst (fst traced), snd (fst traced)).

End Drawing.

(* ===================================================================== *)
(** * Text: numbers as Python prints them                                 *)
(* ===================================================================== *)

Definition newline : ascii := ascii_of_nat 10.
Definition nl : string := String newline EmptyString.

Definition digit_char (d : Z) : ascii := ascii_of_nat (48 + Z.to_nat d).

(** The last [k] decimal digits of [n], most significant first. *)
Fixpoint fixed_digits (k : nat) (n : Z) : string :=
  match k with
  | O => EmptyString
  | S k' => fixed_digits k' (n / 10) +:+ String (digit_char (n mod 10)) EmptyString
  end.

(** Dropping the zeros in front of a digit string, but not its last digit. *)
Fixpoint strip_leading_zeros (s : string) : string :=
  match s with
  | String c s' =>
      if Ascii.eqb c "0"
      then match s' with EmptyString => s | _ => strip_leading_zeros s' end
      else s
  | EmptyString => s
  end.

(** [str(n)] for [n >= 0]: the decimal digits, without leading zeros.  A
    number has no more decimal digits than binary ones. *)
Definition str_nat (n : Z) : string :=
  strip_leading_zeros (fixed_digits (S (Z.to_nat (Z.log2 n))) n).

(** [str(z)] for an integer. *)
Definition str_int (z : Z) : string :=
  if z <? 0 then String "-" (str_nat (- z)) else str_nat z.

(** Rounding to the nearest integer, ties to the even one: the rounding of
    Python's float formatting, which works on the exact value. *)
Definition round_half_even (q : Q) : Z :=
  let f := Qfloor q in
  match (q - inject_Z f ?= 1 # 2)%Q with
  | Lt => f
  | Gt => f + 1
  | Eq => if Z.even f then f else f + 1
  end.

Definition is_negative (v : Q) : bool := negb (Qle_bool 0 v).

(** The magnitude of [v] in units of 10^-k, rounded. *)
Definition scaled (k : nat) (v : Q) : Z :=
  round_half_even (Qabs v * inject_Z (10 ^ Z.of_nat k)).

(** [f"{v:.kf}"]: sign, integer part, point, exactly [k] digits. *)
Definition format_fixed (k : nat) (v : Q) : string :=
  let n := scaled k v in
  (if is_negative v then "-" else "")
  +:+ str_int (n / 10 ^ Z.of_nat k) +:+ "." +:+ fixed_digits k (n mod 10 ^ Z.of_nat k).

(** [int(v)] on a float: truncation towards zero. *)
Definition py_int (v : Q) : Z := Z.quot (Qnum v) (Zpos (Qden v)).

(** [s * n] on a string. *)
Fixpoint string_repeat (s : string) (n : nat) : string :=
  match n with
  | O => EmptyString
  | S n' => s +:+ string_repeat s n'
  end.

(* ===================================================================== *)
(** * generate_dataset3.py: the label file of [save_dataset]              *)
(* ===================================================================== *)

(** Line 110: the fields of the f-string, and the text of one [f.write]. *)
Definition label_body (label : Label) : string :=
  str_int (class_id label) +:+ " " +:+ format_fixed 6 (center_x label) +:+ " "
  +:+ format_fixed 6 (center_y label) +:+ " " +:+ format_fixed 6 (width label) +:+ " "
  +:+ format_fixed 6 (height label).

Definition label_line (label : Label) : string := label_body label +:+ nl.

(** Lines 109-110: what the loop writes, in order. *)
Fixpoint label_text (labels : list Label) : string :=
  match labels with
  | [] => EmptyString
  | label :: rest => label_line label +:+ label_text rest
  end.

(** Lines 108-110: [open(label_path, 'w')] creates or truncates the file,
    the loop fills it. *)
Definition write_label_file (label_path : string) (labels : list Label) : Py unit :=
  fun w => (Returned tt, with_files (<[label_path := RegularFile (label_text labels)]> (files w)) w).

(** [s.split(sep)] for a one-character separator. *)
Fixpoint split_on (sep : ascii) (s : string) : list string :=
  match s with
  | EmptyString => [EmptyString]
  | String c s' =>
      if Ascii.eqb c sep then EmptyString :: split_on sep s'
      else match split_on sep s' with
           | [] => [String c EmptyString]
           | field :: fields => String c field :: fields
           end
  end.

(** Modelled from the spec: the reader of the annotation file format of
    section 6, which the repository leaves to the training library.  A
    number is an optional minus sign and decimal digits; a float has a
    point between two digit groups. *)
Definition digit_value (c : ascii) : option Z :=
  let n := nat_of_ascii c in
  if (48 <=? n)%nat && (n <=? 57)%nat then Some (Z.of_nat n - 48) else None.

(** Modelled from the spec: the value of a digit string, most significant
    digit first, on top of the value [acc] read so far. *)
Fixpoint digits_value (acc : Z) (s : string) : option Z :=
  match s with
  | EmptyString => Some acc
  | String c s' =>
      match digit_value c with
      | Some d => digits_value (10 * acc + d) s'
      | None => None
      end
  end.

(** Modelled from the spec: an unsigned integer has at least one digit. *)
Definition parse_uint (s : string) : option Z :=
  match s with
  | EmptyString => None
  | _ => digits_value 0 s
  end.

(** Modelled from the spec: an integer field ([classId]). *)
Definition parse_int (s : string) : option Z :=
  match s with
  | EmptyString => None
  | String c s' => if Ascii.eqb c "-" then option_map Z.opp (parse_uint s') else parse_uint s
  end.

(** Modelled from the spec: the value of the digits [ip.fp], as a
    numerator and a power of ten. *)
Definition parse_ufloat (s : string) : option (Z * positive) :=
  match split_on "." s with
  | [ip; fp] =>
      match parse_uint ip, parse_uint fp with
      | Some i, Some f =>
          let scale := 10 ^ Z.of_nat (String.length fp) in
          Some (i * scale + f, Z.to_pos scale)
      | _, _ => None
      end
  | _ => None
  end.

(** Modelled from the spec: a float field. *)
Definition parse_float (s : string) : option Q :=
  match s with
  | EmptyString => None
  | String c s' =>
      if Ascii.eqb c "-"
      then option_map (fun nd => Qmake (- fst nd) (snd nd)) (parse_ufloat s')
      else option_map (fun nd => Qmake (fst nd) (snd nd)) (parse_ufloat s)
  end.

(** Modelled from the spec: one line, [classId cx cy w h], space-separated. *)
Definition parse_line (line : string) : option Label :=
  match split_on " " line with
  | [c; x; y; w; h] =>
      match parse_int c, parse_float x, parse_float y, parse_float w, parse_float h with
      | Some c, Some x, Some y, Some w, Some h =>
          Some {| class_id := c; center_x := x; center_y := y; width := w; height := h |}
      | _, _, _, _, _ => None
      end
  | _ => None
  end.

(** Modelled from the spec: one line per shape, every line ended by a
    newline, no header and nothing after the last line. *)
Fixpoint parse_lines (pieces : list string) : option (list Label) :=
  match pieces with
  | [] => None
  | [last] => match last with EmptyString => Some [] | _ => None end
  | line :: rest =>
      match parse_line line, parse_lines rest with
      | Some label, Some labels => Some (label :: labels)
      | _, _ => None
      end
  end.

Definition parse_labels (text : string) : option (list Label) :=
  parse_lines (split_on newline text).

(** Modelled from the spec: re-reading a label file from the filesystem. *)
Definition read_label_file (label_path : string) : Py (option (list Label)) :=
  fun w =>
    match files w !! label_path with
    | Some (RegularFile text) => (Returned (parse_labels text), w)
    | _ => (Raised (ExternalError "cannot open label file"), w)
    end.

(* ===================================================================== *)
(** * Console and filesystem                                              *)
(* ===================================================================== *)

(** [print(line)]: one more console line. *)
Definition print (line : string) : Py unit :=
  fun w => (Returned tt, with_stdout (stdout w ++ [line]) w).

(** [os.path.exists(path)]. *)
Definition os_path_exists (path : string) : Py bool :=
  fun w => (Returned (match files w !! path with Some _ => true | None => false end), w).

(** [Path(path).mkdir(exist_ok=True)]: an existing directory is left
    alone, an existing file raises FileExistsError. *)
Definition mkdir_exist_ok (path : string) : Py unit :=
  fun w =>
    match files w !! path with
    | Some Directory => (Returned tt, w)
    | Some (RegularFile _) => (Raised FileExistsError, w)
    | None => (Returned tt, with_files (<[path := Directory]> (files w)) w)
    end.

(** [for x in xs: body(x)]. *)
Fixpoint for_each {A} (xs : list A) (body : A -> Py unit) : Py unit :=
  match xs with
  | [] => ret tt
  | x :: rest => run body x ;; for_each rest body
  end.

(** [enumerate(xs, start)]. *)
Fixpoint enumerate {A} (start : Z) (xs : list A) : list (Z * A) :=
  match xs with
  | [] => []
  | x :: rest => (start, x) :: enumerate (start + 1) rest
  end.

(* ===================================================================== *)
(** * helloTest2.py: [detect_red_square]                                  *)
(* ===================================================================== *)

Section ColorDetector.

(** OpenCV, as far as the script uses it. *)
Variable Image : Type.
Variable Contour : Type.
(** the decoder behind [cv2.imread]; [None] when the bytes are no image *)
Variable cv2_decode : string -> option Image.
(** the encoder behind [cv2.imwrite] *)
Variable cv2_encode : Image -> string.
(** lines 42-66: HSV thresholding, morphology, [cv2.findContours] *)
Variable red_contours : Image -> list Contour.
Variable contour_area : Contour -> Q.
Variable bounding_rect : Contour -> Z * Z * Z * Z.
(** lines 95-96: the number of vertices of the approximating polygon *)
Variable approx_vertices : Contour -> Z.
(** lines 107-132: the drawing calls for region number [k] *)
Variable draw_detection : Image -> Z -> Contour -> Image.
Variable image_shape : Image -> Z * Z.

(** [cv2.imread(path)]: [None] for a missing, unreadable or undecodable
    file; it does not raise. *)
Definition cv2_imread (path : string) : Py (option Image) :=
  fun w =>
    match files w !! path with
    | Some (RegularFile content) => (Returned (cv2_decode content), w)
    | _ => (Returned None, w)
    end.

(** [cv2.imwrite(path, image)]. *)
Definition cv2_imwrite (path : string) (image : Image) : Py unit :=
  fun w => (Returned tt, with_files (<[path := RegularFile (cv2_encode image)]> (files w)) w).

(** Lines 77-132: the loop over the contours; the state is the count
    of accepted regions and the annotated image. *)
Fixpoint report_contours (contours : list Contour) (square_count : Z)
    (result_image : Image) : Py (Z * Image) :=
  match contours with
  | [] => ret (square_count, result_image)
  | contour :: rest =>
      let area := contour_area contour in
      if negb (Qle_bool 500 area)
      then report_contours rest square_count result_image
      else
        let square_count := square_count + 1 in
        let '(x, y, w, h) := bounding_rect contour in
        let center_x := x + w / 2 in
        let center_y := y + h / 2 in
        run print (nl +:+ "红色方块 #" +:+ str_int square_count +:+ ":") ;;
        run print ("  📍 位置: (" +:+ str_int x +:+ ", " +:+ str_int y +:+ ") 到 ("
                   +:+ str_int (x + w) +:+ ", " +:+ str_int (y + h) +:+ ")") ;;
        run print ("  🎯 中心点: (" +:+ str_int center_x +:+ ", " +:+ str_int center_y +:+ ")") ;;
        run print ("  📏 尺寸: 宽=" +:+ str_int w +:+ "px, 高=" +:+ str_int h +:+ "px") ;;
        run print ("  📐 面积: " +:+ str_int (py_int area) +:+ " 平方像素") ;;
        run print ("  🔷 顶点数: " +:+ str_int (approx_vertices contour)) ;;
        report_contours rest square_count (draw_detection result_image square_count contour)
  end.

Definition detect_red_square (image_path output_path : string) : Py unit :=
  run print "🎯 红色方块检测程序" ;;
  run print (string_repeat "=" 50) ;;
  found <~ os_path_exists image_path ;;
  if negb found then
    print ("❌ 错误：找不到图片文件 '" +:+ image_path +:+ "'")
  else
    run print (nl +:+ "📷 正在读取图片 '" +:+ image_path +:+ "'...") ;;
    image <~ cv2_imread image_path ;;
    match image with
    | None => print ("❌ 错误：无法读取图片 '" +:+ image_path +:+ "'")
    | Some image =>
        let contours := red_contours image in
        run print (nl +:+ "🔍 正在检测红色方块...") ;;
        run print (nl +:+ string_repeat "=" 50) ;;
        run print "🟥 检测到的红色方块位置信息：" ;;
        run print (string_repeat "=" 50) ;;
        looped <~ report_contours contours 0 image ;;
        let '(square_count, result_image) := looped in
        run print (nl +:+ string_repeat "=" 50) ;;
        run (if 0 <? square_count then
               run print ("✅ 检测完成！共找到 " +:+ str_int square_count +:+ " 个红色方块") ;;
               run cv2_imwrite output_path result_image ;;
               run print (nl +:+ "💾 检测结果已保存到: " +:+ output_path) ;;
               print ("📊 图片尺寸: " +:+ str_int (snd (image_shape image)) +:+ "x"
                      +:+ str_int (fst (image_shape image)) +:+ " 像素")
             else
               run print "❌ 未检测到红色方块" ;;
               run print (nl +:+ "💡 提示：") ;;
               run print "   - 请确保图片中有明显的红色物体" ;;
               run print "   - 可以调整 HSV 颜色范围参数" ;;
               print "   - 可以调整最小面积阈值") ;;
        run print (string_repeat "=" 50) ;;
        print "🚀 检测完成！"
    end.

End ColorDetector.

(* ===================================================================== *)
(** * predict_with_trained_model5.py: [predict_single_image]              *)
(* ===================================================================== *)

(** One detected box: [box.xyxy[0]], [box.conf[0]], [box.cls[0]]. *)
Record Box : Type := mkBox { bx1 : Q; by1 : Q; bx2 : Q; by2 : Q; conf : Q; cls : Q }.

Section Predictor.

(** The detection library, an opaque collaborator. *)
Variable Model : Type.
Variable Result : Type.
(** [YOLO(model_path)] *)
Variable yolo_load : string -> Py Model.
(** [model(image_path, conf=...)] *)
Variable yolo_predict : Model -> string -> Q -> Py (list Result).
(** [result.save(filename=...)] *)
Variable result_save : Result -> string -> Py unit.
Variable result_boxes : Result -> list Box.
(** [model.names[cls]] *)
Variable model_names : Model -> Z -> string.
(** [Path(path).stem] *)
Variable path_stem : string -> string.

(** Lines 61-78: the report of box number [j]. *)
Definition report_box (model : Model) (jb : Z * Box) : Py unit :=
  let '(j, box) := jb in
  let x1 := bx1 box in
  let y1 := by1 box in
  let x2 := bx2 box in
  let y2 := by2 box in
  let class_name := model_names model (py_int (cls box)) in
  let center_x := py_int ((x1 + x2) / 2) in
  let center_y := py_int ((y1 + y2) / 2) in
  let width := py_int (x2 - x1) in
  let height := py_int (y2 - y1) in
  run print ("方块 #" +:+ str_int j +:+ ":") ;;
  run print ("  📍 位置: (" +:+ str_int (py_int x1) +:+ ", " +:+ str_int (py_int y1) +:+ ") 到 ("
             +:+ str_int (py_int x2) +:+ ", " +:+ str_int (py_int y2) +:+ ")") ;;
  run print ("  🎯 中心点: (" +:+ str_int center_x +:+ ", " +:+ str_int center_y +:+ ")") ;;
  run print ("  📏 尺寸: 宽=" +:+ str_int width +:+ "px, 高=" +:+ str_int height +:+ "px") ;;
  run print ("  💯 置信度: " +:+ format_fixed 2 (conf box * 100) +:+ "%") ;;
  print ("  🏷️  类别: " +:+ class_name +:+ nl).

(** Lines 45-81: the body of the loop over the results. *)
Definition report_result (model : Model) (image_path save_dir : string)
    (result : Result) : Py unit :=
  let img_name := path_stem image_path in
  let save_path := save_dir +:+ "/" +:+ img_name +:+ "_detected.jpg" in
  run result_save result save_path ;;
  run print (nl +:+ string_repeat "=" 60) ;;
  run print "🟥 检测结果:" ;;
  run print (string_repeat "=" 60) ;;
  run (match result_boxes result with
       | [] => print "❌ 未检测到红色方块"
       | boxes =>
           run print ("✅ 检测到 " +:+ str_int (Z.of_nat (length boxes)) +:+ " 个红色方块" +:+ nl) ;;
           for_each (enumerate 1 boxes) (report_box model)
       end) ;;
  run print ("💾 结果已保存: " +:+ save_path) ;;
  print (string_repeat "=" 60).

Definition predict_single_image (model_path image_path save_dir : string) : Py unit :=
  run print ("🎯 使用模型: " +:+ model_path) ;;
  run print ("📷 检测图片: " +:+ image_path) ;;
  run print (string_repeat "=" 60) ;;
  model_found <~ os_path_exists model_path ;;
  if negb model_found then
    run print ("❌ 错误：找不到模型文件 '" +:+ model_path +:+ "'") ;;
    print "💡 请先运行 train_custom_yolo4.py 完成训练"
  else
    image_found <~ os_path_exists image_path ;;
    if negb image_found then
      print ("❌ 错误：找不到图片文件 '" +:+ image_path +:+ "'")
    else
      run print (nl +:+ "🔄 正在加载模型...") ;;
      model <~ yolo_load model_path ;;
      run print "✅ 模型加载成功！" ;;
      run print (nl +:+ "🔍 正在检测...") ;;
      results <~ yolo_predict model image_path (25 # 100) ;;
      run mkdir_exist_ok save_dir ;;
      for_each results (report_result model image_path save_dir).

End Predictor.

(* ===================================================================== *)
(** * Closed forms and predicates used by the statements                  *)
(* ===================================================================== *)

(** [f] carries the uniform law of the unit interval to the uniform law
    of the integers [a..b]: the points that select [v] are exactly those
    of the interval [(v-a)/n, (v-a+1)/n) for [n = b-a+1], so every value
    of [a..b] has probability 1/n and no other value is produced. *)
Definition uniform_on (a b : Z) (f : Q -> Z) : Prop :=
  forall u : Q, (0 <= u < 1)%Q ->
    forall v : Z,
      f u = v <->
      (a <= v <= b /\
       (inject_Z (v - a) / inject_Z (b - a + 1) <= u
        < inject_Z (v - a + 1) / inject_Z (b - a + 1))%Q).

(** The shape decided by the five draws that start at offset [k] of the
    tape of [random]: side, x, y, colour, border. *)
Definition placement_at (img_size : Z) (e : Entropy) (k : nat) : Placement :=
  let size := randint_val 50 200 (peek e k) in
  {| size_px := size;
     origin_x := randint_val 0 (img_size - size) (peek e (k + 1));
     origin_y := randint_val 0 (img_size - size) (peek e (k + 2));
     fill_color := choice_val red_variations [30; 30; 255] (peek e (k + 3));
     has_border := border_test (peek e (k + 4)) |}.

Definition placements_from (img_size : Z) (e : Entropy) (k count : nat) : list Placement :=
  map (fun i => placement_at img_size e (k + 5 * i)) (seq 0 count).

(** A shape can be placed when its side is at most the canvas side. *)
Definition fits (img_size : Z) (p : Placement) : bool := size_px p <=? img_size.

(** The annotation of a shape. *)
Definition annotation_of (img_size : Z) (p : Placement) : Label :=
  {| class_id := 0;
     center_x := (inject_Z (origin_x p) + inject_Z (size_px p) / 2) / inject_Z img_size;
     center_y := (inject_Z (origin_y p) + inject_Z (size_px p) / 2) / inject_Z img_size;
     width := inject_Z (size_px p) / inject_Z img_size;
     height := inject_Z (size_px p) / inject_Z img_size |}.

(** The canvas after a shape: the filled square, then its border on top. *)
Definition paint (outline : Z -> Z -> Z -> Z -> Z -> Z -> Z -> bool)
    (image : Canvas) (p : Placement) : Canvas :=
  let x := origin_x p in
  let y := origin_y p in
  let size := size_px p in
  let filled := cv2_rectangle outline image x y (x + size) (y + size) (fill_color p) (-1) in
  if has_border p
  then cv2_rectangle outline filled x y (x + size) (y + size) (border_color (fill_color p)) 2
  else filled.

(** How many shapes a call draws, and where their draws start on the tape
    of [random]: three draws go to the background colour and, when the
    count is not given, a fourth decides it. *)
Definition drawn_count (num_squares : option Z) (e : Entropy) : nat :=
  Z.to_nat (match num_squares with
            | Some n => n
            | None => randint_val 1 3 (peek e 3)
            end).

Definition first_shape_draw (num_squares : option Z) : nat :=
  match num_squares with Some _ => 3%nat | None => 4%nat end.

Definition planned_shapes (img_size : Z) (num_squares : option Z) (e : Entropy)
    : list Placement :=
  placements_from img_size e (first_shape_draw num_squares) (drawn_count num_squares e).

(** The background colour and the noise of a pixel, from the draws. *)
Definition bg_color_at (e : Entropy) : list Z :=
  [randint_val 100 255 (peek e 0); randint_val 100 255 (peek e 1); randint_val 50 150 (peek e 2)].

Definition noise_at (e : Entropy) (n row col ch : Z) : Z :=
  np_randint_val (-30) 30 (peek e (noise_index n row col ch)).

(** Integer saturation into [lo, hi]. *)
Definition clamp (v lo hi : Z) : Z :=
  if v <? lo then lo else if hi <? v then hi else v.

(** Every channel of every pixel is an 8-bit value. *)
Definition u8_canvas (img : Canvas) : Prop :=
  forall row col ch, 0 <= ch < 3 -> 0 <= pix img row col ch <= 255.

(** The world after the background has been drawn. *)
Definition after_background (img_size : Z) (w : World) : World :=
  with_np_random (skip (np_random w) (Z.to_nat (img_size * img_size * 3)))
    (with_py_random (skip (py_random w) 3) w).

(** The world after a call that returns: only the two generators moved. *)
Definition after_generate (img_size : Z) (num_squares : option Z) (w : World) : World :=
  with_py_random
    (skip (py_random w)
          (first_shape_draw num_squares + 5 * drawn_count num_squares (py_random w)))
    (after_background img_size w).

(** Two worlds with the same random generators. *)
Definition same_random (w1 w2 : World) : Prop :=
  py_random w1 = py_random w2 /\ np_random w1 = np_random w2.

(** A computation that reads and moves the random generators and nothing
    else: its outcome is a function of its arguments and of the two
    generator states, and it leaves the filesystem and the console as
    they were. *)
Definition pure_random {A} (m : Py A) : Prop :=
  forall w1 w2 : World,
    same_random w1 w2 ->
    fst (m w1) = fst (m w2)
    /\ same_random (snd (m w1)) (snd (m w2))
    /\ files (snd (m w1)) = files w1
    /\ stdout (snd (m w1)) = stdout w1.

(** Every character of the string satisfies [P]. *)
Fixpoint string_all (P : ascii -> bool) (s : string) : bool :=
  match s with
  | EmptyString => true
  | String c s' => P c && string_all P s'
  end.

Definition is_digit (c : ascii) : bool :=
  match digit_value c with Some _ => true | None => false end.

(** The characters of a printed number. *)
Definition is_number_char (c : ascii) : bool :=
  is_digit c || Ascii.eqb c "-" || Ascii.eqb c ".".

(** What a coordinate becomes at 6 decimals: the nearest multiple of
    10^-6, the tie going to the even one. *)
Definition round6 (v : Q) : Q :=
  Qmake (if is_negative v then - scaled 6 v else scaled 6 v) 1000000.

Definition round6_label (label : Label) : Label :=
  {| class_id := class_id label;
     center_x := round6 (center_x label); center_y := round6 (center_y label);
     width := round6 (width label); height := round6 (height label) |}.

(** Two coordinates agree to 6 decimals: they differ by at most half a
    unit of the sixth decimal. *)
Definition close6 (a b : Q) : Prop := (Qabs (a - b) <= 1 # 2000000)%Q.

(** The value of a call that returned. *)
Definition returned_or {A} (default : A) (o : outcome A) : A :=
  match o with Returned a => a | Raised _ => default end.

(* ===================================================================== *)
(** * Sample inputs                                                       *)
(* ===================================================================== *)

(** A rasteriser for the examples: the frame of the given thickness just
    inside the rectangle. *)
Definition inner_frame (thickness x1 y1 x2 y2 col row : Z) : bool :=
  (x1 <=? col) && (col <=? x2) && (y1 <=? row) && (row <=? y2)
  && negb ((x1 + thickness <=? col) && (col <=? x2 - thickness)
           && (y1 + thickness <=? row) && (row <=? y2 - thickness)).

Definition black_canvas (n : Z) : Canvas := {| side := n; pix := fun _ _ _ => 0 |}.

Definition world_of (py np : nat -> Q) (fs : gmap string fsnode) (out : list string) : World :=
  {| py_random := mkEntropy py 0; np_random := mkEntropy np 0; files := fs; stdout := out |}.

(** A tape that steps through the unit interval. *)
Definition stepping_tape (step : Q) : nat -> Q := fun n => (inject_Z (Z.of_nat n) * step)%Q.

(** A tape that always selects the top of a range. *)
Definition high_tape : nat -> Q := fun _ => 150 # 151.

Definition sample_world : World :=
  world_of (stepping_tape (37 # 100)) (stepping_tape (37 # 1000)) ∅ [].

(** The generators of [sample_world], another filesystem and another
    console. *)
Definition busy_world : World :=
  world_of (stepping_tape (37 # 100)) (stepping_tape (37 # 1000))
           (<["dataset" := Directory]> ∅) ["starting"].

(** A world whose every draw selects the top of its range: the first side
    length drawn is 200. *)
Definition high_world : World := world_of high_tape high_tape ∅ [].

(** A world whose first shape is dark red ([20, 20, 200]) with a border. *)
Definition dark_red_world : World :=
  world_of (stepping_tape (22 # 100)) (stepping_tape (37 # 1000)) ∅ [].

(** One call on the sample world, with one shape, and what it returns. *)
Definition sample_call : outcome (Canvas * list Label * list Placement) * World :=
  generate_traced inner_frame 640 (Some 1) sample_world.

Definition sample_image : Canvas :=
  fst (fst (returned_or (black_canvas 0, [], []) (fst sample_call))).

Definition sample_annotations : list Label :=
  snd (fst (returned_or (black_canvas 0, [], []) (fst sample_call))).

Definition sample_shapes : list Placement :=
  snd (returned_or (black_canvas 0, [], []) (fst sample_call)).

(** Two annotations whose coordinates are exact binary fractions. *)
Definition sample_labels : list Label :=
  [ {| class_id := 0; center_x := 1 # 2; center_y := 3 # 8;
       width := 13 # 128; height := 13 # 128 |};
    {| class_id := 0; center_x := 5 # 8; center_y := 7 # 16;
       width := 3 # 1024; height := 3 # 1024 |} ].

(** Stand-ins for OpenCV and for the detection library, to run the
    scripts on sample worlds: a decoder that rejects every file, a model
    that detects nothing. *)
Definition reject_all : string -> option unit := fun _ => None.

Definition detect_sample : string -> string -> Py unit :=
  detect_red_square unit unit reject_all (fun _ => "") (fun _ => []) (fun _ => 0%Q)
    (fun _ => (0, 0, 0, 0)) (fun _ => 0) (fun image _ _ => image) (fun _ => (0, 0)).

Definition predict_sample : string -> string -> string -> Py unit :=
  predict_single_image unit (list Box) (fun _ => ret tt) (fun _ _ _ => ret [])
    (fun _ _ => ret tt) (fun boxes => boxes) (fun _ _ => "red_square") (fun path => path).

(** The same script with a library whose model fails to load. *)
Definition predict_with_broken_loader : string -> string -> string -> Py unit :=
  predict_single_image unit (list Box) (fun _ => raise (ExternalError "corrupt weights"))
    (fun _ _ _ => ret []) (fun _ _ => ret tt) (fun boxes => boxes)
    (fun _ _ => "red_square") (fun path => path).

(** Filesystems: only the weights; only a file that is no image; both
    the weights and an image. *)
Definition weights_world : World :=
  world_of (stepping_tape (37 # 100)) (stepping_tape (37 # 1000))
           (<["best.pt" := RegularFile "weights"]> ∅) [].

Definition corrupt_image_world : World :=
  world_of (stepping_tape (37 # 100)) (stepping_tape (37 # 1000))
           (<["test.jpg" := RegularFile "not an image"]> ∅) [].

Definition ready_world : World :=
  world_of (stepping_tape (37 # 100)) (stepping_tape (37 # 1000))
           (<["best.pt" := RegularFile "weights"]> (<["test.jpg" := RegularFile "image"]> ∅)) [].

(* ===================================================================== *)
(** * generate_dataset3.py: file names and directories of [save_dataset]  *)
(* ===================================================================== *)

(** Zeros in front of [s] up to [width] characters. *)
Definition zero_pad (width : nat) (s : string) : string :=
  string_repeat "0" (width - String.length s) +:+ s.

(** [f"{i:04d}"]: at least four characters, padded with zeros after the
    sign; longer numbers are printed in full. *)
Definition format_04d (i : Z) : string :=
  if i <? 0 then String "-" (zero_pad 3 (str_nat (- i))) else zero_pad 4 (str_nat i).

(** [Path(dir) / name], as a string. *)
Definition path_join (dir name : string) : string := dir +:+ "/" +:+ name.

(** Whether [cv2.rectangle] calls of a shape touch pixel (col, row): the
    filled square, or the border when there is one. *)
Definition touched (outline : Z -> Z -> Z -> Z -> Z -> Z -> Z -> bool)
    (p : Placement) (col row : Z) : bool :=
  let x := origin_x p in
  let y := origin_y p in
  let size := size_px p in
  covered outline (-1) x y (x + size) (y + size) col row
  || (has_border p && covered outline 2 x y (x + size) (y + size) col row).

(* ===================================================================== *)
(** * Sample collaborators for the scripts                                *)
(* ===================================================================== *)

(** A detector whose images are the lists of the numbers drawn on them and
    whose contours are their areas. *)
Definition accept_all : string -> option (list Z) := fun _ => Some [].

Definition detect_areas (areas : list Q) : string -> string -> Py unit :=
  detect_red_square (list Z) Q accept_all (fun _ => "annotated") (fun _ => areas)
    (fun area => area) (fun _ => (0, 0, 0, 0)) (fun _ => 4)
    (fun image k _ => k :: image) (fun _ => (0, 0)).

(* ===================================================================== *)
(** * predict_with_trained_model5.py: the other entry points              *)
(* ===================================================================== *)

(** [c.upper()] on an ASCII character. *)
Definition ascii_upper (c : ascii) : ascii :=
  let n := nat_of_ascii c in
  if ((97 <=? n) && (n <=? 122))%nat then ascii_of_nat (n - 32) else c.

(** [s.upper()] on an ASCII string. *)
Fixpoint str_upper (s : string) : string :=
  match s with
  | EmptyString => EmptyString
  | String c rest => String (ascii_upper c) (str_upper rest)
  end.

(** Line 102. *)
Definition image_extensions : list string := [".jpg"; ".jpeg"; ".png"; ".bmp"].

Section PredictorScripts.

Variable Model : Type.
Variable Result : Type.
Variable yolo_load : string -> Py Model.
Variable yolo_predict : Model -> string -> Q -> Py (list Result).
(** [model(image_path)], with the library's own confidence threshold *)
Variable yolo_predict_default : Model -> string -> Py (list Result).
Variable result_save : Result -> string -> Py unit.
Variable result_boxes : Result -> list Box.
Variable model_names : Model -> Z -> string.
Variable path_stem : string -> string.
(** [Path(path).name] and [Path(path).suffix] *)
Variable path_name : string -> string.
Variable path_suffix : string -> string.
(** [Path(dir).glob(pattern)]: the matching entries of the filesystem, in
    the order in which the operating system lists them *)
Variable path_glob : gmap string fsnode -> string -> string -> list string.

Definition glob (dir pattern : string) : Py (list string) :=
  fun w => (Returned (path_glob (files w) dir pattern), w).

(** Lines 105-107: two searches per extension, lower case first. *)
Fixpoint glob_images (images_dir : string) (extensions image_files : list string)
    : Py (list string) :=
  match extensions with
  | [] => ret image_files
  | ext :: rest =>
      lower <~ glob images_dir ("*" +:+ ext) ;;
      let image_files := image_files ++ lower in
      upper <~ glob images_dir ("*" +:+ str_upper ext) ;;
      let image_files := image_files ++ upper in
      glob_images images_dir rest image_files
  end.

(** Lines 134-144: the loop over the results of one image; the state is
    [total_detections]. *)
Fixpoint batch_results (results : list Result) (save_dir image_file : string)
    (total_detections : Z) : Py Z :=
  match results with
  | [] => ret total_detections
  | result :: rest =>
      let save_path := save_dir +:+ "/" +:+ path_stem image_file +:+ "_detected"
                       +:+ path_suffix image_file in
      run result_save result save_path ;;
      let num_detections := Z.of_nat (length (result_boxes result)) in
      let total_detections := total_detections + num_detections in
      run (if 0 <? num_detections
           then print ("  ✅ 检测到 " +:+ str_int num_detections +:+ " 个方块")
           else print "  ⚠️  未检测到方块") ;;
      batch_results rest save_dir image_file total_detections
  end.

(** Lines 127-144: the loop over the images. *)
Fixpoint batch_images (model : Model) (numbered : list (Z * string)) (count : Z)
    (save_dir : string) (total_detections : Z) : Py Z :=
  match numbered with
  | [] => ret total_detections
  | (i, image_file) :: rest =>
      run print (nl +:+ "[" +:+ str_int i +:+ "/" +:+ str_int count +:+ "] 处理: "
                 +:+ path_name image_file) ;;
      results <~ yolo_predict model image_file (25 # 100) ;;
      total_detections <~ batch_results results save_dir image_file total_detections ;;
      batch_images model rest count save_dir total_detections
  end.

Definition predict_batch_images (model_path images_dir save_dir : string) : Py unit :=
  run print ("🎯 使用模型: " +:+ model_path) ;;
  run print ("📁 图片目录: " +:+ images_dir) ;;
  run print (string_repeat "=" 60) ;;
  model_found <~ os_path_exists model_path ;;
  if negb model_found then
    print ("❌ 错误：找不到模型文件 '" +:+ model_path +:+ "'")
  else
    image_files <~ glob_images images_dir image_extensions [] ;;
    match image_files with
    | [] => print ("❌ 错误：在 '" +:+ images_dir +:+ "' 中未找到图片文件")
    | _ :: _ =>
        let count := Z.of_nat (length image_files) in
        run print (nl +:+ "📦 找到 " +:+ str_int count +:+ " 张图片") ;;
        run print (nl +:+ "🔄 正在加载模型...") ;;
        model <~ yolo_load model_path ;;
        run print "✅ 模型加载成功！" ;;
        run mkdir_exist_ok save_dir ;;
        run print (nl +:+ "🔍 开始批量检测...") ;;
        total_detections <~ batch_images model (enumerate 1 image_files) count save_dir 0 ;;
        run print (nl +:+ string_repeat "=" 60) ;;
        run print "📊 批量检测完成！" ;;
        run print ("  📷 处理图片: " +:+ str_int count +:+ " 张") ;;
        run print ("  🟥 总检测数: " +:+ str_int total_detections +:+ " 个方块") ;;
        run print ("  💾 结果保存: " +:+ save_dir +:+ "/") ;;
        print (string_repeat "=" 60)
    end.

(** [results[0]]. *)
Definition first_result (results : list Result) : Py Result :=
  match results with
  | [] => raise IndexError
  | result :: _ => ret result
  end.

Definition predict_with_onnx (onnx_path image_path : string) : Py unit :=
  run print ("🎯 使用 ONNX 模型: " +:+ onnx_path) ;;
  run print ("📷 检测图片: " +:+ image_path) ;;
  found <~ os_path_exists onnx_path ;;
  if negb found then
    print ("❌ 错误：找不到 ONNX 模型 '" +:+ onnx_path +:+ "'")
  else
    model <~ yolo_load onnx_path ;;
    results <~ yolo_predict_default model image_path ;;
    first <~ first_result results ;;
    print ("✅ ONNX 模型预测完成！检测到 "
           +:+ str_int (Z.of_nat (length (result_boxes first))) +:+ " 个方块").

(** [main] of predict_with_trained_model5.py, lines 175-210. *)
Definition predict_main : Py unit :=
  run print "🚀 红色方块检测器 - 使用训练好的模型" ;;
  run print (string_repeat "=" 60) ;;
  let model_path := "runs/train/square_detector/weights/best.pt" in
  run print (nl +:+ "【方式 1】预测单张图片") ;;
  run predict_single_image Model Result yolo_load yolo_predict result_save result_boxes
        model_names path_stem model_path "test_images/test_image_1.jpg" "predictions" ;;
  run print (nl +:+ "🎉 预测完成！") ;;
  run print (nl +:+ "💡 提示：") ;;
  run print "  - 修改 main() 函数中的图片路径来预测其他图片" ;;
  print "  - 取消注释可以启用批量预测或 ONNX 模型预测".

End PredictorScripts.

(** [main] of helloTest2.py, lines 153-161; the output path is the default
    of [detect_red_square]. *)
Definition detect_main (Image Contour : Type) (cv2_decode : string -> option Image)
    (cv2_encode : Image -> string) (red_contours : Image -> list Contour)
    (contour_area : Contour -> Q) (bounding_rect : Contour -> Z * Z * Z * Z)
    (approx_vertices : Contour -> Z) (draw_detection : Image -> Z -> Contour -> Image)
    (image_shape : Image -> Z * Z) : Py unit :=
  let image_path := "test_images/test_image_1.jpg" in
  detect_red_square Image Contour cv2_decode cv2_encode red_contours contour_area
    bounding_rect approx_vertices draw_detection image_shape image_path
    "red_square_detected.png".

(** Sample predictors: results are their lists of boxes. *)
Definition sample_box : Box := mkBox 10 20 110 120 (9 # 10) 0.

Definition predict_fixed (results : list (list Box)) : string -> string -> string -> Py unit :=
  predict_single_image unit (list Box) (fun _ => ret tt) (fun _ _ _ => ret results)
    (fun _ _ => ret tt) (fun boxes => boxes) (fun _ _ => "red_square") (fun path => path).

(** The image files that [predict_batch_images] collects: for each
    extension the matches of the lower-case pattern, then those of the
    upper-case one. *)
Definition found_images (path_glob : gmap string fsnode -> string -> string -> list string)
    (fs : gmap string fsnode) (images_dir : string) : list string :=
  flat_map (fun ext => path_glob fs images_dir ("*" +:+ ext)
                       ++ path_glob fs images_dir ("*" +:+ str_upper ext))
           image_extensions.

(** A directory listing that knows two pictures, under either case. *)
Definition two_pictures (fs : gmap string fsnode) (dir pattern : string) : list string :=
  if String.eqb pattern "*.jpg" then [dir +:+ "/a.jpg"]
  else if String.eqb pattern "*.PNG" then [dir +:+ "/B.PNG"]
  else [].

Definition batch_sample (path_glob : gmap string fsnode -> string -> string -> list string)
    (yolo_load : string -> Py unit) : string -> string -> string -> Py unit :=
  predict_batch_images unit (list Box) yolo_load (fun _ _ _ => ret [])
    (fun _ _ => ret tt) (fun boxes => boxes) (fun path => path) (fun path => path)
    (fun _ => ".jpg") path_glob.

Definition onnx_sample (results : list (list Box)) : string -> string -> Py unit :=
  predict_with_onnx unit (list Box) (fun _ => ret tt) (fun _ _ => ret results)
    (fun boxes => boxes).

Definition main_sample (yolo_load : string -> Py unit) : Py unit :=
  predict_main unit (list Box) yolo_load (fun _ _ _ => ret [])
    (fun _ _ => ret tt) (fun boxes => boxes) (fun _ _ => "red_square") (fun path => path).

(* ===================================================================== *)
(** * generate_dataset3.py: [save_dataset]                                *)
(* ===================================================================== *)

(** [range(n)]. *)
Definition range (n : Z) : list Z := map Z.of_nat (seq 0 (Z.to_nat n)).

(** [(Path(path) / below[0] / ...).mkdir(parents=True, exist_ok=True)]:
    the missing directories are created from the top, existing ones are
    kept; a regular file in the way raises FileExistsError when it is the
    path itself and NotADirectoryError when it is one of its ancestors. *)
Fixpoint makedirs (path : string) (below : list string) : Py unit :=
  fun w =>
    match files w !! path with
    | Some (RegularFile _) =>
        (Raised (match below with
                 | [] => FileExistsError
                 | _ :: _ => ExternalError "NotADirectoryError"
                 end), w)
    | node =>
        let w' := match node with
                  | None => with_files (<[path := Directory]> (files w)) w
                  | Some _ => w
                  end in
        match below with
        | [] => (Returned tt, w')
        | name :: rest => makedirs (path_join path name) rest w'
        end
    end.

(** [open(label_path, 'w')] and the writes of lines 108-110: a directory
    under that name raises IsADirectoryError. *)
Definition write_labels (label_path : string) (labels : list Label) : Py unit :=
  fun w =>
    match files w !! label_path with
    | Some Directory => (Raised (ExternalError "IsADirectoryError"), w)
    | _ => write_label_file label_path labels w
    end.

(** The paths of sample [i] of a split and of test image [i]. *)
Definition split_image_path (split : string) (i : Z) : string :=
  path_join (path_join (path_join "dataset" "images") split)
            (split +:+ "_" +:+ format_04d i +:+ ".jpg").

Definition split_label_path (split : string) (i : Z) : string :=
  path_join (path_join (path_join "dataset" "labels") split)
            (split +:+ "_" +:+ format_04d i +:+ ".txt").

Definition test_image_path (i : Z) : string :=
  path_join "test_images" ("test_image_" +:+ str_int (i + 1) +:+ ".jpg").

Section DatasetWriter.

Variable outline : Z -> Z -> Z -> Z -> Z -> Z -> Z -> bool.
(** the JPEG encoder behind [cv2.imwrite] *)
Variable jpeg_encode : Canvas -> string.
(** what [cv2.imwrite] does when a directory has the name of the file *)
Variable imwrite_blocked : string -> Canvas -> Py unit.
(** [Path(path).absolute()], which depends on the working directory *)
Variable path_absolute : string -> string.

(** [cv2.imwrite(str(path), image)] of an image that is not empty, into a
    directory that exists. *)
Definition imwrite_jpg (path : string) (image : Canvas) : Py unit :=
  fun w =>
    match files w !! path with
    | Some Directory => imwrite_blocked path image w
    | _ => cv2_imwrite Canvas jpeg_encode path image w
    end.

(** Lines 98-113 with [split = "train"] and a progress line every 50
    samples; lines 119-134 with [split = "val"] and one every 20. *)
Definition save_sample (split : string) (every count img_size : Z) (i : Z) : Py unit :=
  sample <~ generate_red_square_image outline img_size None ;;
  let '(image, labels) := sample in
  let img_path := split_image_path split i in
  run imwrite_jpg img_path image ;;
  let label_path := split_label_path split i in
  run write_labels label_path labels ;;
  if (i + 1) mod every =? 0
  then print ("  ✓ 已生成 " +:+ str_int (i + 1) +:+ "/" +:+ str_int count +:+ " 张")
  else ret tt.

(** Lines 143-146. *)
Definition save_test_image (img_size : Z) (i : Z) : Py unit :=
  sample <~ generate_red_square_image outline img_size None ;;
  let '(image, _) := sample in
  let test_path := test_image_path i in
  imwrite_jpg test_path image.

Definition save_dataset (num_train num_val img_size : Z) : Py unit :=
  run print "🎨 开始生成红色方块数据集" ;;
  run print (string_repeat "=" 60) ;;
  let base_dir := "dataset" in
  run for_each ["train"; "val"]
        (fun split =>
           run makedirs base_dir ["images"; split] ;;
           makedirs base_dir ["labels"; split]) ;;
  run print (nl +:+ "📦 生成训练集：" +:+ str_int num_train +:+ " 张图片...") ;;
  run for_each (range num_train) (save_sample "train" 50 num_train img_size) ;;
  run print "✅ 训练集完成！" ;;
  run print (nl +:+ "📦 生成验证集：" +:+ str_int num_val +:+ " 张图片...") ;;
  run for_each (range num_val) (save_sample "val" 20 num_val img_size) ;;
  run print "✅ 验证集完成！" ;;
  run print (nl +:+ "📦 生成测试图片：5 张...") ;;
  let test_dir := "test_images" in
  run mkdir_exist_ok test_dir ;;
  run for_each (range 5) (save_test_image img_size) ;;
  run print "✅ 测试图片已保存到 test_images/ 目录！" ;;
  run print (nl +:+ string_repeat "=" 60) ;;
  run print "📊 数据集生成完成！" ;;
  run print ("  📁 数据集位置: " +:+ path_absolute base_dir) ;;
  run print ("  📷 训练集: " +:+ str_int num_train +:+ " 张图片") ;;
  run print ("  📷 验证集: " +:+ str_int num_val +:+ " 张图片") ;;
  run print ("  🖼️  图片尺寸: " +:+ str_int img_size +:+ "x" +:+ str_int img_size) ;;
  run print "  🎯 类别: red_square (ID=0)" ;;
  run print (nl +:+ "💡 下一步：") ;;
  run print "  1. 运行训练: python3 train_custom_yolo4.py" ;;
  run print "  2. 或先查看生成的图片确认效果" ;;
  print (string_repeat "=" 60).

End DatasetWriter.

(** The directories of the dataset, in the order of their creation, and the
    directory of the test images. *)
Definition dataset_dirs : list string :=
  ["dataset"; "dataset/images"; "dataset/images/train"; "dataset/labels";
   "dataset/labels/train"; "dataset/images/val"; "dataset/labels/val"].

Definition test_dir : string := "test_images".

(** Whether [s] ends with [suffix]. *)
Fixpoint ends_with (suffix s : string) : bool :=
  String.eqb s suffix
  || match s with
     | EmptyString => false
     | String _ rest => ends_with suffix rest
     end.

(** A file name that [save_dataset] may write to: no directory of the
    dataset has such a name. *)
Definition sample_name (path : string) : bool :=
  ends_with ".jpg" path || ends_with ".txt" path.

(** The progress lines of the first [n] samples of a split. *)
Definition progress_lines (every count : Z) (n : nat) : list string :=
  flat_map (fun i => if (i + 1) mod every =? 0
                     then ["  ✓ 已生成 " +:+ str_int (i + 1) +:+ "/" +:+ str_int count +:+ " 张"]
                     else [])
           (map Z.of_nat (seq 0 n)).

(** What the generator hands to the writer on a canvas of side
    [img_size]: a picture of that side and one to three annotations inside
    the unit square. *)
Definition well_formed_sample (img_size : Z) (image : Canvas) (labels : list Label) : Prop :=
  side image = img_size
  /\ (1 <= length labels <= 3)%nat
  /\ Forall (fun label => class_id label = 0
                          /\ (0 < center_x label < 1)%Q /\ (0 < center_y label < 1)%Q
                          /\ (0 < width label <= 1)%Q /\ height label = width label) labels.

(** The paths that [Path.mkdir(parents=True)] visits. *)
Fixpoint ancestors (path : string) (below : list string) : list string :=
  path :: match below with
          | [] => []
          | name :: rest => ancestors (path_join path name) rest
          end.

(** Sample [i] of a split, and test image [i], are on the disk. *)
Definition sample_saved (jpeg_encode : Canvas -> string) (img_size : Z) (split : string)
    (fs : gmap string fsnode) (i : Z) : Prop :=
  exists (image : Canvas) (labels : list Label),
    well_formed_sample img_size image labels
    /\ fs !! split_image_path split i = Some (RegularFile (jpeg_encode image))
    /\ fs !! split_label_path split i = Some (RegularFile (label_text labels)).

Definition test_saved (jpeg_encode : Canvas -> string) (img_size : Z)
    (fs : gmap string fsnode) (i : Z) : Prop :=
  exists image : Canvas,
    side image = img_size /\ fs !! test_image_path i = Some (RegularFile (jpeg_encode image)).

(** No directory has the name of a picture or of a label file. *)
Definition no_directory_named_as_sample (fs : gmap string fsnode) : Prop :=
  forall path, fs !! path = Some Directory -> sample_name path = false.

(** Every path that [save_dataset] creates or writes. *)
Definition written_paths (num_train num_val : Z) : list string :=
  test_dir :: dataset_dirs
  ++ flat_map (fun i => [split_image_path "train" i; split_label_path "train" i]) (range num_train)
  ++ flat_map (fun i => [split_image_path "val" i; split_label_path "val" i]) (range num_val)
  ++ map test_image_path (range 5).

(** A dataset writer for the examples. *)
Definition dataset_sample : Z -> Z -> Z -> Py unit :=
  save_dataset inner_frame (fun _ => "jpeg") (fun _ _ => ret tt) (fun path => "/work/" +:+ path).

(** What a run of mkdir calls may do to the world: add directories where
    there was nothing, and nothing else. *)
Definition only_adds_directories (w w' : World) : Prop :=
  stdout w' = stdout w /\ py_random w' = py_random w /\ np_random w' = np_random w
  /\ forall p, files w' !! p = files w !! p
               \/ (files w !! p = None /\ files w' !! p = Some Directory).

(** The exceptions of a mkdir that finds a regular file in its way. *)
Definition blocked_by_file (e : pyexn) : Prop :=
  e = FileExistsError \/ e = ExternalError "NotADirectoryError".

(** A computation that behaves like a sequence of mkdir calls for the
    directories [dirs]. *)
Definition mkdir_like (dirs : list string) (m : Py unit) : Prop :=
  forall w : World,
    exists (o : outcome unit) (w' : World),
      m w = (o, w')
      /\ only_adds_directories w w'
      /\ match o with
         | Returned _ => forall d, In d dirs -> files w' !! d = Some Directory
         | Raised e => blocked_by_file e
         end.

(** A world in which a regular file has the name of a dataset directory. *)
Definition blocked_world : World :=
  world_of (stepping_tape (37 # 100)) (stepping_tape (37 # 1000))
           (<["dataset/images" := RegularFile "notes"]> (<["dataset" := Directory]> ∅)) [].

Definition detect_main_sample : Py unit :=
  detect_main (list Z) Q accept_all (fun _ => "annotated") (fun _ => [600 # 1; 10 # 1]%Q)
    (fun area => area) (fun _ => (0, 0, 0, 0)) (fun _ => 4)
    (fun image k _ => k :: image) (fun _ => (0, 0)).

(** The sum of a list of integers. *)
Definition sum_Z (values : list Z) : Z := fold_right Z.add 0 values.

(** The boxes in the results of the pictures [image_files], for a library
    whose prediction for a picture is [detections]. *)
Definition boxes_in {Result : Type} (result_boxes : Result -> list Box)
    (detections : string -> list Result) (image_files : list string) : Z :=
  sum_Z (map (fun image_file =>
                sum_Z (map (fun result => Z.of_nat (length (result_boxes result)))
                           (detections image_file)))
             image_files).

Definition batch_quiet (detections : string -> list (list Box)) : string -> string -> string -> Py unit :=
  predict_batch_images unit (list Box) (fun _ => ret tt) (fun _ image_file _ => ret (detections image_file))
    (fun _ _ => ret tt) (fun boxes => boxes) (fun path => path) (fun path => path)
    (fun _ => ".jpg") two_pictures.

(* ===================================================================== *)
(** * Facts about the random source                                       *)
(* ===================================================================== *)

Lemma frac_range (q : Q) : (0 <= frac q < 1)%Q.
Proof.
  unfold frac. pose proof (Qfloor_le q) as Hlo. pose proof (Qlt_floor q) as Hhi.
  rewrite inject_Z_plus in Hhi. change (inject_Z 1) with 1%Q in Hhi. lra.
Qed.

Lemma peek_range (e : Entropy) (k : nat) : (0 <= peek e k < 1)%Q.
Proof. apply frac_range. Qed.

Lemma peek_skip (e : Entropy) (j k : nat) : peek (skip e j) k = peek e (j + k).
Proof. unfold peek, skip. simpl. now rewrite Nat.add_assoc. Qed.

Lemma skip_skip (e : Entropy) (j k : nat) : skip (skip e j) k = skip e (j + k).
Proof. unfold skip. simpl. now rewrite Nat.add_assoc. Qed.

Lemma inject_Z_pos (n : Z) : 0 < n -> (0 < inject_Z n)%Q.
Proof. intros H. unfold Qlt. simpl. lia. Qed.

(** The floor of [q] is [k] exactly on the interval [k, k+1). *)
Lemma Qfloor_iff (q : Q) (k : Z) :
  Qfloor q = k <-> (inject_Z k <= q < inject_Z (k + 1))%Q.
Proof.
  split.
  - intros <-. split; [apply Qfloor_le | apply Qlt_floor].
  - intros [Hlo Hhi].
    assert (H1 : k <= Qfloor q).
    { rewrite <- (Qfloor_Z k). now apply Qfloor_resp_le. }
    assert (H2 : Qfloor q < k + 1).
    { rewrite Zlt_Qlt. eapply Qle_lt_trans; [apply Qfloor_le | exact Hhi]. }
    lia.
Qed.

Lemma scale_range (u : Q) (n : Z) :
  (0 <= u < 1)%Q -> 0 < n -> 0 <= Qfloor (u * inject_Z n) < n.
Proof.
  intros [Hu0 Hu1] Hn.
  assert (Hn' : (0 < inject_Z n)%Q) by (now apply inject_Z_pos).
  split.
  - rewrite <- (Qfloor_Z 0). apply Qfloor_resp_le.
    apply Qmult_le_0_compat; [exact Hu0 | now apply Qlt_le_weak].
  - rewrite Zlt_Qlt. eapply Qle_lt_trans; [apply Qfloor_le |].
    nra.
Qed.

Lemma randint_val_range (a b : Z) (u : Q) :
  a <= b -> (0 <= u < 1)%Q -> a <= randint_val a b u <= b.
Proof.
  intros Hab Hu. unfold randint_val.
  pose proof (scale_range u (b - a + 1) Hu ltac:(lia)). lia.
Qed.

Lemma np_randint_val_range (low high : Z) (u : Q) :
  low < high -> (0 <= u < 1)%Q -> low <= np_randint_val low high u < high.
Proof.
  intros Hab Hu. unfold np_randint_val.
  pose proof (scale_range u (high - low) Hu ltac:(lia)). lia.
Qed.

(** Scaling the unit interval by [n] and taking the floor is uniform. *)
Lemma scale_uniform (u : Q) (n k : Z) :
  0 < n ->
  (Qfloor (u * inject_Z n) = k <->
   (inject_Z k / inject_Z n <= u < inject_Z (k + 1) / inject_Z n)%Q).
Proof.
  intros Hn.
  assert (Hn' : (0 < inject_Z n)%Q) by (now apply inject_Z_pos).
  rewrite Qfloor_iff. split; intros [Hlo Hhi]; split.
  - apply Qle_shift_div_r; assumption.
  - apply Qlt_shift_div_l; assumption.
  - apply (Qmult_le_r _ _ (/ inject_Z n)); [now apply Qinv_lt_0_compat |].
    rewrite <- Qmult_assoc, Qmult_inv_r, Qmult_1_r by lra.
    exact Hlo.
  - apply (Qmult_lt_r _ _ (/ inject_Z n)); [now apply Qinv_lt_0_compat |].
    rewrite <- Qmult_assoc, Qmult_inv_r, Qmult_1_r by lra.
    exact Hhi.
Qed.

Lemma randint_uniform (a b : Z) : a <= b -> uniform_on a b (randint_val a b).
Proof.
  intros Hab u Hu v. unfold randint_val.
  pose proof (scale_range u (b - a + 1) Hu ltac:(lia)) as Hr.
  pose proof (scale_uniform u (b - a + 1) (v - a) ltac:(lia)) as Hs.
  split.
  - intros <-. split; [lia |]. apply Hs. lia.
  - intros [_ Hi]. apply Hs in Hi. lia.
Qed.

Lemma np_randint_uniform (low high : Z) :
  low < high -> uniform_on low (high - 1) (np_randint_val low high).
Proof.
  intros Hab u Hu v. unfold np_randint_val.
  replace (high - 1 - low + 1) with (high - low) by lia.
  pose proof (scale_range u (high - low) Hu ltac:(lia)) as Hr.
  pose proof (scale_uniform u (high - low) (v - low) ltac:(lia)) as Hs.
  split.
  - intros <-. split; [lia |]. apply Hs. lia.
  - intros [_ Hi]. apply Hs in Hi. lia.
Qed.

(* ===================================================================== *)
(** * The generator in closed form                                        *)
(* ===================================================================== *)

Lemma bind_returned {A B} (m : Py A) (k : A -> Py B) (w w' : World) (a : A) :
  m w = (Returned a, w') -> bind m k w = k a w'.
Proof. intros H. unfold bind. now rewrite H. Qed.

Lemma bind_raised {A B} (m : Py A) (k : A -> Py B) (w w' : World) (e : pyexn) :
  m w = (Raised e, w') -> bind m k w = (Raised e, w').
Proof. intros H. unfold bind. now rewrite H. Qed.

Lemma randint_returned (a b : Z) (w : World) :
  a <= b ->
  randint a b w = (Returned (randint_val a b (peek (py_random w) 0)),
                   with_py_random (skip (py_random w) 1) w).
Proof. intros H. unfold randint. now rewrite (proj2 (Z.leb_le a b) H). Qed.

Lemma randint_raised (a b : Z) (w : World) :
  b < a -> randint a b w = (Raised ValueError, w).
Proof. intros H. unfold randint. now rewrite (proj2 (Z.leb_gt a b) H). Qed.

Lemma placement_at_size (img_size : Z) (e : Entropy) (k : nat) :
  50 <= size_px (placement_at img_size e k) <= 200.
Proof. simpl. apply randint_val_range; [lia | apply peek_range]. Qed.

Lemma truediv_returned (a b : Q) :
  ~ (b == 0)%Q -> forall w, truediv a b w = (Returned (a / b)%Q, w).
Proof.
  intros Hb w. unfold truediv.
  destruct (Qeq_bool b 0) eqn:E; [| reflexivity].
  apply Qeq_bool_eq in E. contradiction.
Qed.

Lemma inject_Z_nonzero (n : Z) : n <> 0 -> ~ (inject_Z n == 0)%Q.
Proof. intros H E. unfold Qeq in E. simpl in E. lia. Qed.

Section Generator.

Variable outline : Z -> Z -> Z -> Z -> Z -> Z -> Z -> bool.

(** One iteration, when the drawn side fits the canvas. *)
Lemma draw_square_returned (img_size : Z) (image : Canvas) (w : World) :
  let p := placement_at img_size (py_random w) 0 in
  fits img_size p = true ->
  draw_square outline img_size image w =
    (Returned (paint outline image p, annotation_of img_size p, p),
     with_py_random (skip (py_random w) 5) w).
Proof.
  intros p Hfit. unfold fits in Hfit. apply Z.leb_le in Hfit.
  pose proof (placement_at_size img_size (py_random w) 0) as Hsize. fold p in Hsize.
  simpl in Hfit, Hsize.
  assert (Hroom : 0 <= img_size - randint_val 50 200 (peek (py_random w) 0)) by lia.
  unfold draw_square.
  rewrite (bind_returned _ _ _ _ _ (randint_returned 50 200 w ltac:(lia))).
  rewrite (bind_returned _ _ _ _ _ (randint_returned 0 _ _ Hroom)).
  rewrite (bind_returned _ _ _ _ _ (randint_returned 0 _ _ Hroom)).
  unfold bind at 1, choice at 1, red_variations at 1.
  unfold bind at 1, random at 1.
  assert (Hnz : ~ (inject_Z img_size == 0)%Q) by (apply inject_Z_nonzero; lia).
  rewrite !(bind_returned _ _ _ _ _ (truediv_returned _ _ Hnz _)).
  unfold ret. simpl. rewrite !skip_skip, !peek_skip. simpl.
  reflexivity.
Qed.

(** One iteration, when the drawn side exceeds the canvas side: the
    draw of the origin raises. *)
Lemma draw_square_raised (img_size : Z) (image : Canvas) (w : World) :
  fits img_size (placement_at img_size (py_random w) 0) = false ->
  draw_square outline img_size image w =
    (Raised ValueError, with_py_random (skip (py_random w) 1) w).
Proof.
  intros Hfit. unfold fits in Hfit. apply Z.leb_gt in Hfit. simpl in Hfit.
  unfold draw_square.
  rewrite (bind_returned _ _ _ _ _ (randint_returned 50 200 w ltac:(lia))).
  apply bind_raised. apply randint_raised. lia.
Qed.

End Generator.

Lemma skip_0 (e : Entropy) : skip e 0 = e.
Proof. destruct e as [t c]. unfold skip. simpl. now rewrite Nat.add_0_r. Qed.

Lemma with_py_random_same (w : World) : with_py_random (py_random w) w = w.
Proof. now destruct w. Qed.

Lemma placement_at_skip (img_size : Z) (e : Entropy) (j k : nat) :
  placement_at img_size (skip e j) k = placement_at img_size e (j + k).
Proof.
  unfold placement_at. rewrite !peek_skip.
  now replace (j + (k + 1))%nat with (j + k + 1)%nat by lia;
      replace (j + (k + 2))%nat with (j + k + 2)%nat by lia;
      replace (j + (k + 3))%nat with (j + k + 3)%nat by lia;
      replace (j + (k + 4))%nat with (j + k + 4)%nat by lia.
Qed.

Lemma placements_from_skip (img_size : Z) (e : Entropy) (j k count : nat) :
  placements_from img_size (skip e j) k count = placements_from img_size e (j + k) count.
Proof.
  unfold placements_from. apply map_ext. intros i.
  rewrite placement_at_skip. f_equal. lia.
Qed.

Lemma placements_from_S (img_size : Z) (e : Entropy) (k count : nat) :
  placements_from img_size e k (S count) =
  placement_at img_size e k :: placements_from img_size e (k + 5) count.
Proof.
  unfold placements_from. simpl. f_equal.
  - f_equal. lia.
  - rewrite <- seq_shift, map_map. apply map_ext. intros i. f_equal. lia.
Qed.

Lemma placements_from_length (img_size : Z) (e : Entropy) (k count : nat) :
  length (placements_from img_size e k count) = count.
Proof. unfold placements_from. now rewrite length_map, length_seq. Qed.

Lemma placements_from_lookup (img_size : Z) (e : Entropy) (k count i : nat) (p : Placement) :
  nth_error (placements_from img_size e k count) i = Some p ->
  (i < count)%nat /\ p = placement_at img_size e (k + 5 * i).
Proof.
  intros H. unfold placements_from in H.
  assert (Hi : (i < count)%nat).
  { assert (Hn : nth_error (map (fun i => placement_at img_size e (k + 5 * i)) (seq 0 count)) i <> None)
      by congruence.
    apply nth_error_Some in Hn. now rewrite length_map, length_seq in Hn. }
  split; [exact Hi |].
  rewrite nth_error_map, nth_error_seq in H.
  destruct (Nat.ltb_spec i count); [| lia].
  cbn [option_map] in H. injection H as <-. reflexivity.
Qed.

Section GeneratorLoop.

Variable outline : Z -> Z -> Z -> Z -> Z -> Z -> Z -> bool.

Lemma draw_squares_returned (img_size : Z) (count : nat) :
  forall (image : Canvas) (labels : list Label) (shapes : list Placement) (w : World),
    let ps := placements_from img_size (py_random w) 0 count in
    forallb (fits img_size) ps = true ->
    draw_squares outline count img_size image labels shapes w =
      (Returned (fold_left (paint outline) ps image,
                 labels ++ map (annotation_of img_size) ps,
                 shapes ++ ps),
       with_py_random (skip (py_random w) (5 * count)) w).
Proof.
  induction count as [| count IH]; intros image labels shapes w ps Hfit.
  - simpl. unfold ret. now rewrite !app_nil_r, skip_0, with_py_random_same.
  - subst ps. rewrite placements_from_S in *. simpl in Hfit.
    apply andb_prop in Hfit as [Hfit1 Hfit2].
    cbn [draw_squares].
    rewrite (bind_returned _ _ _ _ _ (draw_square_returned outline img_size image w Hfit1)).
    cbn beta iota.
    rewrite IH.
    + cbn [py_random with_py_random].
      rewrite placements_from_skip. rewrite skip_skip.
      cbn [fold_left map]. rewrite <- !app_assoc. cbn [app].
      replace (5 + 5 * count)%nat with (5 * S count)%nat by lia.
      replace (5 + 0)%nat with (0 + 5)%nat by lia.
      reflexivity.
    + cbn [py_random with_py_random]. rewrite placements_from_skip.
      now replace (5 + 0)%nat with (0 + 5)%nat by lia.
Qed.

Lemma draw_squares_raised (img_size : Z) (count : nat) :
  forall (image : Canvas) (labels : list Label) (shapes : list Placement) (w : World),
    forallb (fits img_size) (placements_from img_size (py_random w) 0 count) = false ->
    fst (draw_squares outline count img_size image labels shapes w) = Raised ValueError.
Proof.
  induction count as [| count IH]; intros image labels shapes w Hfit.
  - discriminate.
  - rewrite placements_from_S in Hfit. simpl in Hfit.
    cbn [draw_squares].
    destruct (fits img_size (placement_at img_size (py_random w) 0)) eqn:Hfit1.
    + rewrite (bind_returned _ _ _ _ _ (draw_square_returned outline img_size image w Hfit1)).
      cbn beta iota. apply IH.
      cbn [py_random with_py_random]. rewrite placements_from_skip.
      now replace (5 + 0)%nat with (0 + 5)%nat by lia.
    + now rewrite (bind_raised _ _ _ _ _ (draw_square_raised outline img_size image w Hfit1)).
Qed.

End GeneratorLoop.

Lemma clamp_range (v : Z) : 0 <= clamp v 0 255 <= 255.
Proof. unfold clamp. destruct (Z.ltb_spec v 0), (Z.ltb_spec 255 v); lia. Qed.

(** The casts of the background computation lose nothing: the value is
    the saturated sum. *)
Lemma noisy_channel_value (bg noise : Z) :
  50 <= bg <= 255 -> -30 <= noise < 30 ->
  astype_uint8 (np_clip (astype_int16 (astype_int16 (astype_uint8 bg) + astype_int16 noise)) 0 255)
  = clamp (bg + noise) 0 255.
Proof.
  intros Hbg Hn. unfold astype_uint8, astype_int16, np_clip, clamp.
  rewrite (Z.mod_small bg 256) by lia.
  rewrite (Z.mod_small (bg + 32768)) by lia.
  rewrite (Z.mod_small (noise + 32768)) by lia.
  replace (bg + 32768 - 32768 + (noise + 32768 - 32768) + 32768) with (bg + noise + 32768) by lia.
  rewrite (Z.mod_small (bg + noise + 32768)) by lia.
  destruct (Z.ltb_spec (bg + noise) 0), (Z.ltb_spec 255 (bg + noise));
    try lia; rewrite Z.mod_small; lia.
Qed.

(** A bright background with noise on top saturates at 255; taken modulo
    256 it would have become dark. *)
Example saturation_not_wraparound :
  clamp (255 + 29) 0 255 = 255 /\ astype_uint8 (255 + 29) = 28.
Proof. split; reflexivity. Qed.

Lemma bg_color_at_range (e : Entropy) (ch : Z) :
  0 <= ch < 3 -> 50 <= nth (Z.to_nat ch) (bg_color_at e) 0 <= 255.
Proof.
  intros Hch. unfold bg_color_at.
  pose proof (randint_val_range 100 255 (peek e 0) ltac:(lia) (peek_range e 0)).
  pose proof (randint_val_range 100 255 (peek e 1) ltac:(lia) (peek_range e 1)).
  pose proof (randint_val_range 50 150 (peek e 2) ltac:(lia) (peek_range e 2)).
  assert (Hc : ch = 0 \/ ch = 1 \/ ch = 2) by lia.
  destruct Hc as [-> | [-> | ->]]; simpl; lia.
Qed.

Lemma noise_at_range (e : Entropy) (n row col ch : Z) :
  -30 <= noise_at e n row col ch <= 29.
Proof.
  unfold noise_at.
  pose proof (np_randint_val_range (-30) 30 (peek e (noise_index n row col ch))
                ltac:(lia) (peek_range _ _)).
  lia.
Qed.

(** Different channels of different pixels read different tape cells. *)
Lemma noise_index_inj (n row col ch row' col' ch' : Z) :
  0 <= row -> 0 <= col < n -> 0 <= ch < 3 ->
  0 <= row' -> 0 <= col' < n -> 0 <= ch' < 3 ->
  noise_index n row col ch = noise_index n row' col' ch' ->
  row = row' /\ col = col' /\ ch = ch'.
Proof.
  intros Hr Hc Hch Hr' Hc' Hch' H. unfold noise_index in H.
  apply Z2Nat.inj in H; [| nia | nia].
  assert (Hrc : row * n + col = row' * n + col') by lia.
  assert (ch = ch') by lia.
  assert (row = row') by nia.
  subst. lia.
Qed.

Lemma background_returned (img_size : Z) (w : World) :
  0 <= img_size ->
  exists image : Canvas,
    background img_size w = (Returned image, after_background img_size w)
    /\ side image = img_size
    /\ forall row col ch, 0 <= ch < 3 ->
         pix image row col ch =
         clamp (nth (Z.to_nat ch) (bg_color_at (py_random w)) 0
                + noise_at (np_random w) img_size row col ch) 0 255.
Proof.
  intros Hsize. unfold background.
  rewrite (bind_returned _ _ _ _ _ (randint_returned 100 255 w ltac:(lia))).
  rewrite (bind_returned _ _ _ _ _ (randint_returned 100 255 _ ltac:(lia))).
  rewrite (bind_returned _ _ _ _ _ (randint_returned 50 150 _ ltac:(lia))).
  unfold np_full. rewrite (proj2 (Z.ltb_ge img_size 0) Hsize).
  unfold bind at 1, ret at 1. unfold bind at 1, np_random_randint at 1.
  change (-30 <? 30) with true. cbv beta iota. unfold ret.
  eexists. split; [| split].
  - unfold after_background. cbn [py_random np_random with_py_random with_np_random files stdout].
    rewrite !skip_skip. reflexivity.
  - reflexivity.
  - intros row col ch Hch. cbn [pix add_noise np_random py_random with_py_random].
    rewrite !peek_skip.
    change (nth (Z.to_nat ch)
              [randint_val 100 255 (peek (py_random w) 0);
               randint_val 100 255 (peek (py_random w) (1 + 0));
               randint_val 50 150 (peek (py_random w) (1 + 1 + 0))] 0)
      with (nth (Z.to_nat ch) (bg_color_at (py_random w)) 0).
    change (np_randint_val (-30) 30 (peek (np_random w) (noise_index img_size row col ch)))
      with (noise_at (np_random w) img_size row col ch).
    apply noisy_channel_value.
    + now apply bg_color_at_range.
    + pose proof (noise_at_range (np_random w) img_size row col ch). lia.
Qed.

Lemma background_raised (img_size : Z) (w : World) :
  img_size < 0 -> fst (background img_size w) = Raised ValueError.
Proof.
  intros Hsize. unfold background.
  rewrite (bind_returned _ _ _ _ _ (randint_returned 100 255 w ltac:(lia))).
  rewrite (bind_returned _ _ _ _ _ (randint_returned 100 255 _ ltac:(lia))).
  rewrite (bind_returned _ _ _ _ _ (randint_returned 50 150 _ ltac:(lia))).
  unfold np_full. rewrite (proj2 (Z.ltb_lt img_size 0) Hsize).
  reflexivity.
Qed.

Section GeneratorCall.

Variable outline : Z -> Z -> Z -> Z -> Z -> Z -> Z -> bool.

(** A call returns when the canvas side is not negative and every
    planned shape fits; the result is then the closed form. *)
Lemma generate_traced_returned (img_size : Z) (num_squares : option Z) (w : World) :
  let ps := planned_shapes img_size num_squares (py_random w) in
  0 <= img_size ->
  forallb (fits img_size) ps = true ->
  exists bg : Canvas,
    background img_size w = (Returned bg, after_background img_size w)
    /\ generate_traced outline img_size num_squares w =
         (Returned (fold_left (paint outline) ps bg, map (annotation_of img_size) ps, ps),
          after_generate img_size num_squares w).
Proof.
  intros ps Hsize Hfit.
  destruct (background_returned img_size w Hsize) as (bg & Hbg & _ & _).
  exists bg. split; [exact Hbg |].
  unfold generate_traced. rewrite (bind_returned _ _ _ _ _ Hbg).
  subst ps. unfold planned_shapes, after_generate in *.
  destruct num_squares as [n |]; cbn [first_shape_draw drawn_count] in *.
  - unfold bind at 1, ret at 1.
    rewrite draw_squares_returned.
    + cbn [py_random after_background with_py_random with_np_random np_random files stdout].
      rewrite placements_from_skip, skip_skip. reflexivity.
    + cbn [py_random after_background with_py_random with_np_random].
      now rewrite placements_from_skip.
  - rewrite (bind_returned _ _ _ _ _ (randint_returned 1 3 _ ltac:(lia))).
    cbn [py_random after_background with_py_random with_np_random np_random files stdout].
    rewrite peek_skip, skip_skip.
    rewrite draw_squares_returned.
    + cbn [py_random with_py_random with_np_random np_random files stdout].
      rewrite placements_from_skip, skip_skip. reflexivity.
    + cbn [py_random with_py_random with_np_random]. now rewrite placements_from_skip.
Qed.

(** Otherwise the call raises ValueError. *)
Lemma generate_traced_raised (img_size : Z) (num_squares : option Z) (w : World) :
  img_size < 0
  \/ forallb (fits img_size) (planned_shapes img_size num_squares (py_random w)) = false ->
  fst (generate_traced outline img_size num_squares w) = Raised ValueError.
Proof.
  intros Hbad. unfold generate_traced.
  destruct (Z.ltb_spec img_size 0) as [Hneg | Hsize].
  - pose proof (background_raised img_size w Hneg) as Hbg.
    unfold bind. destruct (background img_size w) as [[bg | e] w1]; simpl in Hbg; [discriminate |].
    injection Hbg as ->. reflexivity.
  - destruct Hbad as [Hneg | Hfit]; [lia |].
    destruct (background_returned img_size w Hsize) as (bg & Hbg & _ & _).
    rewrite (bind_returned _ _ _ _ _ Hbg).
    unfold planned_shapes in Hfit.
    destruct num_squares as [n |]; cbn [first_shape_draw drawn_count] in Hfit.
    + unfold bind at 1, ret at 1. apply draw_squares_raised.
      cbn [py_random after_background with_py_random with_np_random].
      now rewrite placements_from_skip.
    + rewrite (bind_returned _ _ _ _ _ (randint_returned 1 3 _ ltac:(lia))).
      cbn [py_random after_background with_py_random with_np_random].
      rewrite peek_skip, skip_skip. apply draw_squares_raised.
      cbn [py_random with_py_random]. now rewrite placements_from_skip.
Qed.

(** What a returned result must be. *)
Lemma generate_traced_inv (img_size : Z) (num_squares : option Z) (w w' : World)
    (image : Canvas) (labels : list Label) (shapes : list Placement) :
  generate_traced outline img_size num_squares w = (Returned (image, labels, shapes), w') ->
  0 <= img_size
  /\ shapes = planned_shapes img_size num_squares (py_random w)
  /\ forallb (fits img_size) shapes = true
  /\ labels = map (annotation_of img_size) shapes
  /\ w' = after_generate img_size num_squares w
  /\ exists bg, background img_size w = (Returned bg, after_background img_size w)
                /\ image = fold_left (paint outline) shapes bg.
Proof.
  intros H.
  destruct (Z.ltb_spec img_size 0) as [Hneg | Hsize].
  { pose proof (generate_traced_raised img_size num_squares w (or_introl Hneg)) as E.
    rewrite H in E. discriminate. }
  destruct (forallb (fits img_size) (planned_shapes img_size num_squares (py_random w))) eqn:Hfit.
  2: { pose proof (generate_traced_raised img_size num_squares w (or_intror Hfit)) as E.
       rewrite H in E. discriminate. }
  destruct (generate_traced_returned img_size num_squares w Hsize Hfit) as (bg & Hbg & E).
  rewrite H in E. injection E as -> -> -> ->.
  repeat split; try assumption; try reflexivity.
  exists bg. now split.
Qed.

Lemma generate_unfold (img_size : Z) (num_squares : option Z) (w : World) :
  generate_red_square_image outline img_size num_squares w =
  match generate_traced outline img_size num_squares w with
  | (Returned (image, labels, _), w') => (Returned (image, labels), w')
  | (Raised e, w') => (Raised e, w')
  end.
Proof.
  unfold generate_red_square_image, bind.
  destruct (generate_traced outline img_size num_squares w) as [[[[image labels] shapes] | e] w'];
    reflexivity.
Qed.

End GeneratorCall.

(* ===================================================================== *)
(** * Noninterference of the generator                                    *)
(* ===================================================================== *)

Lemma pure_random_ret {A} (a : A) : pure_random (ret a).
Proof. intros w1 w2 H. unfold ret. simpl. auto. Qed.

Lemma pure_random_raise {A} (e : pyexn) : pure_random (@raise A e).
Proof. intros w1 w2 H. unfold raise. simpl. auto. Qed.

Lemma pure_random_bind {A B} (m : Py A) (k : A -> Py B) :
  pure_random m -> (forall a, pure_random (k a)) -> pure_random (bind m k).
Proof.
  intros Hm Hk w1 w2 H. unfold bind.
  destruct (Hm w1 w2 H) as (Ho & Hs & Hf & Hc).
  destruct (m w1) as [[a1 | e1] w1'], (m w2) as [[a2 | e2] w2'];
    simpl in Ho, Hs, Hf, Hc; try discriminate.
  - injection Ho as ->.
    destruct (Hk a2 w1' w2' Hs) as (Ho' & Hs' & Hf' & Hc').
    repeat split; try assumption; try apply Hs'; congruence.
  - injection Ho as ->. simpl. repeat split; try assumption; apply Hs.
Qed.

Lemma pure_random_randint (a b : Z) : pure_random (randint a b).
Proof.
  intros w1 w2 [Hpy Hnp]. unfold randint, same_random.
  destruct (a <=? b); simpl; rewrite ?Hpy, ?Hnp; auto.
Qed.

Lemma pure_random_choice {A} (seq : list A) : pure_random (choice seq).
Proof.
  intros w1 w2 [Hpy Hnp]. unfold choice, same_random.
  destruct seq; simpl; rewrite ?Hpy, ?Hnp; auto.
Qed.

Lemma pure_random_random : pure_random random.
Proof.
  intros w1 w2 [Hpy Hnp]. unfold random, same_random. simpl. rewrite ?Hpy, ?Hnp. auto.
Qed.

Lemma pure_random_np_full (n : Z) (color : list Z) : pure_random (np_full n color).
Proof.
  unfold np_full. destruct (n <? 0); [apply pure_random_raise | apply pure_random_ret].
Qed.

Lemma pure_random_np_random_randint (low high n : Z) :
  pure_random (np_random_randint low high n).
Proof.
  intros w1 w2 [Hpy Hnp]. unfold np_random_randint, same_random.
  destruct (low <? high); simpl; rewrite ?Hpy, ?Hnp; auto.
Qed.

Lemma pure_random_truediv (a b : Q) : pure_random (truediv a b).
Proof.
  unfold truediv. destruct (Qeq_bool b 0); [apply pure_random_raise | apply pure_random_ret].
Qed.

Create HintDb pure_random.
#[local] Hint Resolve pure_random_ret pure_random_raise pure_random_randint
  pure_random_choice pure_random_random pure_random_np_full
  pure_random_np_random_randint pure_random_truediv : pure_random.

Ltac pure_random_steps :=
  repeat (first [ apply pure_random_bind; [solve [auto with pure_random] | intros ?]
                | solve [auto with pure_random] ]).

Lemma pure_random_background (img_size : Z) : pure_random (background img_size).
Proof. unfold background. pure_random_steps. Qed.

Section GeneratorPurity.

Variable outline : Z -> Z -> Z -> Z -> Z -> Z -> Z -> bool.

Lemma pure_random_draw_square (img_size : Z) (image : Canvas) :
  pure_random (draw_square outline img_size image).
Proof. unfold draw_square. pure_random_steps. Qed.

Lemma pure_random_draw_squares (img_size : Z) (count : nat) :
  forall image labels shapes,
    pure_random (draw_squares outline count img_size image labels shapes).
Proof.
  induction count as [| count IH]; intros image labels shapes; cbn [draw_squares].
  - apply pure_random_ret.
  - apply pure_random_bind; [apply pure_random_draw_square |].
    intros [[image' label] shape]. apply IH.
Qed.

Lemma pure_random_generate_traced (img_size : Z) (num_squares : option Z) :
  pure_random (generate_traced outline img_size num_squares).
Proof.
  unfold generate_traced.
  apply pure_random_bind; [apply pure_random_background | intros image].
  apply pure_random_bind; [destruct num_squares; auto with pure_random | intros n].
  apply pure_random_draw_squares.
Qed.

Lemma pure_random_generate (img_size : Z) (num_squares : option Z) :
  pure_random (generate_red_square_image outline img_size num_squares).
Proof.
  unfold generate_red_square_image.
  apply pure_random_bind; [apply pure_random_generate_traced | intros traced].
  apply pure_random_ret.
Qed.

End GeneratorPurity.

(* ===================================================================== *)
(** * Properties of the generator                                         *)
(* ===================================================================== *)

Lemma fits_when_large (img_size : Z) (e : Entropy) (k count : nat) :
  200 <= img_size -> forallb (fits img_size) (placements_from img_size e k count) = true.
Proof.
  intros Hsize. apply forallb_forall. intros p Hp.
  unfold placements_from in Hp. apply in_map_iff in Hp as (i & <- & _).
  unfold fits. apply Z.leb_le.
  pose proof (placement_at_size img_size e (k + 5 * i)). lia.
Qed.

Lemma generate_returned
    (outline : Z -> Z -> Z -> Z -> Z -> Z -> Z -> bool)
    (img_size : Z) (num_squares : option Z) (w : World) :
  0 <= img_size ->
  forallb (fits img_size) (planned_shapes img_size num_squares (py_random w)) = true ->
  exists image labels,
    generate_red_square_image outline img_size num_squares w =
    (Returned (image, labels), after_generate img_size num_squares w).
Proof.
  intros Hsize Hfit.
  destruct (generate_traced_returned outline img_size num_squares w Hsize Hfit)
    as (bg & _ & E).
  rewrite generate_unfold, E. eauto.
Qed.

Lemma generate_returned_when_large
    (outline : Z -> Z -> Z -> Z -> Z -> Z -> Z -> bool)
    (img_size : Z) (num_squares : option Z) (w : World) :
  200 <= img_size ->
  exists image labels,
    generate_red_square_image outline img_size num_squares w =
    (Returned (image, labels), after_generate img_size num_squares w).
Proof.
  intros Hsize. apply generate_returned; [lia |]. now apply fits_when_large.
Qed.

(** When every draw selects the top of its range, the first side length
    is 200 and does not fit a smaller canvas. *)
Lemma high_world_does_not_fit (img_size : Z) (num_squares : option Z) :
  img_size < 200 ->
  num_squares = None \/ (exists n, num_squares = Some n /\ 1 <= n) ->
  forallb (fits img_size) (planned_shapes img_size num_squares (py_random high_world)) = false.
Proof.
  intros Hsize Hnum. unfold planned_shapes.
  assert (Hcount : exists c, drawn_count num_squares (py_random high_world) = S c).
  { destruct Hnum as [-> | (n & -> & Hn)].
    - exists 2%nat. reflexivity.
    - exists (Z.to_nat (n - 1)). unfold drawn_count. lia. }
  destruct Hcount as (c & ->). rewrite placements_from_S. cbn [forallb].
  apply andb_false_intro1. unfold fits. apply Z.leb_gt.
  change (size_px (placement_at img_size (py_random high_world) (first_shape_draw num_squares)))
    with 200.
  exact Hsize.
Qed.







Lemma planned_shape_draws (img_size : Z) (num_squares : option Z) (e : Entropy)
    (i : nat) (p : Placement) :
  nth_error (planned_shapes img_size num_squares e) i = Some p ->
  p = placement_at img_size e (first_shape_draw num_squares + 5 * i).
Proof. intros H. now apply placements_from_lookup in H. Qed.

Lemma fitting_shape_bounds (img_size : Z) (e : Entropy) (k : nat) :
  let p := placement_at img_size e k in
  fits img_size p = true ->
  50 <= size_px p <= 200
  /\ 0 <= origin_x p <= img_size - size_px p
  /\ 0 <= origin_y p <= img_size - size_px p.
Proof.
  intros p Hfit. unfold fits in Hfit. apply Z.leb_le in Hfit.
  pose proof (placement_at_size img_size e k) as Hs. fold p in Hs.
  split; [exact Hs |]. subst p. simpl in *.
  split; apply randint_val_range; try lia; apply peek_range.
Qed.

Lemma Qdiv_between_0_1 (a b : Q) : (0 < a -> a < b -> 0 < a / b < 1)%Q.
Proof.
  intros Ha Hab. assert (Hb : (0 < b)%Q) by lra. split.
  - apply Qlt_shift_div_l; [exact Hb | lra].
  - apply Qlt_shift_div_r; [exact Hb | lra].
Qed.

(** The annotation of a shape that fits the canvas. *)
Lemma annotation_in_unit_square (img_size : Z) (p : Placement) :
  50 <= size_px p <= 200 ->
  0 <= origin_x p <= img_size - size_px p ->
  0 <= origin_y p <= img_size - size_px p ->
  let l := annotation_of img_size p in
  class_id l = 0
  /\ (0 < center_x l < 1)%Q /\ (0 < center_y l < 1)%Q
  /\ width l = height l
  /\ (0 < width l <= 200 / inject_Z img_size)%Q.
Proof.
  intros Hs Hx Hy l. subst l. cbn [annotation_of class_id center_x center_y width height].
  assert (Hi : (0 < inject_Z img_size)%Q) by (apply inject_Z_pos; lia).
  assert (Qs : (50 <= inject_Z (size_px p) <= 200)%Q).
  { split; [change 50%Q with (inject_Z 50) | change 200%Q with (inject_Z 200)];
      rewrite <- Zle_Qle; lia. }
  assert (Qx : (0 <= inject_Z (origin_x p)
                /\ inject_Z (origin_x p) + inject_Z (size_px p) <= inject_Z img_size)%Q).
  { split; [change 0%Q with (inject_Z 0) | rewrite <- inject_Z_plus]; rewrite <- Zle_Qle; lia. }
  assert (Qy : (0 <= inject_Z (origin_y p)
                /\ inject_Z (origin_y p) + inject_Z (size_px p) <= inject_Z img_size)%Q).
  { split; [change 0%Q with (inject_Z 0) | rewrite <- inject_Z_plus]; rewrite <- Zle_Qle; lia. }
  split; [reflexivity |].
  split; [apply Qdiv_between_0_1; unfold Qdiv; change (/ 2)%Q with (1 # 2)%Q; lra |].
  split; [apply Qdiv_between_0_1; unfold Qdiv; change (/ 2)%Q with (1 # 2)%Q; lra |].
  split; [reflexivity |].
  split.
  - apply Qlt_shift_div_l; [exact Hi | lra].
  - unfold Qdiv. apply Qmult_le_compat_r; [lra |].
    apply Qlt_le_weak. now apply Qinv_lt_0_compat.
Qed.

(** The call on the sample world draws one bordered square of side 66 at
    (276, 488) and annotates it. *)
Example sample_call_result :
  sample_shapes
  = [ {| size_px := 66; origin_x := 276; origin_y := 488;
         fill_color := [50; 50; 230]; has_border := true |} ]
  /\ sample_annotations
     = [ {| class_id := 0; center_x := 618 # 1280; center_y := 1042 # 1280;
            width := 66 # 640; height := 66 # 640 |} ].
Proof. split; reflexivity. Qed.



(** What one iteration that returns has done. *)
Lemma draw_square_inv
    (outline : Z -> Z -> Z -> Z -> Z -> Z -> Z -> bool)
    (img_size : Z) (image image' : Canvas) (label : Label) (p : Placement) (w w' : World) :
  draw_square outline img_size image w = (Returned (image', label, p), w') ->
  p = placement_at img_size (py_random w) 0
  /\ fits img_size p = true
  /\ image' = paint outline image p
  /\ label = annotation_of img_size p
  /\ w' = with_py_random (skip (py_random w) 5) w.
Proof.
  intros H.
  destruct (fits img_size (placement_at img_size (py_random w) 0)) eqn:Hfit.
  - rewrite (draw_square_returned outline img_size image w Hfit) in H.
    injection H as <- <- <- <-. auto.
  - rewrite (draw_square_raised outline img_size image w Hfit) in H. discriminate.
Qed.

(** C4: every shape that the generator draws has its side length drawn
    uniformly from [50, 200] and each coordinate of its top-left origin
    drawn uniformly from [0, imgSize - sizePx], each from a draw of its
    own, and its pixel-space box [origin, origin + sizePx] lies within
    [0, imgSize] on both axes.  This holds for each iteration of the loop
    that draws a shape, and so for the shapes of every call that returns,
    where shape number i uses the draws 5i, 5i+1 and 5i+2 after the draws
    of the background and of the count. *)
Theorem shapes_within_canvas
    (outline : Z -> Z -> Z -> Z -> Z -> Z -> Z -> bool) (img_size : Z) :
  (forall (image image' : Canvas) (label : Label) (p : Placement) (w w' : World),
     draw_square outline img_size image w = (Returned (image', label, p), w') ->
     let e := py_random w in
     let room := img_size - size_px p in
     (size_px p = randint_val 50 200 (peek e 0)
      /\ uniform_on 50 200 (randint_val 50 200))
     /\ (origin_x p = randint_val 0 room (peek e 1)
         /\ origin_y p = randint_val 0 room (peek e 2)
         /\ uniform_on 0 room (randint_val 0 room))
     /\ 50 <= size_px p <= 200
     /\ (0 <= origin_x p /\ origin_x p + size_px p <= img_size)
     /\ (0 <= origin_y p /\ origin_y p + size_px p <= img_size))
  /\ (forall (num_squares : option Z) (w w' : World) (image : Canvas) (labels : list Label),
        generate_red_square_image outline img_size num_squares w
        = (Returned (image, labels), w') ->
        exists shapes : list Placement,
          generate_traced outline img_size num_squares w
          = (Returned (image, labels, shapes), w')
          /\ forall (i : nat) (p : Placement),
               nth_error shapes i = Some p ->
               let e := py_random w in
               let k := (first_shape_draw num_squares + 5 * i)%nat in
               let room := img_size - size_px p in
               size_px p = randint_val 50 200 (peek e k)
               /\ origin_x p = randint_val 0 room (peek e (k + 1))
               /\ origin_y p = randint_val 0 room (peek e (k + 2))
               /\ 50 <= size_px p <= 200
               /\ (0 <= origin_x p /\ origin_x p + size_px p <= img_size)
               /\ (0 <= origin_y p /\ origin_y p + size_px p <= img_size)).
Proof.
  split.
  - intros image image' label p w w' H e room.
    apply draw_square_inv in H as (-> & Hfit & _).
    destruct (fitting_shape_bounds _ _ _ Hfit) as (Hs & Hx & Hy).
    subst room e.
    split; [split; [reflexivity | apply randint_uniform; lia] |].
    split; [split; [reflexivity | split; [reflexivity | apply randint_uniform; lia]] |].
    lia.
  - intros num_squares w w' image labels H. rewrite generate_unfold in H.
    destruct (generate_traced outline img_size num_squares w)
      as [[[[image0 labels0] shapes] | e0] w0] eqn:E; [| discriminate].
    injection H as -> -> ->.
    exists shapes. split; [reflexivity |].
    apply generate_traced_inv in E as (_ & -> & Hfit & _).
    intros i p Hp e k room.
    assert (Hin : In p (planned_shapes img_size num_squares (py_random w)))
      by (eapply nth_error_In; eassumption).
    pose proof (proj1 (forallb_forall _ _) Hfit p Hin) as Hfp.
    apply planned_shape_draws in Hp. subst p.
    destruct (fitting_shape_bounds _ _ _ Hfp) as (Hs & Hx & Hy).
    subst room.
    split; [reflexivity |]. split; [reflexivity |]. split; [reflexivity |].
    lia.
Qed.

Lemma shapes_within_canvas_witness :
  (let p := placement_at 640 (py_random dark_red_world) 0 in
   (size_px p = 50 /\ origin_x p = 130 /\ origin_y p = 260)
   /\ 50 <= size_px p <= 200
   /\ (0 <= origin_x p /\ origin_x p + size_px p <= 640)
   /\ (0 <= origin_y p /\ origin_y p + size_px p <= 640))
  /\ (let p := placement_at 640 (py_random sample_world) 3 in
      nth_error sample_shapes 0 = Some p
      /\ size_px p = randint_val 50 200 (peek (py_random sample_world) 3)
      /\ 50 <= size_px p <= 200
      /\ (0 <= origin_x p /\ origin_x p + size_px p <= 640)
      /\ (0 <= origin_y p /\ origin_y p + size_px p <= 640)).
Proof.
  split.
  - intros p. split; [repeat split |].
    assert (H : draw_square inner_frame 640 (black_canvas 640) dark_red_world
                = (Returned (paint inner_frame (black_canvas 640) p, annotation_of 640 p, p),
                   with_py_random (skip (py_random dark_red_world) 5) dark_red_world))
      by reflexivity.
    destruct (proj1 (shapes_within_canvas inner_frame 640) _ _ _ _ _ _ H)
      as (_ & _ & Hrange & Hx & Hy).
    split; [exact Hrange |]. now split.
  - intros p.
    destruct (proj2 (shapes_within_canvas inner_frame 640) (Some 1) sample_world
                (snd sample_call) sample_image sample_annotations eq_refl)
      as (shapes & Htraced & Hshapes).
    assert (E : sample_shapes = shapes).
    { unfold sample_shapes, sample_call. rewrite Htraced. reflexivity. }
    rewrite <- E in Hshapes.
    destruct (Hshapes 0%nat p eq_refl) as (Hsize & _ & _ & Hrange & Hx & Hy).
    split; [reflexivity |]. split; [exact Hsize |]. split; [exact Hrange |]. now split.
Defined.

(** C5, as the claim states it, fails on the noise: the value 30 is never
    drawn, because [np.random.randint(-30, 30)] excludes its upper bound.
    At the point 60/61 of the unit interval, which the uniform law on
    [-30, 30] maps to 30, the code yields 29. *)
Lemma noise_never_reaches_30 :
  np_randint_val (-30) 30 (60 # 61) = 29
  /\ ~ uniform_on (-30) 30 (np_randint_val (-30) 30).
Proof.
  split; [reflexivity |].
  intros H. specialize (H (60 # 61) ltac:(split; reflexivity || discriminate) 30).
  destruct H as [_ H].
  assert (E : np_randint_val (-30) 30 (60 # 61) = 30).
  { apply H. split; [lia |]. split; [discriminate | reflexivity]. }
  discriminate E.
Qed.

Lemma paint_u8 (outline : Z -> Z -> Z -> Z -> Z -> Z -> Z -> bool)
    (image : Canvas) (p : Placement) :
  u8_canvas image -> u8_canvas (paint outline image p).
Proof.
  intros Hu. unfold paint.
  assert (Hrect : forall img x1 y1 x2 y2 color th,
             u8_canvas img -> u8_canvas (cv2_rectangle outline img x1 y1 x2 y2 color th)).
  { intros img x1 y1 x2 y2 color th Himg row col ch Hch. cbn [pix cv2_rectangle].
    destruct (covered outline th x1 y1 x2 y2 col row); [unfold saturate_u8; lia | now apply Himg]. }
  destruct (has_border p); repeat apply Hrect; exact Hu.
Qed.

Lemma paint_all_u8 (outline : Z -> Z -> Z -> Z -> Z -> Z -> Z -> bool)
    (shapes : list Placement) :
  forall image, u8_canvas image -> u8_canvas (fold_left (paint outline) shapes image).
Proof.
  induction shapes as [| p shapes IH]; intros image Hu; cbn [fold_left];
    [exact Hu | apply IH; now apply paint_u8].
Qed.

Lemma paint_all_side (outline : Z -> Z -> Z -> Z -> Z -> Z -> Z -> bool)
    (shapes : list Placement) :
  forall image, side (fold_left (paint outline) shapes image) = side image.
Proof.
  induction shapes as [| p shapes IH]; intros image; cbn [fold_left]; [reflexivity |].
  rewrite IH. unfold paint. now destruct (has_border p).
Qed.

(** C5, amended: the background of every generated canvas is built by
    sampling the blue and green channels uniformly from [100, 255] and the
    red channel uniformly from [50, 150], then adding independent
    per-pixel, per-channel noise sampled uniformly from [-30, 29], then
    clamping every resulting channel value into [0, 255] by integer
    saturation (not wraparound); consequently every pixel channel of the
    returned canvas is an integer in [0, 255]. *)
Theorem background_saturated
    (outline : Z -> Z -> Z -> Z -> Z -> Z -> Z -> bool)
    (img_size : Z) (num_squares : option Z) (w w' : World)
    (image : Canvas) (labels : list Label) :
  generate_red_square_image outline img_size num_squares w = (Returned (image, labels), w') ->
  (exists bg : Canvas,
     background img_size w = (Returned bg, after_background img_size w)
     /\ (exists shapes, image = fold_left (paint outline) shapes bg)
     /\ forall row col ch, 0 <= ch < 3 ->
          pix bg row col ch =
          clamp (nth (Z.to_nat ch) (bg_color_at (py_random w)) 0
                 + noise_at (np_random w) img_size row col ch) 0 255)
  /\ (bg_color_at (py_random w) =
        [randint_val 100 255 (peek (py_random w) 0);
         randint_val 100 255 (peek (py_random w) 1);
         randint_val 50 150 (peek (py_random w) 2)]
      /\ uniform_on 100 255 (randint_val 100 255)
      /\ uniform_on 50 150 (randint_val 50 150))
  /\ ((forall row col ch,
         noise_at (np_random w) img_size row col ch =
         np_randint_val (-30) 30 (peek (np_random w) (noise_index img_size row col ch)))
      /\ uniform_on (-30) 29 (np_randint_val (-30) 30)
      /\ forall row col ch row' col' ch',
           0 <= row -> 0 <= col < img_size -> 0 <= ch < 3 ->
           0 <= row' -> 0 <= col' < img_size -> 0 <= ch' < 3 ->
           noise_index img_size row col ch = noise_index img_size row' col' ch' ->
           row = row' /\ col = col' /\ ch = ch')
  /\ (side image = img_size
      /\ forall row col ch v, channel_at image row col ch = Some v -> 0 <= v <= 255).
Proof.
  intros H. rewrite generate_unfold in H.
  destruct (generate_traced outline img_size num_squares w)
    as [[[[image0 labels0] shapes] | e0] w0] eqn:E; [| discriminate].
  injection H as -> -> ->.
  apply generate_traced_inv in E as (Hsize & _ & _ & _ & _ & bg & Hbg & ->).
  destruct (background_returned img_size w Hsize) as (bg' & Hbg' & Hside & Hpix).
  rewrite Hbg in Hbg'. injection Hbg' as <-.
  assert (Hu : u8_canvas bg).
  { intros row col ch Hch. rewrite (Hpix row col ch Hch). apply clamp_range. }
  split; [| split; [| split]].
  - exists bg. split; [exact Hbg |]. split; [now exists shapes | exact Hpix].
  - split; [reflexivity |]. split; apply randint_uniform; lia.
  - split; [reflexivity |]. split.
    + apply (np_randint_uniform (-30) 30). lia.
    + intros. eapply noise_index_inj; eassumption.
  - split; [now rewrite paint_all_side |].
    intros row col ch v Hv. unfold channel_at in Hv.
    destruct (in_canvas _ row col ch) eqn:Hin; [| discriminate].
    injection Hv as <-. apply paint_all_u8; [exact Hu |].
    unfold in_canvas in Hin. lia.
Qed.

Lemma background_saturated_witness :
  side sample_image = 640
  /\ channel_at sample_image 10 20 1 = Some 166
  /\ 0 <= 166 <= 255.
Proof.
  destruct (background_saturated inner_frame 640 (Some 1) sample_world (snd sample_call)
              sample_image sample_annotations eq_refl) as (_ & _ & _ & Hside & Hpix).
  split; [exact Hside |]. split; [reflexivity |].
  apply (Hpix 10 20 1 166). reflexivity.
Defined.

Lemma choice_val_In {A} (seq : list A) (d : A) (u : Q) :
  seq <> [] -> (0 <= u < 1)%Q -> In (choice_val seq d u) seq.
Proof.
  intros Hne Hu. unfold choice_val. apply nth_In.
  assert (Hlen : 0 < Z.of_nat (length seq)) by (destruct seq; [contradiction | simpl; lia]).
  pose proof (scale_range u _ Hu Hlen). lia.
Qed.

Lemma border_test_interval (u : Q) :
  (0 <= u < 1)%Q -> (border_test u = true <-> (border_threshold < u < 1)%Q).
Proof.
  intros Hu. unfold border_test. rewrite negb_true_iff.
  split.
  - intros H. split; [| apply Hu].
    apply Qnot_le_lt. intros Hle. apply Qle_bool_iff in Hle. congruence.
  - intros [H _]. destruct (Qle_bool u border_threshold) eqn:E; [| reflexivity].
    apply Qle_bool_iff in E. exfalso. apply (Qlt_irrefl u).
    eapply Qle_lt_trans; eassumption.
Qed.

Lemma border_color_channels (red_color : list Z) :
  Forall2 (fun c b => b = c - 50) red_color (border_color red_color).
Proof. induction red_color; simpl; constructor; auto. Qed.

Lemma border_color_nth (red_color : list Z) (ch : Z) :
  In red_color red_variations -> 0 <= ch < 3 ->
  nth (Z.to_nat ch) (border_color red_color) 0 = nth (Z.to_nat ch) red_color 0 - 50.
Proof.
  intros Hin Hch. assert (Hc : ch = 0 \/ ch = 1 \/ ch = 2) by lia.
  unfold red_variations in Hin. simpl in Hin.
  destruct Hin as [<- | [<- | [<- | [<- | [<- | []]]]]];
    destruct Hc as [-> | [-> | ->]]; reflexivity.
Qed.



(** C8: with the same arguments and the same state of the two random
    generators, two calls return the same canvas and the same annotation
    sequence, and leave the generators in the same state; the call touches
    neither the filesystem nor the console. *)
Theorem generate_referentially_transparent
    (outline : Z -> Z -> Z -> Z -> Z -> Z -> Z -> bool)
    (img_size : Z) (num_squares : option Z) (w1 w2 : World) :
  py_random w1 = py_random w2 ->
  np_random w1 = np_random w2 ->
  let call := generate_red_square_image outline img_size num_squares in
  fst (call w1) = fst (call w2)
  /\ py_random (snd (call w1)) = py_random (snd (call w2))
  /\ np_random (snd (call w1)) = np_random (snd (call w2))
  /\ files (snd (call w1)) = files w1
  /\ stdout (snd (call w1)) = stdout w1.
Proof.
  intros Hpy Hnp call.
  destruct (pure_random_generate outline img_size num_squares w1 w2 (conj Hpy Hnp))
    as (Ho & [Hpy' Hnp'] & Hf & Hc).
  auto.
Qed.

Lemma generate_referentially_transparent_witness :
  let call := generate_red_square_image inner_frame 640 (Some 1) in
  fst (call sample_world) = fst (call busy_world)
  /\ py_random (snd (call sample_world)) = py_random (snd (call busy_world))
  /\ np_random (snd (call sample_world)) = np_random (snd (call busy_world))
  /\ files (snd (call sample_world)) = files sample_world
  /\ stdout (snd (call sample_world)) = stdout sample_world.
Proof.
  apply (generate_referentially_transparent inner_frame 640 (Some 1) sample_world busy_world);
    reflexivity.
Defined.

(* ===================================================================== *)
(** * Digits and fields                                                   *)
(* ===================================================================== *)

Lemma append_cons (x : ascii) (a b : string) : String x a +:+ b = String x (a +:+ b).
Proof. reflexivity. Qed.

Lemma append_nil_l (b : string) : "" +:+ b = b.
Proof. reflexivity. Qed.

Lemma append_assoc (a b c : string) : (a +:+ b) +:+ c = a +:+ (b +:+ c).
Proof.
  induction a as [| x a IH]; [reflexivity |]. rewrite !append_cons. now rewrite IH.
Qed.

Lemma append_nil_r (a : string) : a +:+ "" = a.
Proof.
  induction a as [| x a IH]; [reflexivity |]. rewrite append_cons. now rewrite IH.
Qed.

Lemma length_append (a b : string) :
  String.length (a +:+ b) = (String.length a + String.length b)%nat.
Proof.
  induction a as [| x a IH]; [reflexivity |]. rewrite append_cons. simpl. now rewrite IH.
Qed.

Lemma string_all_append (P : ascii -> bool) (a b : string) :
  string_all P (a +:+ b) = string_all P a && string_all P b.
Proof.
  induction a as [| x a IH]; [reflexivity |].
  rewrite append_cons. simpl. now rewrite IH, andb_assoc.
Qed.

Lemma string_all_impl (P Q : ascii -> bool) (s : string) :
  (forall c, P c = true -> Q c = true) -> string_all P s = true -> string_all Q s = true.
Proof.
  intros HPQ. induction s as [| x s IH]; simpl; [reflexivity |].
  intros H. apply andb_prop in H as [Hx Hs]. now rewrite (HPQ x Hx), IH.
Qed.

(** A string without the separator is one field. *)
Lemma split_on_free (sep : ascii) (s : string) :
  string_all (fun c => negb (Ascii.eqb c sep)) s = true -> split_on sep s = [s].
Proof.
  induction s as [| x s IH]; simpl; [reflexivity |].
  intros H. apply andb_prop in H as [Hx Hs]. apply negb_true_iff in Hx.
  now rewrite Hx, (IH Hs).
Qed.

(** The first separator ends the first field. *)
Lemma split_on_append (sep : ascii) (a b : string) :
  string_all (fun c => negb (Ascii.eqb c sep)) a = true ->
  split_on sep (a +:+ String sep b) = a :: split_on sep b.
Proof.
  induction a as [| x a IH]; rewrite ?append_cons, ?append_nil_l; simpl.
  - intros _. now rewrite Ascii.eqb_refl.
  - intros H. apply andb_prop in H as [Hx Hs]. apply negb_true_iff in Hx.
    now rewrite Hx, (IH Hs).
Qed.

Lemma digit_value_char (d : Z) : 0 <= d < 10 -> digit_value (digit_char d) = Some d.
Proof.
  intros Hd. assert (Hc : d = 0 \/ d = 1 \/ d = 2 \/ d = 3 \/ d = 4 \/ d = 5 \/ d = 6
                          \/ d = 7 \/ d = 8 \/ d = 9) by lia.
  repeat destruct Hc as [-> | Hc]; try subst d; reflexivity.
Qed.

Lemma is_digit_char (d : Z) : 0 <= d < 10 -> is_digit (digit_char d) = true.
Proof. intros Hd. unfold is_digit. now rewrite digit_value_char. Qed.

Lemma digits_value_append (acc : Z) (a b : string) :
  digits_value acc (a +:+ b) =
  match digits_value acc a with
  | Some v => digits_value v b
  | None => None
  end.
Proof.
  revert acc. induction a as [| x a IH]; intros acc; [reflexivity |].
  rewrite append_cons. simpl.
  destruct (digit_value x); [apply IH | reflexivity].
Qed.

Lemma fixed_digits_length (k : nat) (n : Z) : String.length (fixed_digits k n) = k.
Proof.
  revert n. induction k as [| k IH]; intros n; cbn [fixed_digits]; [reflexivity |].
  rewrite length_append, IH. cbn [String.length]. lia.
Qed.

Lemma fixed_digits_all_digits (k : nat) (n : Z) : string_all is_digit (fixed_digits k n) = true.
Proof.
  revert n. induction k as [| k IH]; intros n; cbn [fixed_digits]; [reflexivity |].
  rewrite string_all_append, IH. cbn [string_all andb].
  rewrite is_digit_char; [reflexivity | apply Z.mod_pos_bound; lia].
Qed.

(** Reading back [k] fixed digits gives the number modulo 10^k. *)
Lemma digits_value_fixed (k : nat) :
  forall acc n, 0 <= n ->
    digits_value acc (fixed_digits k n) = Some (acc * 10 ^ Z.of_nat k + n mod 10 ^ Z.of_nat k).
Proof.
  induction k as [| k IH]; intros acc n Hn.
  - cbn [fixed_digits digits_value Z.of_nat]. rewrite Z.pow_0_r, Z.mod_1_r. f_equal. lia.
  - cbn [fixed_digits]. rewrite digits_value_append, IH by (apply Z.div_pos; lia).
    cbn [digits_value]. rewrite digit_value_char by (apply Z.mod_pos_bound; lia).
    f_equal. rewrite Nat2Z.inj_succ, Z.pow_succ_r by lia.
    set (m := 10 ^ Z.of_nat k).
    assert (Hm : 0 < m) by (apply Z.pow_pos_nonneg; lia).
    rewrite Z.rem_mul_r by lia.
    lia.
Qed.

Lemma strip_leading_zeros_value (s : string) :
  digits_value 0 (strip_leading_zeros s) = digits_value 0 s.
Proof.
  induction s as [| x s IH]; [reflexivity |].
  cbn [strip_leading_zeros]. destruct (Ascii.eqb_spec x "0") as [-> | Hx]; [| reflexivity].
  destruct s as [| y s]; [reflexivity |]. rewrite IH. reflexivity.
Qed.

Lemma strip_leading_zeros_all (P : ascii -> bool) (s : string) :
  string_all P s = true -> string_all P (strip_leading_zeros s) = true.
Proof.
  induction s as [| x s IH]; [reflexivity |].
  cbn [strip_leading_zeros]. destruct (Ascii.eqb x "0"); [| trivial].
  destruct s as [| y s]; [trivial |]. intros H. apply IH.
  cbn [string_all] in H. now apply andb_prop in H as [_ H].
Qed.

Lemma strip_leading_zeros_nonempty (s : string) :
  s <> "" -> strip_leading_zeros s <> "".
Proof.
  induction s as [| x s IH]; [congruence |]. intros _.
  cbn [strip_leading_zeros]. destruct (Ascii.eqb x "0"); [| discriminate].
  destruct s as [| y s]; [discriminate |]. apply IH. discriminate.
Qed.

Lemma small_below_pow10 (n : Z) : 0 <= n -> n < 10 ^ Z.of_nat (S (Z.to_nat (Z.log2 n))).
Proof.
  intros Hn. rewrite Nat2Z.inj_succ, Z2Nat.id by apply Z.log2_nonneg.
  destruct (Z.eq_dec n 0) as [-> | Hnz]; [reflexivity |].
  pose proof (Z.log2_spec n ltac:(lia)) as [_ Hlt].
  eapply Z.lt_le_trans; [exact Hlt |].
  apply Z.pow_le_mono_l. pose proof (Z.log2_nonneg n). lia.
Qed.

Lemma str_nat_digits (n : Z) : string_all is_digit (str_nat n) = true.
Proof. unfold str_nat. apply strip_leading_zeros_all, fixed_digits_all_digits. Qed.

Lemma str_nat_nonempty (n : Z) : str_nat n <> "".
Proof.
  unfold str_nat. apply strip_leading_zeros_nonempty.
  intros E. apply (f_equal String.length) in E. rewrite fixed_digits_length in E. discriminate.
Qed.

Lemma parse_uint_str_nat (n : Z) : 0 <= n -> parse_uint (str_nat n) = Some n.
Proof.
  intros Hn. unfold parse_uint.
  pose proof (str_nat_nonempty n) as Hne.
  destruct (str_nat n) eqn:E; [contradiction |]. rewrite <- E. clear Hne E.
  unfold str_nat. rewrite strip_leading_zeros_value, digits_value_fixed by exact Hn.
  f_equal. rewrite Z.mod_small; [lia |].
  split; [exact Hn | now apply small_below_pow10].
Qed.

Lemma digit_is_not (sep : ascii) (c : ascii) :
  is_digit sep = false -> is_digit c = true -> negb (Ascii.eqb c sep) = true.
Proof.
  intros Hsep Hc. apply negb_true_iff. destruct (Ascii.eqb_spec c sep) as [-> |]; congruence.
Qed.

Lemma digits_free_of (sep : ascii) (s : string) :
  is_digit sep = false -> string_all is_digit s = true ->
  string_all (fun c => negb (Ascii.eqb c sep)) s = true.
Proof. intros Hsep. apply string_all_impl. intros c. now apply digit_is_not. Qed.

Lemma parse_int_str_int (z : Z) : parse_int (str_int z) = Some z.
Proof.
  unfold str_int. destruct (Z.ltb_spec z 0) as [Hneg | Hpos].
  - cbn [parse_int]. rewrite Ascii.eqb_refl, parse_uint_str_nat by lia.
    simpl. f_equal. lia.
  - pose proof (str_nat_nonempty z) as Hne. pose proof (str_nat_digits z) as Hd.
    pose proof (parse_uint_str_nat z Hpos) as Hp.
    destruct (str_nat z) as [| c s] eqn:E; [contradiction |].
    cbn [parse_int]. cbn [string_all] in Hd. apply andb_prop in Hd as [Hc _].
    destruct (Ascii.eqb_spec c "-") as [-> | _]; [discriminate | exact Hp].
Qed.

Lemma string_all_cons (P : ascii -> bool) (c : ascii) (s : string) :
  string_all P (String c s) = P c && string_all P s.
Proof. reflexivity. Qed.

Lemma str_int_number_chars (z : Z) : string_all is_number_char (str_int z) = true.
Proof.
  assert (Hd : forall n, string_all is_number_char (str_nat n) = true).
  { intros n. apply (string_all_impl is_digit); [| apply str_nat_digits].
    intros c Hc. unfold is_number_char. now rewrite Hc. }
  unfold str_int. destruct (z <? 0); [| apply Hd].
  rewrite string_all_cons, Hd. reflexivity.
Qed.

Lemma format_fixed_number_chars (k : nat) (v : Q) :
  string_all is_number_char (format_fixed k v) = true.
Proof.
  unfold format_fixed.
  rewrite !string_all_append, str_int_number_chars.
  rewrite (string_all_impl is_digit is_number_char (fixed_digits k _));
    [| intros c Hc; unfold is_number_char; now rewrite Hc | apply fixed_digits_all_digits].
  destruct (is_negative v); reflexivity.
Qed.

Lemma number_chars_free_of (sep : ascii) (s : string) :
  is_number_char sep = false -> string_all is_number_char s = true ->
  string_all (fun c => negb (Ascii.eqb c sep)) s = true.
Proof.
  intros Hsep. apply string_all_impl. intros c Hc. apply negb_true_iff.
  destruct (Ascii.eqb_spec c sep) as [-> |]; congruence.
Qed.

Lemma round_half_even_nonneg (q : Q) : (0 <= q)%Q -> 0 <= round_half_even q.
Proof.
  intros Hq. unfold round_half_even.
  assert (Hf : 0 <= Qfloor q) by (rewrite <- (Qfloor_Z 0); now apply Qfloor_resp_le).
  destruct (q - inject_Z (Qfloor q) ?= 1 # 2)%Q; [destruct (Z.even (Qfloor q)) | |]; lia.
Qed.

Lemma scaled_nonneg (k : nat) (v : Q) : 0 <= scaled k v.
Proof.
  unfold scaled. apply round_half_even_nonneg.
  apply Qmult_le_0_compat; [apply Qabs_nonneg |].
  apply Qlt_le_weak, inject_Z_pos. apply Z.pow_pos_nonneg; lia.
Qed.

(** Reading back the digits [ip.fp] of a scaled magnitude [n]. *)
Lemma parse_ufloat_digits (k : nat) (n : Z) :
  (0 < k)%nat -> 0 <= n ->
  parse_ufloat (str_int (n / 10 ^ Z.of_nat k) +:+ "." +:+ fixed_digits k (n mod 10 ^ Z.of_nat k))
  = Some (n, Z.to_pos (10 ^ Z.of_nat k)).
Proof.
  intros Hk Hn. set (m := 10 ^ Z.of_nat k).
  assert (Hm : 0 < m) by (apply Z.pow_pos_nonneg; lia).
  assert (Hip : 0 <= n / m) by (apply Z.div_pos; lia).
  assert (Hfp : 0 <= n mod m < m) by (apply Z.mod_pos_bound; lia).
  unfold str_int. rewrite (proj2 (Z.ltb_ge (n / m) 0) Hip).
  unfold parse_ufloat. rewrite append_cons, append_nil_l.
  rewrite split_on_append by (apply digits_free_of; [reflexivity | apply str_nat_digits]).
  rewrite split_on_free by (apply digits_free_of; [reflexivity | apply fixed_digits_all_digits]).
  rewrite parse_uint_str_nat by exact Hip.
  assert (Hfrac : parse_uint (fixed_digits k (n mod m)) = Some (n mod m)).
  { unfold parse_uint.
    destruct (fixed_digits k (n mod m)) eqn:E.
    - apply (f_equal String.length) in E. rewrite fixed_digits_length in E. simpl in E. lia.
    - rewrite <- E. rewrite digits_value_fixed by lia. fold m.
      f_equal. rewrite Z.mod_mod by lia. lia. }
  rewrite Hfrac, fixed_digits_length. fold m.
  f_equal. f_equal. pose proof (Z.div_mod n m ltac:(lia)). lia.
Qed.

Lemma str_nat_head (n : Z) :
  exists c s, str_nat n = String c s /\ Ascii.eqb c "-" = false.
Proof.
  pose proof (str_nat_nonempty n) as Hne. pose proof (str_nat_digits n) as Hd.
  destruct (str_nat n) as [| c s]; [contradiction |]. exists c, s. split; [reflexivity |].
  rewrite string_all_cons in Hd. apply andb_prop in Hd as [Hc _].
  destruct (Ascii.eqb_spec c "-") as [-> |]; [discriminate | reflexivity].
Qed.

(** A coordinate written with 6 decimals reads back as its rounding. *)
Lemma parse_float_format (v : Q) : parse_float (format_fixed 6 v) = Some (round6 v).
Proof.
  pose proof (scaled_nonneg 6 v) as Hn.
  pose proof (parse_ufloat_digits 6 (scaled 6 v) ltac:(lia) Hn) as Hp.
  unfold format_fixed, round6. destruct (is_negative v).
  - rewrite append_cons, append_nil_l. cbn [parse_float]. rewrite Ascii.eqb_refl, Hp.
    reflexivity.
  - rewrite append_nil_l.
    assert (Hip : 0 <= scaled 6 v / 10 ^ Z.of_nat 6) by (apply Z.div_pos; lia).
    revert Hp. unfold str_int at 1 2. rewrite (proj2 (Z.ltb_ge _ 0) Hip).
    destruct (str_nat_head (scaled 6 v / 10 ^ Z.of_nat 6)) as (c & s & -> & Hc).
    rewrite append_cons. intros Hp. cbn [parse_float]. rewrite Hc, Hp. reflexivity.
Qed.

Lemma round_half_even_close (q : Q) :
  (- (1 # 2) <= inject_Z (round_half_even q) - q <= 1 # 2)%Q.
Proof.
  unfold round_half_even.
  pose proof (Qfloor_le q) as Hlo. pose proof (Qlt_floor q) as Hhi.
  rewrite inject_Z_plus in Hhi. change (inject_Z 1) with 1%Q in Hhi.
  destruct (q - inject_Z (Qfloor q) ?= 1 # 2)%Q eqn:E.
  - apply Qeq_alt in E.
    destruct (Z.even (Qfloor q)); rewrite ?inject_Z_plus; change (inject_Z 1) with 1%Q; lra.
  - apply Qlt_alt in E. lra.
  - apply Qgt_alt in E. rewrite inject_Z_plus. change (inject_Z 1) with 1%Q. lra.
Qed.

Lemma is_negative_spec (v : Q) :
  if is_negative v then (v < 0)%Q else (0 <= v)%Q.
Proof.
  unfold is_negative. destruct (Qle_bool 0 v) eqn:E; cbn [negb].
  - now apply Qle_bool_iff.
  - apply Qnot_le_lt. intros H. apply Qle_bool_iff in H. congruence.
Qed.

(** Rounding to 6 decimals moves a coordinate by at most 0.0000005. *)
Lemma round6_close (v : Q) : close6 (round6 v) v.
Proof.
  unfold close6. apply Qabs_Qle_condition.
  pose proof (round_half_even_close (Qabs v * inject_Z (10 ^ Z.of_nat 6))) as H.
  fold (scaled 6 v) in H. change (inject_Z (10 ^ Z.of_nat 6)) with 1000000%Q in H.
  unfold round6. pose proof (is_negative_spec v) as Hs.
  destruct (is_negative v).
  - rewrite Qabs_neg in H by lra.
    rewrite (Qmake_Qdiv (- scaled 6 v) 1000000), inject_Z_opp.
    change (inject_Z (Z.pos 1000000)) with 1000000%Q.
    unfold Qdiv. change (/ 1000000)%Q with (1 # 1000000)%Q. lra.
  - rewrite Qabs_pos in H by lra.
    rewrite (Qmake_Qdiv (scaled 6 v) 1000000).
    change (inject_Z (Z.pos 1000000)) with 1000000%Q.
    unfold Qdiv. change (/ 1000000)%Q with (1 # 1000000)%Q. lra.
Qed.

Lemma split_on_nonempty (sep : ascii) (s : string) :
  exists piece pieces, split_on sep s = piece :: pieces.
Proof.
  destruct s as [| c s]; cbn [split_on]; [eauto |].
  destruct (Ascii.eqb c sep); [eauto |]. destruct (split_on sep s); eauto.
Qed.

Lemma label_body_number_chars (label : Label) (sep : ascii) :
  is_number_char sep = false -> Ascii.eqb " " sep = false ->
  string_all (fun c => negb (Ascii.eqb c sep)) (label_body label) = true.
Proof.
  intros Hsep Hsp. unfold label_body.
  rewrite !string_all_append.
  rewrite !(number_chars_free_of sep _ Hsep (format_fixed_number_chars 6 _)).
  rewrite (number_chars_free_of sep _ Hsep (str_int_number_chars _)).
  cbn [string_all]. now rewrite Hsp.
Qed.

(** One written line reads back as the label rounded to 6 decimals. *)
Lemma parse_line_label_body (label : Label) :
  parse_line (label_body label) = Some (round6_label label).
Proof.
  assert (Hf : forall v, string_all (fun c => negb (Ascii.eqb c " ")) (format_fixed 6 v) = true).
  { intros v. apply number_chars_free_of; [reflexivity | apply format_fixed_number_chars]. }
  unfold parse_line, label_body.
  rewrite !(append_cons " "), !append_nil_l.
  rewrite split_on_append
    by (apply number_chars_free_of; [reflexivity | apply str_int_number_chars]).
  rewrite !split_on_append by apply Hf.
  rewrite split_on_free by apply Hf.
  rewrite parse_int_str_int, !parse_float_format. reflexivity.
Qed.

Lemma parse_lines_cons (line piece : string) (pieces : list string) :
  parse_lines (line :: piece :: pieces) =
  match parse_line line, parse_lines (piece :: pieces) with
  | Some label, Some labels => Some (label :: labels)
  | _, _ => None
  end.
Proof. reflexivity. Qed.

(** What is written for a list of labels reads back, label by label. *)
Lemma parse_labels_label_text (labels : list Label) :
  parse_labels (label_text labels) = Some (map round6_label labels).
Proof.
  unfold parse_labels. induction labels as [| label rest IH]; [reflexivity |].
  cbn [label_text map]. unfold label_line, nl.
  rewrite append_assoc, append_cons, append_nil_l.
  rewrite split_on_append by (apply label_body_number_chars; reflexivity).
  destruct (split_on_nonempty newline (label_text rest)) as (piece & pieces & E).
  rewrite E in *. rewrite parse_lines_cons, parse_line_label_body, IH. reflexivity.
Qed.

Example str_int_samples :
  str_int 0 = "0" /\ str_int 640 = "640" /\ str_int (-12) = "-12".
Proof. repeat split; reflexivity. Qed.

Example format_fixed_samples :
  format_fixed 6 (1 # 2) = "0.500000"
  /\ format_fixed 6 (13 # 128) = "0.101562"
  /\ format_fixed 6 (3 # 1024) = "0.002930"
  /\ format_fixed 6 (- (1 # 3)) = "-0.333333"
  /\ format_fixed 2 (9137 # 100) = "91.37".
Proof. repeat split; reflexivity. Qed.

Example label_text_sample :
  label_text sample_labels
  = "0 0.500000 0.375000 0.101562 0.101562" +:+ nl
    +:+ "0 0.625000 0.437500 0.002930 0.002930" +:+ nl.
Proof. reflexivity. Qed.

Example parse_labels_sample :
  parse_labels (label_text sample_labels)
  = Some [ {| class_id := 0; center_x := 500000 # 1000000; center_y := 375000 # 1000000;
              width := 101562 # 1000000; height := 101562 # 1000000 |};
           {| class_id := 0; center_x := 625000 # 1000000; center_y := 437500 # 1000000;
              width := 2930 # 1000000; height := 2930 # 1000000 |} ].
Proof. reflexivity. Qed.

(** C6: writing any annotation sequence in the format
    [classId cx cy w h] (one line per shape, fields separated by one
    space, classId as an integer, each coordinate with exactly 6 digits
    after the point, no header) and parsing the text again gives back as
    many tuples, in the same order, with the same classId and with every
    coordinate within half a unit of the sixth decimal of the original:
    the same tuples to 6-decimal precision. *)
Theorem label_file_round_trip (label_path : string) (labels : list Label) (w : World) :
  let written := snd (write_label_file label_path labels w) in
  files written !! label_path = Some (RegularFile (label_text labels))
  /\ fst (read_label_file label_path written) = Returned (parse_labels (label_text labels))
  /\ parse_labels (label_text labels) = Some (map round6_label labels)
  /\ Forall2 (fun original parsed =>
                class_id parsed = class_id original
                /\ close6 (center_x parsed) (center_x original)
                /\ close6 (center_y parsed) (center_y original)
                /\ close6 (width parsed) (width original)
                /\ close6 (height parsed) (height original))
             labels (map round6_label labels)
  /\ (forall label,
        label_line label
        = str_int (class_id label) +:+ " " +:+ format_fixed 6 (center_x label) +:+ " "
          +:+ format_fixed 6 (center_y label) +:+ " " +:+ format_fixed 6 (width label) +:+ " "
          +:+ format_fixed 6 (height label) +:+ nl)
  /\ (forall v, exists ip fp,
        format_fixed 6 v = ip +:+ "." +:+ fp
        /\ String.length fp = 6%nat /\ string_all is_digit fp = true).
Proof.
  intros written. subst written.
  split; [| split; [| split; [| split; [| split]]]].
  - cbn [write_label_file snd files with_files]. apply lookup_insert_eq.
  - unfold read_label_file. cbn [write_label_file snd files with_files].
    now rewrite lookup_insert_eq.
  - apply parse_labels_label_text.
  - induction labels as [| label rest IH]; cbn [map]; constructor; [| exact IH].
    cbn [round6_label class_id center_x center_y width height].
    repeat split; try reflexivity; apply round6_close.
  - intros label. unfold label_line, label_body. now rewrite !append_assoc.
  - intros v. unfold format_fixed.
    exists ((if is_negative v then "-" else "") +:+ str_int (scaled 6 v / 10 ^ Z.of_nat 6)),
           (fixed_digits 6 (scaled 6 v mod 10 ^ Z.of_nat 6)).
    split; [now rewrite !append_assoc |].
    split; [apply fixed_digits_length | apply fixed_digits_all_digits].
Qed.

(* ===================================================================== *)
(** * The guards of the scripts                                           *)
(* ===================================================================== *)

Lemma print_run {B} (line : string) (k : unit -> Py B) (w : World) :
  bind (print line) k w = k tt (with_stdout (stdout w ++ [line]) w).
Proof. reflexivity. Qed.

Lemma exists_run {B} (path : string) (k : bool -> Py B) (w : World) :
  bind (os_path_exists path) k w =
  k (match files w !! path with Some _ => true | None => false end) w.
Proof. reflexivity. Qed.

Lemma with_stdout_twice (o1 o2 : list string) (w : World) :
  with_stdout o2 (with_stdout o1 w) = with_stdout o2 w.
Proof. reflexivity. Qed.

Lemma stdout_with_stdout (o : list string) (w : World) : stdout (with_stdout o w) = o.
Proof. reflexivity. Qed.

Lemma files_with_stdout (o : list string) (w : World) : files (with_stdout o w) = files w.
Proof. reflexivity. Qed.

Ltac run_prints :=
  repeat first [ rewrite print_run | rewrite exists_run ];
  rewrite ?with_stdout_twice, ?stdout_with_stdout, ?files_with_stdout.

Ltac same_console :=
  unfold print; rewrite ?with_stdout_twice, ?stdout_with_stdout;
  repeat rewrite <- app_assoc; reflexivity.

Section ColorDetectorGuards.

Variable Image : Type.
Variable Contour : Type.
Variable cv2_decode : string -> option Image.
Variable cv2_encode : Image -> string.
Variable red_contours : Image -> list Contour.
Variable contour_area : Contour -> Q.
Variable bounding_rect : Contour -> Z * Z * Z * Z.
Variable approx_vertices : Contour -> Z.
Variable draw_detection : Image -> Z -> Contour -> Image.
Variable image_shape : Image -> Z * Z.

Let detect := detect_red_square Image Contour cv2_decode cv2_encode red_contours
                contour_area bounding_rect approx_vertices draw_detection image_shape.

Lemma detect_image_missing (image_path output_path : string) (w : World) :
  files w !! image_path = None ->
  detect image_path output_path w =
    (Returned tt,
     with_stdout (stdout w ++ ["🎯 红色方块检测程序"; string_repeat "=" 50;
                               "❌ 错误：找不到图片文件 '" +:+ image_path +:+ "'"]) w).
Proof.
  intros H. unfold detect, detect_red_square. run_prints. rewrite H. cbn [negb].
  same_console.
Qed.

Lemma detect_image_unreadable (image_path output_path : string) (w : World) :
  is_Some (files w !! image_path) ->
  fst (cv2_imread Image cv2_decode image_path w) = Returned None ->
  detect image_path output_path w =
    (Returned tt,
     with_stdout (stdout w ++ ["🎯 红色方块检测程序"; string_repeat "=" 50;
                               nl +:+ "📷 正在读取图片 '" +:+ image_path +:+ "'...";
                               "❌ 错误：无法读取图片 '" +:+ image_path +:+ "'"]) w).
Proof.
  intros [node Hnode] Hread. unfold detect, detect_red_square. run_prints.
  rewrite Hnode. cbn [negb]. run_prints.
  unfold cv2_imread in *. unfold bind at 1. rewrite files_with_stdout.
  destruct (files w !! image_path) as [[content |] |]; try discriminate.
  - cbn [fst] in Hread. injection Hread as ->. same_console.
  - same_console.
Qed.

End ColorDetectorGuards.

Section PredictorGuards.

Variable Model : Type.
Variable Result : Type.
Variable yolo_load : string -> Py Model.
Variable yolo_predict : Model -> string -> Q -> Py (list Result).
Variable result_save : Result -> string -> Py unit.
Variable result_boxes : Result -> list Box.
Variable model_names : Model -> Z -> string.
Variable path_stem : string -> string.

Let predict := predict_single_image Model Result yolo_load yolo_predict result_save
                 result_boxes model_names path_stem.

Lemma predict_model_missing (model_path image_path save_dir : string) (w : World) :
  files w !! model_path = None ->
  predict model_path image_path save_dir w =
    (Returned tt,
     with_stdout (stdout w ++ ["🎯 使用模型: " +:+ model_path; "📷 检测图片: " +:+ image_path;
                               string_repeat "=" 60;
                               "❌ 错误：找不到模型文件 '" +:+ model_path +:+ "'";
                               "💡 请先运行 train_custom_yolo4.py 完成训练"]) w).
Proof.
  intros H. unfold predict, predict_single_image. run_prints. rewrite H. cbn [negb].
  run_prints. same_console.
Qed.

Lemma predict_image_missing (model_path image_path save_dir : string) (w : World) :
  is_Some (files w !! model_path) ->
  files w !! image_path = None ->
  predict model_path image_path save_dir w =
    (Returned tt,
     with_stdout (stdout w ++ ["🎯 使用模型: " +:+ model_path; "📷 检测图片: " +:+ image_path;
                               string_repeat "=" 60;
                               "❌ 错误：找不到图片文件 '" +:+ image_path +:+ "'"]) w).
Proof.
  intros [node Hnode] H. unfold predict, predict_single_image. run_prints.
  rewrite Hnode. cbn [negb]. run_prints. rewrite H. cbn [negb].
  same_console.
Qed.

(** Past both guards, the script loads the model, predicts, and only
    then creates the directory. *)
Lemma predict_guards_passed (model_path image_path save_dir : string) (w : World) :
  is_Some (files w !! model_path) ->
  is_Some (files w !! image_path) ->
  predict model_path image_path save_dir w =
    (model <~ yolo_load model_path ;;
     run print "✅ 模型加载成功！" ;;
     run print (nl +:+ "🔍 正在检测...") ;;
     results <~ yolo_predict model image_path (25 # 100) ;;
     run mkdir_exist_ok save_dir ;;
     for_each results (report_result Model Result result_save result_boxes model_names
                         path_stem model image_path save_dir))
    (with_stdout (stdout w ++ ["🎯 使用模型: " +:+ model_path; "📷 检测图片: " +:+ image_path;
                               string_repeat "=" 60; nl +:+ "🔄 正在加载模型..."]) w).
Proof.
  intros [node Hnode] [node' Hnode']. unfold predict, predict_single_image. run_prints.
  rewrite Hnode. cbn [negb]. run_prints. rewrite Hnode'. cbn [negb]. run_prints.
  repeat rewrite <- app_assoc. reflexivity.
Qed.

End PredictorGuards.

(** C9: when the input image file does not exist ([detect_red_square],
    [predict_single_image]), when the image fails to decode
    ([detect_red_square], which decodes it), or when the model weight file
    does not exist ([predict_single_image], which loads it), the script
    prints a message that names the condition and returns normally and at
    once: no exception is raised and nothing but the console changes. *)
Theorem scripts_report_and_return
    (Image Contour : Type) (cv2_decode : string -> option Image)
    (cv2_encode : Image -> string) (red_contours : Image -> list Contour)
    (contour_area : Contour -> Q) (bounding_rect : Contour -> Z * Z * Z * Z)
    (approx_vertices : Contour -> Z) (draw_detection : Image -> Z -> Contour -> Image)
    (image_shape : Image -> Z * Z)
    (Model Result : Type) (yolo_load : string -> Py Model)
    (yolo_predict : Model -> string -> Q -> Py (list Result))
    (result_save : Result -> string -> Py unit) (result_boxes : Result -> list Box)
    (model_names : Model -> Z -> string) (path_stem : string -> string)
    (model_path image_path output_path save_dir : string) (w : World) :
  let detect := detect_red_square Image Contour cv2_decode cv2_encode red_contours
                  contour_area bounding_rect approx_vertices draw_detection image_shape in
  let predict := predict_single_image Model Result yolo_load yolo_predict result_save
                   result_boxes model_names path_stem in
  (files w !! image_path = None ->
   detect image_path output_path w =
     (Returned tt,
      with_stdout (stdout w ++ ["🎯 红色方块检测程序"; string_repeat "=" 50;
                                "❌ 错误：找不到图片文件 '" +:+ image_path +:+ "'"]) w))
  /\ (forall content,
        files w !! image_path = Some (RegularFile content) ->
        cv2_decode content = None ->
        detect image_path output_path w =
          (Returned tt,
           with_stdout (stdout w ++ ["🎯 红色方块检测程序"; string_repeat "=" 50;
                                     nl +:+ "📷 正在读取图片 '" +:+ image_path +:+ "'...";
                                     "❌ 错误：无法读取图片 '" +:+ image_path +:+ "'"]) w))
  /\ (files w !! model_path = None ->
      predict model_path image_path save_dir w =
        (Returned tt,
         with_stdout (stdout w ++ ["🎯 使用模型: " +:+ model_path; "📷 检测图片: " +:+ image_path;
                                   string_repeat "=" 60;
                                   "❌ 错误：找不到模型文件 '" +:+ model_path +:+ "'";
                                   "💡 请先运行 train_custom_yolo4.py 完成训练"]) w))
  /\ (is_Some (files w !! model_path) ->
      files w !! image_path = None ->
      predict model_path image_path save_dir w =
        (Returned tt,
         with_stdout (stdout w ++ ["🎯 使用模型: " +:+ model_path; "📷 检测图片: " +:+ image_path;
                                   string_repeat "=" 60;
                                   "❌ 错误：找不到图片文件 '" +:+ image_path +:+ "'"]) w)).
Proof.
  intros detect predict. subst detect predict.
  split; [| split; [| split]].
  - apply detect_image_missing.
  - intros content Hfile Hdecode. apply detect_image_unreadable.
    + rewrite Hfile. eauto.
    + unfold cv2_imread. rewrite Hfile. cbn [fst]. now rewrite Hdecode.
  - apply predict_model_missing.
  - apply predict_image_missing.
Qed.

Lemma scripts_report_and_return_witness :
  detect_sample "missing.jpg" "out.png" weights_world =
    (Returned tt,
     with_stdout ["🎯 红色方块检测程序"; string_repeat "=" 50;
                  "❌ 错误：找不到图片文件 'missing.jpg'"] weights_world)
  /\ detect_sample "test.jpg" "out.png" corrupt_image_world =
       (Returned tt,
        with_stdout ["🎯 红色方块检测程序"; string_repeat "=" 50;
                     nl +:+ "📷 正在读取图片 'test.jpg'...";
                     "❌ 错误：无法读取图片 'test.jpg'"] corrupt_image_world)
  /\ predict_sample "best.pt" "missing.jpg" "predictions" corrupt_image_world =
       (Returned tt,
        with_stdout ["🎯 使用模型: best.pt"; "📷 检测图片: missing.jpg"; string_repeat "=" 60;
                     "❌ 错误：找不到模型文件 'best.pt'";
                     "💡 请先运行 train_custom_yolo4.py 完成训练"] corrupt_image_world)
  /\ predict_sample "best.pt" "missing.jpg" "predictions" weights_world =
       (Returned tt,
        with_stdout ["🎯 使用模型: best.pt"; "📷 检测图片: missing.jpg"; string_repeat "=" 60;
                     "❌ 错误：找不到图片文件 'missing.jpg'"] weights_world).
Proof.
  split; [| split; [| split]].
  - apply (scripts_report_and_return unit unit reject_all (fun _ => "") (fun _ => [])
             (fun _ => 0%Q) (fun _ => (0, 0, 0, 0)) (fun _ => 0) (fun image _ _ => image)
             (fun _ => (0, 0)) unit (list Box) (fun _ => ret tt) (fun _ _ _ => ret [])
             (fun _ _ => ret tt) (fun boxes => boxes) (fun _ _ => "red_square")
             (fun path => path) "best.pt" "missing.jpg" "out.png" "predictions" weights_world).
    reflexivity.
  - apply (proj1 (proj2 (scripts_report_and_return unit unit reject_all (fun _ => "")
             (fun _ => []) (fun _ => 0%Q) (fun _ => (0, 0, 0, 0)) (fun _ => 0)
             (fun image _ _ => image) (fun _ => (0, 0)) unit (list Box) (fun _ => ret tt)
             (fun _ _ _ => ret []) (fun _ _ => ret tt) (fun boxes => boxes)
             (fun _ _ => "red_square") (fun path => path)
             "best.pt" "test.jpg" "out.png" "predictions" corrupt_image_world))
           "not an image"); reflexivity.
  - apply (proj1 (proj2 (proj2 (scripts_report_and_return unit unit reject_all (fun _ => "")
             (fun _ => []) (fun _ => 0%Q) (fun _ => (0, 0, 0, 0)) (fun _ => 0)
             (fun image _ _ => image) (fun _ => (0, 0)) unit (list Box) (fun _ => ret tt)
             (fun _ _ _ => ret []) (fun _ _ => ret tt) (fun boxes => boxes)
             (fun _ _ => "red_square") (fun path => path)
             "best.pt" "missing.jpg" "out.png" "predictions" corrupt_image_world)))).
    reflexivity.
  - apply (proj2 (proj2 (proj2 (scripts_report_and_return unit unit reject_all (fun _ => "")
             (fun _ => []) (fun _ => 0%Q) (fun _ => (0, 0, 0, 0)) (fun _ => 0)
             (fun image _ _ => image) (fun _ => (0, 0)) unit (list Box) (fun _ => ret tt)
             (fun _ _ _ => ret []) (fun _ _ => ret tt) (fun boxes => boxes)
             (fun _ _ => "red_square") (fun path => path)
             "best.pt" "missing.jpg" "out.png" "predictions" weights_world)))).
    + eexists. reflexivity.
    + reflexivity.
Defined.

(** C10: [predict_single_image] looks for the model file and then for the
    image file before it does anything but print its banner; on either
    missing-file path it returns without loading the model and without
    creating the save directory, whatever the library would have done, so
    the filesystem is as it was; past both checks it loads the model and
    predicts first, and creates the directory only after both returned. *)
Theorem predict_checks_before_acting
    (Model Result : Type) (yolo_load : string -> Py Model)
    (yolo_predict : Model -> string -> Q -> Py (list Result))
    (result_save : Result -> string -> Py unit) (result_boxes : Result -> list Box)
    (model_names : Model -> Z -> string) (path_stem : string -> string)
    (model_path image_path save_dir : string) (w : World) :
  let predict := predict_single_image Model Result yolo_load yolo_predict result_save
                   result_boxes model_names path_stem model_path image_path save_dir in
  let banner := ["🎯 使用模型: " +:+ model_path; "📷 检测图片: " +:+ image_path;
                 string_repeat "=" 60] in
  let loading := with_stdout (stdout w ++ banner ++ [nl +:+ "🔄 正在加载模型..."]) w in
  (files w !! model_path = None ->
   predict w =
     (Returned tt,
      with_stdout (stdout w ++ banner ++ ["❌ 错误：找不到模型文件 '" +:+ model_path +:+ "'";
                                          "💡 请先运行 train_custom_yolo4.py 完成训练"]) w)
   /\ files (snd (predict w)) = files w)
  /\ (is_Some (files w !! model_path) -> files w !! image_path = None ->
      predict w =
        (Returned tt,
         with_stdout (stdout w ++ banner ++ ["❌ 错误：找不到图片文件 '" +:+ image_path +:+ "'"]) w)
      /\ files (snd (predict w)) = files w)
  /\ (is_Some (files w !! model_path) -> is_Some (files w !! image_path) ->
      (forall e w1, yolo_load model_path loading = (Raised e, w1) ->
                    predict w = (Raised e, w1))
      /\ (forall model w1,
            yolo_load model_path loading = (Returned model, w1) ->
            let predicting :=
              with_stdout (stdout w1 ++ ["✅ 模型加载成功！"; nl +:+ "🔍 正在检测..."]) w1 in
            (forall e w2,
               yolo_predict model image_path (25 # 100) predicting = (Raised e, w2) ->
               predict w = (Raised e, w2))
            /\ (forall results w2,
                  yolo_predict model image_path (25 # 100) predicting = (Returned results, w2) ->
                  predict w =
                    (run mkdir_exist_ok save_dir ;;
                     for_each results
                       (report_result Model Result result_save result_boxes model_names
                          path_stem model image_path save_dir)) w2))).
Proof.
  intros predict banner loading. subst predict banner loading.
  split; [| split].
  - intros H. rewrite (predict_model_missing _ _ _ _ _ _ _ _ _ _ _ _ H). now split.
  - intros Hm Hi. rewrite (predict_image_missing _ _ _ _ _ _ _ _ _ _ _ _ Hm Hi). now split.
  - intros Hm Hi. rewrite (predict_guards_passed _ _ _ _ _ _ _ _ _ _ _ _ Hm Hi).
    split.
    + intros e w1 Hload. now apply bind_raised.
    + intros model w1 Hload predicting. subst predicting.
      rewrite (bind_returned _ _ _ _ _ Hload). rewrite !print_run, with_stdout_twice.
      rewrite stdout_with_stdout, <- app_assoc. cbn [app].
      split.
      * intros e w2 Hpredict. now apply bind_raised.
      * intros results w2 Hpredict. now rewrite (bind_returned _ _ _ _ _ Hpredict).
Qed.

Lemma predict_checks_before_acting_witness :
  (predict_sample "best.pt" "test.jpg" "predictions" corrupt_image_world =
     (Returned tt,
      with_stdout ["🎯 使用模型: best.pt"; "📷 检测图片: test.jpg"; string_repeat "=" 60;
                   "❌ 错误：找不到模型文件 'best.pt'";
                   "💡 请先运行 train_custom_yolo4.py 完成训练"] corrupt_image_world)
   /\ files (snd (predict_sample "best.pt" "test.jpg" "predictions" corrupt_image_world))
      = files corrupt_image_world)
  /\ (predict_sample "best.pt" "test.jpg" "predictions" weights_world =
        (Returned tt,
         with_stdout ["🎯 使用模型: best.pt"; "📷 检测图片: test.jpg"; string_repeat "=" 60;
                      "❌ 错误：找不到图片文件 'test.jpg'"] weights_world)
      /\ files (snd (predict_sample "best.pt" "test.jpg" "predictions" weights_world))
         = files weights_world)
  /\ predict_with_broken_loader "best.pt" "test.jpg" "predictions" ready_world =
       (Raised (ExternalError "corrupt weights"),
        with_stdout ["🎯 使用模型: best.pt"; "📷 检测图片: test.jpg"; string_repeat "=" 60;
                     nl +:+ "🔄 正在加载模型..."] ready_world).
Proof.
  split; [| split].
  - apply (predict_checks_before_acting unit (list Box) (fun _ => ret tt) (fun _ _ _ => ret [])
             (fun _ _ => ret tt) (fun boxes => boxes) (fun _ _ => "red_square")
             (fun path => path) "best.pt" "test.jpg" "predictions" corrupt_image_world).
    reflexivity.
  - apply (proj1 (proj2 (predict_checks_before_acting unit (list Box) (fun _ => ret tt)
             (fun _ _ _ => ret []) (fun _ _ => ret tt) (fun boxes => boxes)
             (fun _ _ => "red_square") (fun path => path)
             "best.pt" "test.jpg" "predictions" weights_world))).
    + eexists. reflexivity.
    + reflexivity.
  - apply (proj2 (proj2 (predict_checks_before_acting unit (list Box)
             (fun _ => raise (ExternalError "corrupt weights"))
             (fun _ _ _ => ret []) (fun _ _ => ret tt) (fun boxes => boxes)
             (fun _ _ => "red_square") (fun path => path)
             "best.pt" "test.jpg" "predictions" ready_world))).
    + eexists. reflexivity.
    + eexists. reflexivity.
    + reflexivity.
Defined.

(* ===================================================================== *)
(** * Further properties: file names                                      *)
(* ===================================================================== *)

Lemma string_repeat_zero_digits (n : nat) : string_all is_digit (string_repeat "0" n) = true.
Proof.
  induction n as [| n IH]; [reflexivity |].
  cbn [string_repeat]. rewrite append_cons, append_nil_l, string_all_cons, IH. reflexivity.
Qed.

Lemma string_repeat_zero_length (n : nat) : String.length (string_repeat "0" n) = n.
Proof.
  induction n as [| n IH]; [reflexivity |].
  cbn [string_repeat]. rewrite append_cons, append_nil_l. cbn [String.length]. now rewrite IH.
Qed.

Lemma digits_value_zeros (n : nat) (s : string) :
  digits_value 0 (string_repeat "0" n +:+ s) = digits_value 0 s.
Proof.
  induction n as [| n IH]; [reflexivity |].
  cbn [string_repeat]. rewrite append_cons, append_nil_l, append_cons.
  cbn [digits_value]. change (digit_value "0") with (Some 0). exact IH.
Qed.

Lemma zero_pad_length (width : nat) (s : string) :
  String.length (zero_pad width s) = Nat.max width (String.length s).
Proof. unfold zero_pad. rewrite length_append, string_repeat_zero_length. lia. Qed.

Lemma zero_pad_digits (width : nat) (s : string) :
  string_all is_digit s = true -> string_all is_digit (zero_pad width s) = true.
Proof.
  intros H. unfold zero_pad. now rewrite string_all_append, string_repeat_zero_digits, H.
Qed.

Lemma zero_pad_nonempty (width : nat) (s : string) : s <> "" -> zero_pad width s <> "".
Proof.
  intros Hs E. apply (f_equal String.length) in E. rewrite zero_pad_length in E.
  destruct s; [contradiction | simpl in E; lia].
Qed.

Lemma digits_value_str_nat (n : Z) : 0 <= n -> digits_value 0 (str_nat n) = Some n.
Proof.
  intros Hn. pose proof (parse_uint_str_nat n Hn) as H. unfold parse_uint in H.
  pose proof (str_nat_nonempty n) as Hne.
  destruct (str_nat n); [contradiction | exact H].
Qed.

Lemma parse_uint_zero_pad (width : nat) (n : Z) :
  0 <= n -> parse_uint (zero_pad width (str_nat n)) = Some n.
Proof.
  intros Hn. unfold parse_uint.
  pose proof (zero_pad_nonempty width (str_nat n) (str_nat_nonempty n)) as Hne.
  destruct (zero_pad width (str_nat n)) eqn:E; [contradiction |]. rewrite <- E.
  unfold zero_pad. rewrite digits_value_zeros. now apply digits_value_str_nat.
Qed.

(** A number below 10^m has a zero in front when written on m+1 digits. *)
Lemma fixed_digits_leading_zero (m : nat) :
  forall n, 0 <= n < 10 ^ Z.of_nat m ->
    fixed_digits (S m) n = String "0" (fixed_digits m n).
Proof.
  induction m as [| m IH]; intros n Hn.
  - assert (n = 0) by (simpl in Hn; lia). subst n. reflexivity.
  - assert (Hq : 0 <= n / 10 < 10 ^ Z.of_nat m).
    { rewrite Nat2Z.inj_succ, Z.pow_succ_r in Hn by lia.
      split; [apply Z.div_pos; lia | apply Z.div_lt_upper_bound; lia]. }
    change (fixed_digits (S (S m)) n)
      with (fixed_digits (S m) (n / 10) +:+ String (digit_char (n mod 10)) EmptyString).
    rewrite (IH _ Hq), append_cons. reflexivity.
Qed.

Lemma strip_leading_zeros_length (s : string) :
  (String.length (strip_leading_zeros s) <= String.length s)%nat.
Proof.
  induction s as [| c s IH]; [reflexivity |].
  cbn [strip_leading_zeros]. destruct (Ascii.eqb c "0"); [| reflexivity].
  destruct s as [| d s]; [reflexivity |]. cbn [String.length] in *. lia.
Qed.

Lemma strip_leading_zeros_cons_zero (s : string) :
  s <> "" -> strip_leading_zeros (String "0" s) = strip_leading_zeros s.
Proof. intros Hs. cbn [strip_leading_zeros]. destruct s; [contradiction | reflexivity]. Qed.

(** A number below 10^k, k >= 1, is printed on at most k digits. *)
Lemma str_nat_short (k : nat) (n : Z) :
  (0 < k)%nat -> 0 <= n < 10 ^ Z.of_nat k -> (String.length (str_nat n) <= k)%nat.
Proof.
  intros Hk Hn. unfold str_nat.
  assert (Hgen : forall extra,
             (String.length (strip_leading_zeros (fixed_digits (extra + k) n)) <= k)%nat).
  { induction extra as [| extra IH].
    - cbn [Nat.add]. etransitivity; [apply strip_leading_zeros_length |].
      now rewrite fixed_digits_length.
    - cbn [Nat.add]. rewrite fixed_digits_leading_zero.
      + rewrite strip_leading_zeros_cons_zero; [exact IH |].
        intros E. apply (f_equal String.length) in E. rewrite fixed_digits_length in E.
        simpl in E. lia.
      + split; [lia |]. eapply Z.lt_le_trans; [apply Hn |].
        apply Z.pow_le_mono_r; lia. }
  destruct (Nat.le_gt_cases k (S (Z.to_nat (Z.log2 n)))) as [Hle | Hgt].
  - replace (S (Z.to_nat (Z.log2 n))) with ((S (Z.to_nat (Z.log2 n)) - k) + k)%nat by lia.
    apply Hgen.
  - etransitivity; [apply strip_leading_zeros_length |]. rewrite fixed_digits_length. lia.
Qed.

(** X1. The index printed by [{i:04d}] reads back as the index, so two
    samples never share a name; the name has four digits up to 9999 and
    is never cut short beyond. *)
Theorem format_04d_round_trip (i j : Z) :
  0 <= i -> 0 <= j ->
  parse_uint (format_04d i) = Some i
  /\ string_all is_digit (format_04d i) = true
  /\ (format_04d i = format_04d j -> i = j)
  /\ (4 <= String.length (format_04d i))%nat
  /\ (i < 10000 -> String.length (format_04d i) = 4%nat).
Proof.
  intros Hi Hj.
  assert (Hf : forall n, 0 <= n -> format_04d n = zero_pad 4 (str_nat n)).
  { intros n Hn. unfold format_04d. now rewrite (proj2 (Z.ltb_ge n 0) Hn). }
  rewrite (Hf i Hi), (Hf j Hj).
  split; [now apply parse_uint_zero_pad |].
  split; [apply zero_pad_digits, str_nat_digits |].
  split.
  - intros E. pose proof (parse_uint_zero_pad 4 i Hi) as Pi.
    rewrite E, (parse_uint_zero_pad 4 j Hj) in Pi. congruence.
  - rewrite zero_pad_length. split; [lia |].
    intros Hsmall. pose proof (str_nat_short 4 i ltac:(lia) ltac:(split; [lia | exact Hsmall])).
    lia.
Qed.

Lemma format_04d_round_trip_witness :
  parse_uint (format_04d 7) = Some 7
  /\ string_all is_digit (format_04d 7) = true
  /\ (format_04d 7 = format_04d 7 -> 7 = 7)
  /\ (4 <= String.length (format_04d 7))%nat
  /\ (7 < 10000 -> String.length (format_04d 7) = 4%nat).
Proof. apply (format_04d_round_trip 7 7); lia. Defined.

Example format_04d_samples :
  format_04d 0 = "0000" /\ format_04d 49 = "0049" /\ format_04d 9999 = "9999"
  /\ format_04d 12345 = "12345" /\ format_04d (-1) = "-001".
Proof. repeat split; reflexivity. Qed.

(* ===================================================================== *)
(** * Further properties: the generator                                   *)
(* ===================================================================== *)

Lemma paint_untouched (outline : Z -> Z -> Z -> Z -> Z -> Z -> Z -> bool)
    (image : Canvas) (p : Placement) (row col ch : Z) :
  touched outline p col row = false ->
  pix (paint outline image p) row col ch = pix image row col ch.
Proof.
  unfold touched. intros H. apply orb_false_elim in H as [Hfill Hborder].
  unfold paint. destruct (has_border p); cbn [andb] in Hborder; cbn [pix cv2_rectangle].
  - now rewrite Hborder, Hfill.
  - now rewrite Hfill.
Qed.

Lemma paint_all_untouched (outline : Z -> Z -> Z -> Z -> Z -> Z -> Z -> bool)
    (shapes : list Placement) (row col ch : Z) :
  forallb (fun p => negb (touched outline p col row)) shapes = true ->
  forall image, pix (fold_left (paint outline) shapes image) row col ch = pix image row col ch.
Proof.
  induction shapes as [| p shapes IH]; intros H image; cbn [fold_left]; [reflexivity |].
  cbn [forallb] in H. apply andb_prop in H as [Hp Hrest]. apply negb_true_iff in Hp.
  rewrite (IH Hrest). now apply paint_untouched.
Qed.

Lemma background_channel_bounds (e_py e_np : Entropy) (n row col : Z) :
  let value ch := clamp (nth (Z.to_nat ch) (bg_color_at e_py) 0 + noise_at e_np n row col ch) 0 255 in
  70 <= value 0 <= 255 /\ 70 <= value 1 <= 255 /\ 20 <= value 2 <= 179.
Proof.
  intros value. subst value. cbv beta.
  change (nth (Z.to_nat 0) (bg_color_at e_py) 0) with (randint_val 100 255 (peek e_py 0)).
  change (nth (Z.to_nat 1) (bg_color_at e_py) 0) with (randint_val 100 255 (peek e_py 1)).
  change (nth (Z.to_nat 2) (bg_color_at e_py) 0) with (randint_val 50 150 (peek e_py 2)).
  pose proof (randint_val_range 100 255 (peek e_py 0) ltac:(lia) (peek_range _ _)).
  pose proof (randint_val_range 100 255 (peek e_py 1) ltac:(lia) (peek_range _ _)).
  pose proof (randint_val_range 50 150 (peek e_py 2) ltac:(lia) (peek_range _ _)).
  pose proof (noise_at_range e_np n row col 0).
  pose proof (noise_at_range e_np n row col 1).
  pose proof (noise_at_range e_np n row col 2).
  unfold clamp.
  repeat match goal with |- context [?a <? ?b] => destruct (Z.ltb_spec a b) end; lia.
Qed.

(** X2. Drawing changes no pixel outside the shapes: wherever no filled
    square and no border reaches, the returned canvas still holds the
    noisy background, whose red channel is at most 179 and whose blue and
    green channels are at least 70, while every fill colour has a red
    channel of at least 200.  A pixel as red as a square is in a shape. *)
Theorem red_stays_inside_shapes
    (outline : Z -> Z -> Z -> Z -> Z -> Z -> Z -> bool)
    (img_size : Z) (num_squares : option Z) (w w' : World)
    (image : Canvas) (labels : list Label) (row col : Z) :
  generate_red_square_image outline img_size num_squares w = (Returned (image, labels), w') ->
  forallb (fun p => negb (touched outline p col row))
          (planned_shapes img_size num_squares (py_random w)) = true ->
  (forall ch, 0 <= ch < 3 ->
     pix image row col ch =
     clamp (nth (Z.to_nat ch) (bg_color_at (py_random w)) 0
            + noise_at (np_random w) img_size row col ch) 0 255)
  /\ 70 <= pix image row col 0 <= 255
  /\ 70 <= pix image row col 1 <= 255
  /\ 20 <= pix image row col 2 <= 179
  /\ Forall (fun fill => 200 <= nth 2 fill 0) red_variations.
Proof.
  intros H Hout. rewrite generate_unfold in H.
  destruct (generate_traced outline img_size num_squares w)
    as [[[[image0 labels0] shapes] | e0] w0] eqn:E; [| discriminate].
  injection H as -> -> ->.
  apply generate_traced_inv in E as (Hsize & -> & _ & _ & _ & bg & Hbg & ->).
  destruct (background_returned img_size w Hsize) as (bg' & Hbg' & _ & Hpix).
  rewrite Hbg in Hbg'. injection Hbg' as <-.
  assert (Hsame : forall ch, 0 <= ch < 3 ->
            pix (fold_left (paint outline) (planned_shapes img_size num_squares (py_random w)) bg)
                row col ch =
            clamp (nth (Z.to_nat ch) (bg_color_at (py_random w)) 0
                   + noise_at (np_random w) img_size row col ch) 0 255).
  { intros ch Hch. rewrite (paint_all_untouched outline _ row col ch Hout). now apply Hpix. }
  destruct (background_channel_bounds (py_random w) (np_random w) img_size row col)
    as (H0 & H1 & H2).
  split; [exact Hsame |].
  rewrite (Hsame 0), (Hsame 1), (Hsame 2) by lia.
  split; [exact H0 |]. split; [exact H1 |]. split; [exact H2 |].
  unfold red_variations. repeat constructor; simpl; lia.
Qed.

Lemma red_stays_inside_shapes_witness :
  70 <= pix sample_image 10 20 0 <= 255
  /\ 70 <= pix sample_image 10 20 1 <= 255
  /\ 20 <= pix sample_image 10 20 2 <= 179.
Proof.
  destruct (red_stays_inside_shapes inner_frame 640 (Some 1) sample_world (snd sample_call)
              sample_image sample_annotations 10 20 eq_refl eq_refl)
    as (_ & H0 & H1 & H2 & _).
  split; [exact H0 |]. split; [exact H1 | exact H2].
Defined.



(* ===================================================================== *)
(** * Further properties: the colour detector                             *)
(* ===================================================================== *)

Lemma with_stdout_same (w : World) : with_stdout (stdout w) w = w.
Proof. now destruct w. Qed.

Lemma bind_assoc {A B C} (m : Py A) (k1 : A -> Py B) (k2 : B -> Py C) (w : World) :
  bind (bind m k1) k2 w = bind m (fun a => bind (k1 a) k2) w.
Proof. unfold bind. destruct (m w) as [[a | e] w']; reflexivity. Qed.

Lemma stdout_with_files (f : gmap string fsnode) (w : World) :
  stdout (with_files f w) = stdout w.
Proof. reflexivity. Qed.

Lemma with_stdout_files_stdout (o o' : list string) (f : gmap string fsnode) (w : World) :
  with_stdout o (with_files f (with_stdout o' w)) = with_stdout o (with_files f w).
Proof. reflexivity. Qed.

Ltac run_steps :=
  repeat first [ rewrite print_run | rewrite exists_run | rewrite bind_assoc ];
  rewrite ?with_stdout_twice, ?stdout_with_stdout, ?files_with_stdout.

Section ColorDetectorResults.

Variable Image : Type.
Variable Contour : Type.
Variable cv2_decode : string -> option Image.
Variable cv2_encode : Image -> string.
Variable red_contours : Image -> list Contour.
Variable contour_area : Contour -> Q.
Variable bounding_rect : Contour -> Z * Z * Z * Z.
Variable approx_vertices : Contour -> Z.
Variable draw_detection : Image -> Z -> Contour -> Image.
Variable image_shape : Image -> Z * Z.

Lemma imwrite_run {B} (path : string) (image : Image) (k : unit -> Py B) (w : World) :
  bind (cv2_imwrite Image cv2_encode path image) k w
  = k tt (with_files (<[path := RegularFile (cv2_encode image)]> (files w)) w).
Proof. reflexivity. Qed.

Lemma report_contours_run (contours : list Contour) :
  forall (square_count : Z) (result_image : Image) (w : World),
    let kept := List.filter (fun c => Qle_bool 500 (contour_area c)) contours in
    exists lines : list string,
      report_contours Image Contour contour_area bounding_rect approx_vertices draw_detection
        contours square_count result_image w
      = (Returned (square_count + Z.of_nat (length kept),
                   fold_left (fun image jc => draw_detection image (fst jc) (snd jc))
                             (enumerate (square_count + 1) kept) result_image),
         with_stdout (stdout w ++ lines) w)
      /\ length lines = (6 * length kept)%nat.
Proof.
  induction contours as [| contour rest IH]; intros square_count result_image w kept.
  - exists []. subst kept. cbn [report_contours List.filter length enumerate fold_left].
    unfold ret. rewrite app_nil_r, with_stdout_same, Z.add_0_r. now split.
  - subst kept. cbn [report_contours List.filter].
    destruct (Qle_bool 500 (contour_area contour)) eqn:Harea; cbn [negb].
    + destruct (bounding_rect contour) as [[[x y] bw] bh].
      rewrite !print_run.
      match goal with
      | |- context [report_contours _ _ _ _ _ _ rest ?k ?img ?w1] =>
          destruct (IH k img w1) as (lines & E & Hlen); rewrite E
      end.
      rewrite !with_stdout_twice, !stdout_with_stdout.
      eexists. split.
      * replace (square_count + Z.of_nat (length (contour :: List.filter (fun c => Qle_bool 500 (contour_area c)) rest)))
          with (square_count + 1 + Z.of_nat (length (List.filter (fun c => Qle_bool 500 (contour_area c)) rest)))
          by (cbn [length]; lia).
        cbn [enumerate fold_left fst snd].
        repeat rewrite <- app_assoc. reflexivity.
      * repeat rewrite List.length_app. cbn [length]. lia.
    + apply IH.
Qed.

(** X4. The loop over the contours keeps exactly those of area 500 or
    more, in their order, numbers them consecutively from the count it
    starts with, draws each on the image under its number and prints six
    lines for each; the others leave no trace.  It never raises, the
    count grows by at most the number of contours, and only the console
    changes: the filesystem and both random generators are untouched. *)
Theorem contours_filtered_and_counted (contours : list Contour)
    (square_count : Z) (result_image : Image) (w : World) :
  let kept := List.filter (fun c => Qle_bool 500 (contour_area c)) contours in
  exists (lines : list string) (w' : World),
    report_contours Image Contour contour_area bounding_rect approx_vertices draw_detection
      contours square_count result_image w
    = (Returned (square_count + Z.of_nat (length kept),
                 fold_left (fun image jc => draw_detection image (fst jc) (snd jc))
                           (enumerate (square_count + 1) kept) result_image),
       w')
    /\ stdout w' = stdout w ++ lines
    /\ length lines = (6 * length kept)%nat
    /\ (length kept <= length contours)%nat
    /\ files w' = files w
    /\ py_random w' = py_random w
    /\ np_random w' = np_random w.
Proof.
  intros kept.
  destruct (report_contours_run contours square_count result_image w) as (lines & E & Hlen).
  exists lines, (with_stdout (stdout w ++ lines) w).
  split; [exact E |]. split; [reflexivity |]. split; [exact Hlen |].
  split; [apply List.filter_length_le |]. now split.
Qed.

Lemma detect_found_run (image_path output_path content : string)
    (image : Image) (w : World) :
  files w !! image_path = Some (RegularFile content) ->
  cv2_decode content = Some image ->
  let kept := List.filter (fun c => Qle_bool 500 (contour_area c)) (red_contours image) in
  let annotated :=
    fold_left (fun img jc => draw_detection img (fst jc) (snd jc)) (enumerate 1 kept) image in
  exists lines : list string,
    detect_red_square Image Contour cv2_decode cv2_encode red_contours contour_area
      bounding_rect approx_vertices draw_detection image_shape image_path output_path w
    = (Returned tt,
       with_stdout (stdout w ++ lines)
         (match kept with
          | [] => w
          | _ :: _ => with_files (<[output_path := RegularFile (cv2_encode annotated)]> (files w)) w
          end))
    /\ In (match kept with
           | [] => "❌ 未检测到红色方块"
           | _ :: _ => "✅ 检测完成！共找到 " +:+ str_int (Z.of_nat (length kept)) +:+ " 个红色方块"
           end) lines.
Proof.
  intros Hfile Hdecode kept annotated.
  unfold detect_red_square. run_prints. rewrite Hfile. cbn [negb]. run_prints.
  unfold bind at 1, cv2_imread at 1. rewrite files_with_stdout, Hfile, Hdecode.
  run_prints.
  match goal with
  | |- context [bind (report_contours _ _ _ _ _ _ ?cs ?k ?img) _ ?w1] =>
      destruct (report_contours_run cs k img w1) as (lines & E & Hlen);
        cbv zeta in E; rewrite (bind_returned _ _ _ _ _ E)
  end.
  fold kept. fold annotated. cbv beta iota. rewrite Z.add_0_l.
  run_prints.
  destruct kept as [| c kept'] eqn:Hkept.
  - cbn [length]. change (0 <? Z.of_nat 0) with false. cbv iota.
    run_steps. unfold print. rewrite ?with_stdout_twice, ?stdout_with_stdout.
    eexists. split.
    + repeat rewrite <- app_assoc. reflexivity.
    + rewrite ?List.in_app_iff. cbn [In]. tauto.
  - assert (Hpos : (0 <? Z.of_nat (length (c :: kept'))) = true)
      by (apply Z.ltb_lt; cbn [length]; lia).
    rewrite Hpos. cbv iota. run_steps.
    rewrite imwrite_run. run_steps.
    unfold print.
    repeat first [ rewrite with_stdout_twice | rewrite stdout_with_stdout
                 | rewrite stdout_with_files | rewrite with_stdout_files_stdout
                 | rewrite files_with_stdout ].
    eexists. split.
    + repeat rewrite <- app_assoc. reflexivity.
    + rewrite ?List.in_app_iff. cbn [In]. tauto.
Qed.


End ColorDetectorResults.


(* ===================================================================== *)
(** * Further properties: the predictor scripts                           *)
(* ===================================================================== *)

Lemma bind_ext {A B} (m : Py A) (k k' : A -> Py B) (w : World) :
  (forall a w', k a w' = k' a w') -> bind m k w = bind m k' w.
Proof. intros H. unfold bind. destruct (m w) as [[a | e] w']; [apply H | reflexivity]. Qed.

Lemma for_each_app {A} (xs ys : list A) (body : A -> Py unit) (w : World) :
  for_each (xs ++ ys) body w = bind (for_each xs body) (fun _ => for_each ys body) w.
Proof.
  revert w. induction xs as [| x xs IH]; intros w; cbn [app for_each].
  - reflexivity.
  - rewrite bind_assoc. apply bind_ext. intros _ w'. apply IH.
Qed.

Section PredictorResults.

Variable Model : Type.
Variable Result : Type.
Variable yolo_load : string -> Py Model.
Variable yolo_predict : Model -> string -> Q -> Py (list Result).
Variable yolo_predict_default : Model -> string -> Py (list Result).
Variable result_save : Result -> string -> Py unit.
Variable result_boxes : Result -> list Box.
Variable model_names : Model -> Z -> string.
Variable path_stem : string -> string.
Variable path_name : string -> string.
Variable path_suffix : string -> string.
Variable path_glob : gmap string fsnode -> string -> string -> list string.

Let predict := predict_single_image Model Result yolo_load yolo_predict result_save
                 result_boxes model_names path_stem.
Let report := report_result Model Result result_save result_boxes model_names path_stem.

(** The boxes of one result: six lines each, headed by consecutive
    numbers. *)
Lemma report_boxes_run (model : Model) (boxes : list Box) :
  forall (k : Z) (w : World),
    exists lines : list string,
      for_each (enumerate k boxes) (report_box Model model_names model) w
      = (Returned tt, with_stdout (stdout w ++ lines) w)
      /\ length lines = (6 * length boxes)%nat
      /\ forall j : nat, (j < length boxes)%nat ->
           nth_error lines (6 * j) = Some ("方块 #" +:+ str_int (k + Z.of_nat j) +:+ ":").
Proof.
  induction boxes as [| box rest IH]; intros k w; cbn [enumerate for_each].
  - exists []. unfold ret. rewrite app_nil_r, with_stdout_same.
    split; [reflexivity |]. split; [reflexivity |]. cbn [length]. lia.
  - unfold report_box at 1. cbv beta iota zeta. run_steps.
    match goal with
    | |- context [for_each (enumerate ?k' rest) _ ?w1] =>
        destruct (IH k' w1) as (lines & E & Hlen & Hnth); rewrite E
    end.
    unfold print. rewrite ?with_stdout_twice, ?stdout_with_stdout.
    eexists. split; [| split].
    + repeat rewrite <- app_assoc. cbn [app]. reflexivity.
    + cbn [length]. lia.
    + intros [| j] Hj.
      * cbn [Nat.mul nth_error]. now rewrite Z.add_0_r.
      * replace (6 * S j)%nat with (S (S (S (S (S (S (6 * j))))))) by lia.
        cbn [nth_error]. cbn [length] in Hj. rewrite Hnth by lia.
        replace (k + Z.of_nat (S j)) with (k + 1 + Z.of_nat j) by lia. reflexivity.
Qed.

(** X6. The report of one result.  If saving the annotated picture
    raises, the exception passes through and nothing is printed.
    Otherwise the report returns and adds 6 + 6n console lines for a
    result with n boxes (the empty result gets one line of regret in the
    place of the count), box number j, counted from 1, being headed
    [方块 #j:]; the picture goes to [save_dir/stem_detected.jpg] whatever
    the extension of the input was. *)
Theorem report_result_run (model : Model) (image_path save_dir : string)
    (result : Result) (w w1 : World) (saved : outcome unit) :
  result_save result (save_dir +:+ "/" +:+ path_stem image_path +:+ "_detected.jpg") w
    = (saved, w1) ->
  match saved with
  | Raised e => report model image_path save_dir result w = (Raised e, w1)
  | Returned _ =>
      exists lines : list string,
        report model image_path save_dir result w
        = (Returned tt, with_stdout (stdout w1 ++ lines) w1)
        /\ length lines = (6 + 6 * length (result_boxes result))%nat
        /\ nth_error lines 1 = Some "🟥 检测结果:"
        /\ forall j : nat, (j < length (result_boxes result))%nat ->
             nth_error lines (4 + 6 * j)
             = Some ("方块 #" +:+ str_int (1 + Z.of_nat j) +:+ ":")
  end.
Proof.
  intros Hsave. unfold report, report_result. cbv zeta.
  destruct saved as [[] | e].
  - rewrite (bind_returned _ _ _ _ _ Hsave). run_steps.
    destruct (result_boxes result) as [| box boxes] eqn:Hboxes.
    + run_steps. unfold print. rewrite ?with_stdout_twice, ?stdout_with_stdout.
      eexists. split; [| split; [| split]].
      * repeat rewrite <- app_assoc. cbn [app]. reflexivity.
      * reflexivity.
      * reflexivity.
      * cbn [length]. lia.
    + run_steps.
      match goal with
      | |- context [bind (for_each (enumerate ?k ?bs) _) _ ?w2] =>
          destruct (report_boxes_run model bs k w2) as (lines & E & Hlen & Hnth);
            rewrite (bind_returned _ _ _ _ _ E)
      end.
      run_steps. unfold print. rewrite ?with_stdout_twice, ?stdout_with_stdout.
      eexists. split; [| split; [| split]].
      * repeat rewrite <- app_assoc. cbn [app]. reflexivity.
      * cbn [length]. rewrite List.length_app. cbn [length] in *. lia.
      * reflexivity.
      * intros j Hj. cbn [Nat.add nth_error].
        rewrite nth_error_app1 by (cbn [length] in *; lia).
        now apply Hnth.
  - now rewrite (bind_raised _ _ _ _ _ Hsave).
Qed.

(** X7. Past both existence checks, with a model that loads and a
    prediction that returns: when the save directory's path is taken by
    a regular file, [predict_single_image] raises FileExistsError at the
    mkdir, before any result is saved or reported; when the directory is
    already there, the filesystem is left as the library left it and the
    results are reported one by one. *)
Theorem predict_save_dir (model_path image_path save_dir : string)
    (model : Model) (results : list Result) (w w1 w2 : World) :
  is_Some (files w !! model_path) ->
  is_Some (files w !! image_path) ->
  yolo_load model_path
    (with_stdout (stdout w ++ ["🎯 使用模型: " +:+ model_path; "📷 检测图片: " +:+ image_path;
                               string_repeat "=" 60; nl +:+ "🔄 正在加载模型..."]) w)
    = (Returned model, w1) ->
  yolo_predict model image_path (25 # 100)
    (with_stdout (stdout w1 ++ ["✅ 模型加载成功！"; nl +:+ "🔍 正在检测..."]) w1)
    = (Returned results, w2) ->
  match files w2 !! save_dir with
  | Some (RegularFile _) => predict model_path image_path save_dir w = (Raised FileExistsError, w2)
  | Some Directory =>
      predict model_path image_path save_dir w
      = for_each results (fun result => report model image_path save_dir result) w2
  | None => True
  end.
Proof.
  intros Hmodel Himage Hload Hpredict. unfold predict.
  rewrite (predict_guards_passed _ _ _ _ _ _ _ _ _ _ _ _ Hmodel Himage).
  rewrite (bind_returned _ _ _ _ _ Hload). run_steps.
  rewrite <- app_assoc. cbn [app].
  rewrite (bind_returned _ _ _ _ _ Hpredict).
  destruct (files w2 !! save_dir) as [[content |] |] eqn:Hdir; [| | exact I].
  - apply bind_raised. unfold mkdir_exist_ok. now rewrite Hdir.
  - rewrite (bind_returned _ _ w2 w2 tt); [reflexivity |].
    unfold mkdir_exist_ok. now rewrite Hdir.
Qed.

End PredictorResults.

Lemma report_result_run_witness :
  (fun _ _ => ret tt) [sample_box] ("predictions" +:+ "/" +:+ "test.jpg" +:+ "_detected.jpg")
    ready_world = (Returned tt, ready_world)
  /\ exists lines : list string,
       report_result unit (list Box) (fun _ _ => ret tt) (fun boxes => boxes)
         (fun _ _ => "red_square") (fun path => path) tt "test.jpg" "predictions"
         [sample_box] ready_world
       = (Returned tt, with_stdout (stdout ready_world ++ lines) ready_world)
       /\ length lines = 12%nat
       /\ nth_error lines 1 = Some "🟥 检测结果:"
       /\ forall j : nat, (j < 1)%nat ->
            nth_error lines (4 + 6 * j) = Some ("方块 #" +:+ str_int (1 + Z.of_nat j) +:+ ":").
Proof.
  split; [reflexivity |].
  exact (report_result_run unit (list Box) (fun _ _ => ret tt) (fun boxes => boxes)
           (fun _ _ => "red_square") (fun path => path) tt "test.jpg" "predictions"
           [sample_box] ready_world ready_world (Returned tt) eq_refl).
Defined.

Lemma predict_save_dir_witness :
  is_Some (files ready_world !! "best.pt")
  /\ is_Some (files ready_world !! "test.jpg")
  /\ fst (predict_fixed [[sample_box]] "best.pt" "test.jpg" "test.jpg" ready_world)
     = Raised FileExistsError.
Proof.
  split; [now eexists |]. split; [now eexists |].
  exact (f_equal fst
           (predict_save_dir unit (list Box) (fun _ => ret tt) (fun _ _ _ => ret [[sample_box]])
              (fun _ _ => ret tt) (fun boxes => boxes) (fun _ _ => "red_square")
              (fun path => path) "best.pt" "test.jpg" "test.jpg" tt [[sample_box]]
              ready_world _ _ (ex_intro _ _ eq_refl) (ex_intro _ _ eq_refl) eq_refl eq_refl)).
Defined.

Section BatchAndOnnx.

Variable Model : Type.
Variable Result : Type.
Variable yolo_load : string -> Py Model.
Variable yolo_predict : Model -> string -> Q -> Py (list Result).
Variable yolo_predict_default : Model -> string -> Py (list Result).
Variable result_save : Result -> string -> Py unit.
Variable result_boxes : Result -> list Box.
Variable model_names : Model -> Z -> string.
Variable path_stem : string -> string.
Variable path_name : string -> string.
Variable path_suffix : string -> string.
Variable path_glob : gmap string fsnode -> string -> string -> list string.

Let batch := predict_batch_images Model Result yolo_load yolo_predict result_save
               result_boxes path_stem path_name path_suffix path_glob.
Let onnx := predict_with_onnx Model Result yolo_load yolo_predict_default result_boxes.
Let predict := predict_single_image Model Result yolo_load yolo_predict result_save
                 result_boxes model_names path_stem.
Let main := predict_main Model Result yolo_load yolo_predict result_save
              result_boxes model_names path_stem.

Lemma glob_images_run (images_dir : string) (extensions : list string) :
  forall (image_files : list string) (w : World),
    glob_images path_glob images_dir extensions image_files w
    = (Returned (image_files
                 ++ flat_map (fun ext => path_glob (files w) images_dir ("*" +:+ ext)
                                         ++ path_glob (files w) images_dir ("*" +:+ str_upper ext))
                             extensions), w).
Proof.
  induction extensions as [| ext rest IH]; intros image_files w; cbn [glob_images flat_map].
  - unfold ret. now rewrite app_nil_r.
  - unfold bind at 1, glob at 1. unfold bind at 1, glob at 1. cbv zeta.
    rewrite IH. now rewrite <- !app_assoc.
Qed.


(** X9. [predict_with_onnx]: a missing model file is reported and the
    script returns with only the console changed.  Otherwise the model
    is loaded and asked for its results; an empty list of results makes
    [results[0]] raise IndexError, and of a non-empty one only the first
    result is counted. *)
Theorem onnx_counts_first_result (onnx_path image_path : string) (w : World) :
  let banner := ["🎯 使用 ONNX 模型: " +:+ onnx_path; "📷 检测图片: " +:+ image_path] in
  (files w !! onnx_path = None ->
   onnx onnx_path image_path w
   = (Returned tt,
      with_stdout (stdout w ++ banner
                   ++ ["❌ 错误：找不到 ONNX 模型 '" +:+ onnx_path +:+ "'"]) w))
  /\ (is_Some (files w !! onnx_path) ->
      forall (model : Model) (results : list Result) (w1 w2 : World),
        yolo_load onnx_path (with_stdout (stdout w ++ banner) w) = (Returned model, w1) ->
        yolo_predict_default model image_path w1 = (Returned results, w2) ->
        onnx onnx_path image_path w
        = match results with
          | [] => (Raised IndexError, w2)
          | first :: _ =>
              (Returned tt,
               with_stdout (stdout w2
                            ++ ["✅ ONNX 模型预测完成！检测到 "
                                +:+ str_int (Z.of_nat (length (result_boxes first)))
                                +:+ " 个方块"]) w2)
          end).
Proof.
  intros banner. split.
  - intros Hmodel. unfold onnx, predict_with_onnx. run_steps.
    rewrite Hmodel. cbn [negb]. unfold print. subst banner.
    rewrite ?with_stdout_twice, ?stdout_with_stdout.
    repeat rewrite <- app_assoc. reflexivity.
  - intros [node Hmodel] model results w1 w2 Hload Hpredict.
    unfold onnx, predict_with_onnx. run_steps. rewrite Hmodel. cbn [negb].
    subst banner. rewrite <- app_assoc. cbn [app].
    rewrite (bind_returned _ _ _ _ _ Hload), (bind_returned _ _ _ _ _ Hpredict).
    destruct results as [| first others]; reflexivity.
Qed.

(** X10. [main] of the predictor announces completion whenever the
    single-image prediction returns, even when it only reported that the
    model file is missing: then twelve lines are printed, the last four
    being the completion banner and the hints, and nothing else changes.
    An exception of the prediction passes through [main] and the banner
    is not printed. *)
Theorem main_completes_without_model (w : World) :
  let model_path := "runs/train/square_detector/weights/best.pt" in
  let image_path := "test_images/test_image_1.jpg" in
  let opening := ["🚀 红色方块检测器 - 使用训练好的模型"; string_repeat "=" 60;
                  nl +:+ "【方式 1】预测单张图片"] in
  let closing := [nl +:+ "🎉 预测完成！"; nl +:+ "💡 提示：";
                  "  - 修改 main() 函数中的图片路径来预测其他图片";
                  "  - 取消注释可以启用批量预测或 ONNX 模型预测"] in
  (files w !! model_path = None ->
   main w
   = (Returned tt,
      with_stdout (stdout w ++ opening
                   ++ ["🎯 使用模型: " +:+ model_path; "📷 检测图片: " +:+ image_path;
                       string_repeat "=" 60;
                       "❌ 错误：找不到模型文件 '" +:+ model_path +:+ "'";
                       "💡 请先运行 train_custom_yolo4.py 完成训练"]
                   ++ closing) w))
  /\ (forall (e : pyexn) (w1 : World),
        predict model_path image_path "predictions" (with_stdout (stdout w ++ opening) w)
        = (Raised e, w1) ->
        main w = (Raised e, w1))
  /\ (forall w1 : World,
        predict model_path image_path "predictions" (with_stdout (stdout w ++ opening) w)
        = (Returned tt, w1) ->
        main w = (Returned tt, with_stdout (stdout w1 ++ closing) w1)).
Proof.
  intros model_path image_path opening closing.
  assert (Hclose : forall w1 : World,
             (run print (nl +:+ "🎉 预测完成！") ;;
              run print (nl +:+ "💡 提示：") ;;
              run print "  - 修改 main() 函数中的图片路径来预测其他图片" ;;
              print "  - 取消注释可以启用批量预测或 ONNX 模型预测") w1
             = (Returned tt, with_stdout (stdout w1 ++ closing) w1)).
  { intros w1. run_steps. unfold print. rewrite ?with_stdout_twice, ?stdout_with_stdout.
    subst closing. repeat rewrite <- app_assoc. reflexivity. }
  split; [| split].
  - intros Hmodel. unfold main, predict_main. cbv zeta. run_steps.
    erewrite bind_returned;
      [| apply predict_model_missing; rewrite files_with_stdout; exact Hmodel].
    rewrite Hclose. rewrite ?with_stdout_twice, ?stdout_with_stdout.
    subst opening closing. repeat rewrite <- app_assoc. reflexivity.
  - intros e w1 Hpredict. unfold main, predict_main. cbv zeta. run_steps.
    repeat rewrite <- app_assoc. cbn [app]. now apply bind_raised.
  - intros w1 Hpredict. unfold main, predict_main. cbv zeta. run_steps.
    repeat rewrite <- app_assoc. cbn [app].
    rewrite (bind_returned _ _ _ _ _ Hpredict). apply Hclose.
Qed.

End BatchAndOnnx.


Lemma onnx_counts_first_result_witness :
  is_Some (files weights_world !! "best.pt")
  /\ fst (onnx_sample [] "best.pt" "test.jpg" weights_world) = Raised IndexError
  /\ onnx_sample [[sample_box]; []] "best.pt" "test.jpg" weights_world
     = (Returned tt,
        with_stdout ["🎯 使用 ONNX 模型: best.pt"; "📷 检测图片: test.jpg";
                     "✅ ONNX 模型预测完成！检测到 1 个方块"] weights_world).
Proof.
  split; [now eexists |]. split.
  - exact (f_equal fst
             (proj2 (onnx_counts_first_result unit (list Box) (fun _ => ret tt)
                       (fun _ _ => ret []) (fun boxes => boxes) "best.pt" "test.jpg"
                       weights_world)
                (ex_intro _ _ eq_refl) tt [] _ _ eq_refl eq_refl)).
  - exact (proj2 (onnx_counts_first_result unit (list Box) (fun _ => ret tt)
                    (fun _ _ => ret [[sample_box]; []]) (fun boxes => boxes) "best.pt"
                    "test.jpg" weights_world)
             (ex_intro _ _ eq_refl) tt [[sample_box]; []] _ _ eq_refl eq_refl).
Defined.

Lemma main_completes_without_model_witness :
  files weights_world !! "runs/train/square_detector/weights/best.pt" = None
  /\ exists lines : list string,
       main_sample (fun _ => ret tt) weights_world
       = (Returned tt, with_stdout lines weights_world)
       /\ length lines = 12%nat
       /\ nth_error lines 8 = Some (nl +:+ "🎉 预测完成！").
Proof.
  split; [reflexivity |].
  eexists. split; [| split].
  - exact (proj1 (main_completes_without_model unit (list Box) (fun _ => ret tt)
                    (fun _ _ _ => ret []) (fun _ _ => ret tt) (fun boxes => boxes)
                    (fun _ _ => "red_square") (fun path => path) weights_world) eq_refl).
  - reflexivity.
  - reflexivity.
Defined.

(* ===================================================================== *)
(** * Further properties: the dataset writer                              *)
(* ===================================================================== *)

(** ** File names *)

Lemma append_inj_l (a x y : string) : a +:+ x = a +:+ y -> x = y.
Proof.
  induction a as [| c a IH]; [now rewrite !append_nil_l |].
  rewrite !append_cons. intros H. injection H as H. now apply IH.
Qed.

Lemma append_inj_r (s x : string) : forall y : string, x +:+ s = y +:+ s -> x = y.
Proof.
  induction x as [| c x IH]; intros [| d y] H.
  - reflexivity.
  - apply (f_equal String.length) in H. rewrite append_nil_l, length_append in H.
    cbn [String.length] in H. lia.
  - apply (f_equal String.length) in H. rewrite append_nil_l, length_append in H.
    cbn [String.length] in H. lia.
  - rewrite !append_cons in H. injection H as -> H. f_equal. now apply IH.
Qed.

Lemma ends_with_append (suffix a : string) : ends_with suffix (a +:+ suffix) = true.
Proof.
  induction a as [| c a IH].
  - rewrite append_nil_l. destruct suffix; cbn [ends_with]; now rewrite String.eqb_refl.
  - rewrite append_cons. cbn [ends_with]. rewrite IH. apply orb_true_r.
Qed.

Lemma format_04d_inj (i j : Z) : 0 <= i -> 0 <= j -> format_04d i = format_04d j -> i = j.
Proof.
  intros Hi Hj H.
  assert (E : forall n, 0 <= n -> parse_uint (format_04d n) = Some n).
  { intros n Hn. unfold format_04d. rewrite (proj2 (Z.ltb_ge n 0) Hn).
    now apply parse_uint_zero_pad. }
  pose proof (E i Hi) as Ei. rewrite H, (E j Hj) in Ei. now injection Ei.
Qed.

Lemma str_int_inj (i j : Z) : str_int i = str_int j -> i = j.
Proof.
  intros H. pose proof (parse_int_str_int i) as Ei.
  rewrite H, parse_int_str_int in Ei. now injection Ei.
Qed.

Lemma split_image_path_inj (split : string) (i j : Z) :
  0 <= i -> 0 <= j -> split_image_path split i = split_image_path split j -> i = j.
Proof.
  intros Hi Hj H. unfold split_image_path, path_join in H.
  do 4 apply append_inj_l in H. apply append_inj_r in H. now apply format_04d_inj.
Qed.

Lemma split_label_path_inj (split : string) (i j : Z) :
  0 <= i -> 0 <= j -> split_label_path split i = split_label_path split j -> i = j.
Proof.
  intros Hi Hj H. unfold split_label_path, path_join in H.
  do 4 apply append_inj_l in H. apply append_inj_r in H. now apply format_04d_inj.
Qed.

Lemma test_image_path_inj (i j : Z) : test_image_path i = test_image_path j -> i = j.
Proof.
  intros H. unfold test_image_path, path_join in H.
  do 3 apply append_inj_l in H. apply append_inj_r in H. apply str_int_inj in H. lia.
Qed.

Lemma image_path_not_label_path (split split' : string) (i j : Z) :
  split_image_path split i <> split_label_path split' j.
Proof. unfold split_image_path, split_label_path, path_join. cbv [String.append]. discriminate. Qed.

Lemma train_image_not_val_image (i j : Z) :
  split_image_path "train" i <> split_image_path "val" j.
Proof. unfold split_image_path, path_join. cbv [String.append]. discriminate. Qed.

Lemma train_label_not_val_label (i j : Z) :
  split_label_path "train" i <> split_label_path "val" j.
Proof. unfold split_label_path, path_join. cbv [String.append]. discriminate. Qed.

Lemma test_path_not_image_path (split : string) (i j : Z) :
  test_image_path i <> split_image_path split j.
Proof. unfold test_image_path, split_image_path, path_join. cbv [String.append]. discriminate. Qed.

Lemma test_path_not_label_path (split : string) (i j : Z) :
  test_image_path i <> split_label_path split j.
Proof. unfold test_image_path, split_label_path, path_join. cbv [String.append]. discriminate. Qed.

Lemma split_image_path_name (split : string) (i : Z) : sample_name (split_image_path split i) = true.
Proof.
  unfold sample_name, split_image_path, path_join.
  rewrite <- !append_assoc. now rewrite ends_with_append.
Qed.

Lemma split_label_path_name (split : string) (i : Z) : sample_name (split_label_path split i) = true.
Proof.
  unfold sample_name, split_label_path, path_join.
  rewrite <- !append_assoc. rewrite (ends_with_append ".txt"). apply orb_true_r.
Qed.

Lemma test_image_path_name (i : Z) : sample_name (test_image_path i) = true.
Proof.
  unfold sample_name, test_image_path, path_join.
  rewrite <- !append_assoc. now rewrite ends_with_append.
Qed.

Lemma dataset_dirs_names (d : string) : In d (test_dir :: dataset_dirs) -> sample_name d = false.
Proof.
  intros H. cbn [In test_dir dataset_dirs] in H.
  repeat (destruct H as [<- | H]; [reflexivity |]). contradiction.
Qed.

(** ** One sample *)

Lemma generate_default_sample
    (outline : Z -> Z -> Z -> Z -> Z -> Z -> Z -> bool) (img_size : Z) (w : World) :
  200 <= img_size ->
  exists (image : Canvas) (labels : list Label),
    generate_red_square_image outline img_size None w
    = (Returned (image, labels), after_generate img_size None w)
    /\ well_formed_sample img_size image labels.
Proof.
  intros Hsize.
  destruct (generate_traced_returned outline img_size None w ltac:(lia)
              (fits_when_large img_size _ _ _ Hsize)) as (bg & Hbg & E).
  rewrite generate_unfold, E. eexists. eexists. split; [reflexivity |].
  split; [| split].
  - rewrite paint_all_side.
    destruct (background_returned img_size w ltac:(lia)) as (image & Himage & Hside & _).
    rewrite Hbg in Himage. now injection Himage as ->.
  - unfold planned_shapes. rewrite length_map, placements_from_length. unfold drawn_count.
    pose proof (randint_val_range 1 3 (peek (py_random w) 3) ltac:(lia) (peek_range _ _)).
    lia.
  - apply List.Forall_map, List.Forall_forall. intros p Hp.
    unfold planned_shapes, placements_from in Hp. apply in_map_iff in Hp as (i & <- & _).
    assert (Hfit : fits img_size (placement_at img_size (py_random w)
                                    (first_shape_draw None + 5 * i)) = true).
    { unfold fits. apply Z.leb_le.
      pose proof (placement_at_size img_size (py_random w) (first_shape_draw None + 5 * i)).
      lia. }
    destruct (fitting_shape_bounds img_size _ _ Hfit) as (Hs & Hx & Hy).
    destruct (annotation_in_unit_square img_size _ Hs Hx Hy) as (Hc & Hcx & Hcy & Hwh & Hw).
    split; [exact Hc |]. split; [exact Hcx |]. split; [exact Hcy |].
    split; [| now symmetry].
    split; [apply Hw |].
    apply Qle_trans with (200 / inject_Z img_size)%Q; [apply Hw |].
    apply Qle_shift_div_r; [apply inject_Z_pos; lia |].
    rewrite Qmult_1_l. change 200%Q with (inject_Z 200). rewrite <- Zle_Qle. lia.
Qed.

Lemma write_labels_run (label_path : string) (labels : list Label) (w : World) :
  files w !! label_path <> Some Directory ->
  write_labels label_path labels w
  = (Returned tt, with_files (<[label_path := RegularFile (label_text labels)]> (files w)) w).
Proof.
  intros H. unfold write_labels, write_label_file.
  destruct (files w !! label_path) as [[content |] |]; congruence.
Qed.

Lemma for_each_range_inv (body : Z -> Py unit) (P : nat -> World -> Prop) (n : nat) (w : World) :
  P 0%nat w ->
  (forall (i : nat) (w_i : World), (i < n)%nat -> P i w_i ->
     exists w' : World, body (Z.of_nat i) w_i = (Returned tt, w') /\ P (S i) w') ->
  exists w' : World, for_each (map Z.of_nat (seq 0 n)) body w = (Returned tt, w') /\ P n w'.
Proof.
  intros H0. induction n as [| n IH]; intros Hstep.
  - exists w. now split.
  - destruct IH as (w_n & E & Hn); [intros i w_i Hi; apply Hstep; lia |].
    destruct (Hstep n w_n ltac:(lia) Hn) as (w' & E' & H').
    exists w'. split; [| exact H'].
    rewrite seq_S, map_app, for_each_app. rewrite (bind_returned _ _ _ _ _ E).
    cbn [Nat.add map for_each]. now rewrite (bind_returned _ _ _ _ _ E').
Qed.

Lemma progress_lines_S (every count : Z) (n : nat) :
  progress_lines every count (S n)
  = progress_lines every count n
    ++ (if (Z.of_nat n + 1) mod every =? 0
        then ["  ✓ 已生成 " +:+ str_int (Z.of_nat n + 1) +:+ "/" +:+ str_int count +:+ " 张"]
        else []).
Proof.
  unfold progress_lines. rewrite seq_S, map_app, flat_map_app. cbn [Nat.add map flat_map].
  now rewrite app_nil_r.
Qed.

Section DatasetWriterSteps.

Variable outline : Z -> Z -> Z -> Z -> Z -> Z -> Z -> bool.
Variable jpeg_encode : Canvas -> string.
Variable imwrite_blocked : string -> Canvas -> Py unit.

Lemma imwrite_jpg_run (path : string) (image : Canvas) (w : World) :
  files w !! path <> Some Directory ->
  imwrite_jpg jpeg_encode imwrite_blocked path image w
  = (Returned tt, with_files (<[path := RegularFile (jpeg_encode image)]> (files w)) w).
Proof.
  intros H. unfold imwrite_jpg, cv2_imwrite.
  destruct (files w !! path) as [[content |] |]; congruence.
Qed.

Lemma save_sample_run (split : string) (every count img_size i : Z) (w : World) :
  200 <= img_size ->
  files w !! split_image_path split i <> Some Directory ->
  files w !! split_label_path split i <> Some Directory ->
  exists (image : Canvas) (labels : list Label) (w' : World),
    save_sample outline jpeg_encode imwrite_blocked split every count img_size i w
    = (Returned tt, w')
    /\ well_formed_sample img_size image labels
    /\ files w' = <[split_label_path split i := RegularFile (label_text labels)]>
                    (<[split_image_path split i := RegularFile (jpeg_encode image)]> (files w))
    /\ stdout w' = stdout w
                   ++ (if (i + 1) mod every =? 0
                       then ["  ✓ 已生成 " +:+ str_int (i + 1) +:+ "/" +:+ str_int count +:+ " 张"]
                       else []).
Proof.
  intros Hsize Himg Hlab.
  destruct (generate_default_sample outline img_size w Hsize) as (image & labels & E & Hwf).
  exists image, labels. unfold save_sample.
  rewrite (bind_returned _ _ _ _ _ E). cbv beta iota zeta.
  rewrite (bind_returned _ _ _ _ _
             (imwrite_jpg_run _ _ (after_generate img_size None w) Himg)).
  match goal with
  | |- context [bind (write_labels ?path _) _ ?w1] =>
      assert (Hlab' : files w1 !! path <> Some Directory)
  end.
  { cbn [files with_files]. rewrite lookup_insert_ne; [exact Hlab |].
    apply image_path_not_label_path. }
  rewrite (bind_returned _ _ _ _ _ (write_labels_run _ labels _ Hlab')).
  destruct ((i + 1) mod every =? 0); eexists; (split; [reflexivity |]);
    (split; [exact Hwf |]); split; try reflexivity.
  now rewrite app_nil_r.
Qed.

Lemma save_test_image_run (img_size i : Z) (w : World) :
  200 <= img_size ->
  files w !! test_image_path i <> Some Directory ->
  exists (image : Canvas) (w' : World),
    save_test_image outline jpeg_encode imwrite_blocked img_size i w = (Returned tt, w')
    /\ side image = img_size
    /\ files w' = <[test_image_path i := RegularFile (jpeg_encode image)]> (files w)
    /\ stdout w' = stdout w.
Proof.
  intros Hsize Himg.
  destruct (generate_default_sample outline img_size w Hsize) as (image & labels & E & Hwf).
  exists image. unfold save_test_image.
  rewrite (bind_returned _ _ _ _ _ E). cbv beta iota zeta.
  rewrite (imwrite_jpg_run _ _ (after_generate img_size None w) Himg).
  eexists. split; [reflexivity |]. split; [apply Hwf |]. now split.
Qed.

(** The loop of a split, from a filesystem in which no directory has
    the name of a sample. *)
Lemma save_samples_run (split : string) (every count img_size : Z) (n : nat) (w : World) :
  200 <= img_size ->
  no_directory_named_as_sample (files w) ->
  exists w' : World,
    for_each (map Z.of_nat (seq 0 n))
      (save_sample outline jpeg_encode imwrite_blocked split every count img_size) w
    = (Returned tt, w')
    /\ stdout w' = stdout w ++ progress_lines every count n
    /\ (forall i : nat, (i < n)%nat ->
          sample_saved jpeg_encode img_size split (files w') (Z.of_nat i))
    /\ (forall path,
          (forall i : nat, (i < n)%nat ->
             path <> split_image_path split (Z.of_nat i)
             /\ path <> split_label_path split (Z.of_nat i)) ->
          files w' !! path = files w !! path)
    /\ (forall path, files w' !! path = Some Directory -> files w !! path = Some Directory).
Proof.
  intros Hsize Hnodir.
  apply (for_each_range_inv _
           (fun k w_k =>
              stdout w_k = stdout w ++ progress_lines every count k
              /\ (forall i : nat, (i < k)%nat ->
                    sample_saved jpeg_encode img_size split (files w_k) (Z.of_nat i))
              /\ (forall path,
                    (forall i : nat, (i < k)%nat ->
                       path <> split_image_path split (Z.of_nat i)
                       /\ path <> split_label_path split (Z.of_nat i)) ->
                    files w_k !! path = files w !! path)
              /\ (forall path, files w_k !! path = Some Directory ->
                    files w !! path = Some Directory))).
  - split; [unfold progress_lines; cbn; now rewrite app_nil_r |].
    split; [intros i Hi; lia |]. split; [reflexivity | tauto].
  - intros k w_k Hk (Hout & Hsaved & Hframe & Hmono).
    assert (Himg : files w_k !! split_image_path split (Z.of_nat k) <> Some Directory).
    { rewrite Hframe.
      - intros Hdir. apply Hnodir in Hdir. now rewrite split_image_path_name in Hdir.
      - intros i Hi. split.
        + intros H. apply split_image_path_inj in H; lia.
        + apply image_path_not_label_path. }
    assert (Hlab : files w_k !! split_label_path split (Z.of_nat k) <> Some Directory).
    { rewrite Hframe.
      - intros Hdir. apply Hnodir in Hdir. now rewrite split_label_path_name in Hdir.
      - intros i Hi. split.
        + intros H. symmetry in H. now apply image_path_not_label_path in H.
        + intros H. apply split_label_path_inj in H; lia. }
    destruct (save_sample_run split every count img_size (Z.of_nat k) w_k Hsize Himg Hlab)
      as (image & labels & w' & E & Hwf & Hfiles & Hstdout).
    exists w'. split; [exact E |]. split; [| split; [| split]].
    4:{ intros path Hdir. apply Hmono. rewrite Hfiles in Hdir.
        destruct (String.eqb_spec path (split_label_path split (Z.of_nat k))) as [-> | Hne1];
          [rewrite lookup_insert_eq in Hdir; discriminate |].
        rewrite lookup_insert_ne in Hdir by congruence.
        destruct (String.eqb_spec path (split_image_path split (Z.of_nat k))) as [-> | Hne2];
          [rewrite lookup_insert_eq in Hdir; discriminate |].
        now rewrite lookup_insert_ne in Hdir by congruence. }
    + rewrite Hstdout, Hout, progress_lines_S. now rewrite app_assoc.
    + intros i Hi. destruct (Nat.eq_dec i k) as [-> | Hne].
      * exists image, labels. split; [exact Hwf |]. rewrite Hfiles. split.
        -- rewrite lookup_insert_ne by (intros H; symmetry in H;
                                        now apply image_path_not_label_path in H).
           apply lookup_insert_eq.
        -- apply lookup_insert_eq.
      * destruct (Hsaved i ltac:(lia)) as (image' & labels' & Hwf' & Hi1 & Hi2).
        exists image', labels'. split; [exact Hwf' |]. rewrite Hfiles. split.
        -- rewrite !lookup_insert_ne; [exact Hi1 | |].
           ++ intros H. apply split_image_path_inj in H; lia.
           ++ intros H. symmetry in H. now apply image_path_not_label_path in H.
        -- rewrite !lookup_insert_ne; [exact Hi2 | |].
           ++ apply image_path_not_label_path.
           ++ intros H. apply split_label_path_inj in H; lia.
    + intros path Hpath. rewrite Hfiles.
      destruct (Hpath k ltac:(lia)) as (Hp1 & Hp2).
      rewrite !lookup_insert_ne by congruence.
      apply Hframe. intros i Hi. apply Hpath. lia.
Qed.

Lemma save_test_images_run (img_size : Z) (n : nat) (w : World) :
  200 <= img_size ->
  no_directory_named_as_sample (files w) ->
  exists w' : World,
    for_each (map Z.of_nat (seq 0 n))
      (save_test_image outline jpeg_encode imwrite_blocked img_size) w
    = (Returned tt, w')
    /\ stdout w' = stdout w
    /\ (forall i : nat, (i < n)%nat -> test_saved jpeg_encode img_size (files w') (Z.of_nat i))
    /\ (forall path,
          (forall i : nat, (i < n)%nat -> path <> test_image_path (Z.of_nat i)) ->
          files w' !! path = files w !! path)
    /\ (forall path, files w' !! path = Some Directory -> files w !! path = Some Directory).
Proof.
  intros Hsize Hnodir.
  apply (for_each_range_inv _
           (fun k w_k =>
              stdout w_k = stdout w
              /\ (forall i : nat, (i < k)%nat ->
                    test_saved jpeg_encode img_size (files w_k) (Z.of_nat i))
              /\ (forall path,
                    (forall i : nat, (i < k)%nat -> path <> test_image_path (Z.of_nat i)) ->
                    files w_k !! path = files w !! path)
              /\ (forall path, files w_k !! path = Some Directory ->
                    files w !! path = Some Directory))).
  - split; [reflexivity |]. split; [intros i Hi; lia |]. split; [reflexivity | tauto].
  - intros k w_k Hk (Hout & Hsaved & Hframe & Hmono).
    assert (Himg : files w_k !! test_image_path (Z.of_nat k) <> Some Directory).
    { rewrite Hframe.
      - intros Hdir. apply Hnodir in Hdir. now rewrite test_image_path_name in Hdir.
      - intros i Hi H. apply test_image_path_inj in H. lia. }
    destruct (save_test_image_run img_size (Z.of_nat k) w_k Hsize Himg)
      as (image & w' & E & Hside & Hfiles & Hstdout).
    exists w'. split; [exact E |]. split; [congruence |]. split; [| split].
    3:{ intros path Hdir. apply Hmono. rewrite Hfiles in Hdir.
        destruct (String.eqb_spec path (test_image_path (Z.of_nat k))) as [-> | Hne1];
          [rewrite lookup_insert_eq in Hdir; discriminate |].
        now rewrite lookup_insert_ne in Hdir by congruence. }
    + intros i Hi. destruct (Nat.eq_dec i k) as [-> | Hne].
      * exists image. split; [exact Hside |]. rewrite Hfiles. apply lookup_insert_eq.
      * destruct (Hsaved i ltac:(lia)) as (image' & Hside' & Hi1).
        exists image'. split; [exact Hside' |]. rewrite Hfiles.
        rewrite lookup_insert_ne; [exact Hi1 |].
        intros H. apply test_image_path_inj in H. lia.
    + intros path Hpath. rewrite Hfiles.
      rewrite lookup_insert_ne by (pose proof (Hpath k ltac:(lia)); congruence).
      apply Hframe. intros i Hi. apply Hpath. lia.
Qed.

End DatasetWriterSteps.

(** ** The directories *)

Lemma makedirs_unfold (path : string) (below : list string) (w : World) :
  (forall content, files w !! path <> Some (RegularFile content)) ->
  exists w1 : World,
    makedirs path below w
    = match below with
      | [] => (Returned tt, w1)
      | name :: rest => makedirs (path_join path name) rest w1
      end
    /\ stdout w1 = stdout w /\ py_random w1 = py_random w /\ np_random w1 = np_random w
    /\ files w1 !! path = Some Directory
    /\ forall p, p <> path -> files w1 !! p = files w !! p.
Proof.
  intros Hfile. destruct (files w !! path) as [[content |] |] eqn:E.
  - now destruct (Hfile content).
  - exists w. destruct below; cbn [makedirs]; rewrite E; now repeat split.
  - exists (with_files (<[path := Directory]> (files w)) w).
    destruct below; cbn [makedirs]; rewrite E;
      (split; [reflexivity |]); (split; [reflexivity |]); (split; [reflexivity |]);
      (split; [reflexivity |]); cbn [files with_files];
      (split; [apply lookup_insert_eq | intros p Hp; now apply lookup_insert_ne]).
Qed.

(** [mkdir(parents=True, exist_ok=True)] with no regular file in the way
    returns; afterwards the path and its ancestors are directories, and
    nothing else has changed. *)
Lemma makedirs_run (below : list string) :
  forall (path : string) (w : World),
    (forall d content, In d (ancestors path below) -> files w !! d <> Some (RegularFile content)) ->
    exists w' : World,
      makedirs path below w = (Returned tt, w')
      /\ stdout w' = stdout w /\ py_random w' = py_random w /\ np_random w' = np_random w
      /\ (forall d, In d (ancestors path below) -> files w' !! d = Some Directory)
      /\ (forall p, files w !! p = Some Directory -> files w' !! p = Some Directory)
      /\ (forall p, ~ In p (ancestors path below) -> files w' !! p = files w !! p).
Proof.
  induction below as [| name rest IH]; intros path w Hfile.
  - destruct (makedirs_unfold path [] w) as (w1 & E & Hout & Hpy & Hnp & Hdir & Hframe).
    { intros content. apply Hfile. now left. }
    exists w1. split; [exact E |]. split; [exact Hout |]. split; [exact Hpy |].
    split; [exact Hnp |]. split; [| split].
    + intros d [<- | []]. exact Hdir.
    + intros p Hp. destruct (String.eqb_spec p path) as [-> | Hne]; [exact Hdir |].
      now rewrite Hframe.
    + intros p Hp. apply Hframe. intros ->. apply Hp. now left.
  - destruct (makedirs_unfold path (name :: rest) w) as (w1 & E & Hout & Hpy & Hnp & Hdir & Hframe).
    { intros content. apply Hfile. now left. }
    destruct (IH (path_join path name) w1)
      as (w' & E' & Hout' & Hpy' & Hnp' & Hdirs' & Hmono' & Hframe').
    { intros d content Hd. destruct (String.eqb_spec d path) as [-> | Hne].
      - now rewrite Hdir.
      - rewrite Hframe by exact Hne. apply Hfile. now right. }
    exists w'. split; [now rewrite E |]. split; [congruence |]. split; [congruence |].
    split; [congruence |]. split; [| split].
    + intros d [<- | Hd]; [now apply Hmono' | now apply Hdirs'].
    + intros p Hp. apply Hmono'. destruct (String.eqb_spec p path) as [-> | Hne]; [exact Hdir |].
      now rewrite Hframe.
    + intros p Hp. cbn [ancestors In] in Hp. rewrite Hframe' by tauto.
      apply Hframe. intros ->. tauto.
Qed.

(** Lines 91-94: the four calls. *)
Lemma make_dataset_dirs_run (w : World) :
  (forall d content, In d dataset_dirs -> files w !! d <> Some (RegularFile content)) ->
  exists w' : World,
    for_each ["train"; "val"]
      (fun split => run makedirs "dataset" ["images"; split] ;;
                    makedirs "dataset" ["labels"; split]) w
    = (Returned tt, w')
    /\ stdout w' = stdout w /\ py_random w' = py_random w /\ np_random w' = np_random w
    /\ (forall d, In d dataset_dirs -> files w' !! d = Some Directory)
    /\ (forall p, files w !! p = Some Directory -> files w' !! p = Some Directory)
    /\ (forall p, ~ In p dataset_dirs -> files w' !! p = files w !! p).
Proof.
  intros Hfile.
  assert (Hstep : forall (kind split : string) (w0 : World),
             incl (ancestors "dataset" [kind; split]) dataset_dirs ->
             (forall d content, In d dataset_dirs -> files w0 !! d <> Some (RegularFile content)) ->
             exists w1 : World,
               makedirs "dataset" [kind; split] w0 = (Returned tt, w1)
               /\ stdout w1 = stdout w0 /\ py_random w1 = py_random w0
               /\ np_random w1 = np_random w0
               /\ (forall d content, In d dataset_dirs ->
                     files w1 !! d <> Some (RegularFile content))
               /\ (forall d, In d (ancestors "dataset" [kind; split]) ->
                     files w1 !! d = Some Directory)
               /\ (forall p, files w0 !! p = Some Directory -> files w1 !! p = Some Directory)
               /\ (forall p, ~ In p dataset_dirs -> files w1 !! p = files w0 !! p)).
  { intros kind split w0 Hincl Hfile0.
    destruct (makedirs_run [kind; split] "dataset" w0)
      as (w1 & E & Hout & Hpy & Hnp & Hdirs & Hmono & Hframe).
    { intros d content Hd. apply Hfile0. now apply Hincl. }
    exists w1. split; [exact E |]. split; [exact Hout |]. split; [exact Hpy |].
    split; [exact Hnp |]. split; [| split; [exact Hdirs | split; [exact Hmono |]]].
    - intros d content Hd.
      destruct (in_dec String.string_dec d (ancestors "dataset" [kind; split])) as [Hin | Hout'].
      + now rewrite (Hdirs d Hin).
      + rewrite (Hframe d Hout'). now apply Hfile0.
    - intros p Hp. apply Hframe. intros Hin. apply Hp. now apply Hincl. }
  assert (Hincl : forall kind split,
             In (kind, split) [("images", "train"); ("labels", "train");
                               ("images", "val"); ("labels", "val")] ->
             incl (ancestors "dataset" [kind; split]) dataset_dirs).
  { intros kind split Hin d Hd. cbn [In] in Hin.
    repeat (destruct Hin as [Hin | Hin]; [injection Hin as <- <-; cbn in Hd |- *; tauto |]).
    contradiction. }
  destruct (Hstep "images" "train" w) as (w1 & E1 & Ho1 & Hp1 & Hn1 & Hf1 & Hd1 & Hm1 & Hr1);
    [apply Hincl; cbn; tauto | exact Hfile |].
  destruct (Hstep "labels" "train" w1) as (w2 & E2 & Ho2 & Hp2 & Hn2 & Hf2 & Hd2 & Hm2 & Hr2);
    [apply Hincl; cbn; tauto | exact Hf1 |].
  destruct (Hstep "images" "val" w2) as (w3 & E3 & Ho3 & Hp3 & Hn3 & Hf3 & Hd3 & Hm3 & Hr3);
    [apply Hincl; cbn; tauto | exact Hf2 |].
  destruct (Hstep "labels" "val" w3) as (w4 & E4 & Ho4 & Hp4 & Hn4 & Hf4 & Hd4 & Hm4 & Hr4);
    [apply Hincl; cbn; tauto | exact Hf3 |].
  exists w4. split; [| split; [congruence | split; [congruence | split; [congruence |]]]].
  - cbn [for_each]. rewrite bind_assoc, (bind_returned _ _ _ _ _ E1).
    rewrite (bind_returned _ _ _ _ _ E2).
    rewrite bind_assoc, (bind_returned _ _ _ _ _ E3).
    rewrite (bind_returned _ _ _ _ _ E4). reflexivity.
  - split; [| split].
    + intros d Hd. cbn [dataset_dirs In] in Hd.
      destruct Hd as [<- | [<- | [<- | [<- | [<- | [<- | [<- | []]]]]]]].
      * apply Hm4, Hm3, Hm2, Hd1. cbn. tauto.
      * apply Hm4, Hm3, Hm2, Hd1. cbn. tauto.
      * apply Hm4, Hm3, Hm2, Hd1. cbn. tauto.
      * apply Hm4, Hm3, Hd2. cbn. tauto.
      * apply Hm4, Hm3, Hd2. cbn. tauto.
      * apply Hm4, Hd3. cbn. tauto.
      * apply Hd4. cbn. tauto.
    + intros p Hp. now apply Hm4, Hm3, Hm2, Hm1.
    + intros p Hp. now rewrite Hr4, Hr3, Hr2, Hr1.
Qed.

(** ** The whole run *)

Lemma mkdir_exist_ok_run (path : string) (w : World) :
  (forall content, files w !! path <> Some (RegularFile content)) ->
  exists w' : World,
    mkdir_exist_ok path w = (Returned tt, w')
    /\ stdout w' = stdout w
    /\ files w' !! path = Some Directory
    /\ (forall p, p <> path -> files w' !! p = files w !! p).
Proof.
  intros Hfile. unfold mkdir_exist_ok. destruct (files w !! path) as [[content |] |] eqn:E.
  - now destruct (Hfile content).
  - exists w. now repeat split.
  - eexists. split; [reflexivity |]. split; [reflexivity |]. cbn [files with_files].
    split; [apply lookup_insert_eq | intros p Hp; now apply lookup_insert_ne].
Qed.

Lemma not_sample_named (path : string) :
  sample_name path = false ->
  (forall split i, path <> split_image_path split i /\ path <> split_label_path split i)
  /\ (forall i, path <> test_image_path i).
Proof.
  intros Hname. split.
  - intros s i. split; intros ->.
    + now rewrite split_image_path_name in Hname.
    + now rewrite split_label_path_name in Hname.
  - intros i ->. now rewrite test_image_path_name in Hname.
Qed.

Lemma in_range (n : Z) (k : nat) : (k < Z.to_nat n)%nat -> In (Z.of_nat k) (range n).
Proof. intros Hk. unfold range. apply in_map, in_seq. lia. Qed.

Lemma range_index (n i : Z) : 0 <= i < n -> exists k : nat, (k < Z.to_nat n)%nat /\ Z.of_nat k = i.
Proof. intros Hi. exists (Z.to_nat i). lia. Qed.

Lemma test_dir_outside_dataset : ~ In test_dir dataset_dirs.
Proof. cbn [In dataset_dirs test_dir]. intuition discriminate. Qed.

Lemma progress_lines_length (every count : Z) (n : nat) :
  0 < every ->
  Z.of_nat (length (progress_lines every count n)) = Z.of_nat n / every.
Proof.
  intros Hevery. induction n as [| n IH].
  - cbn. now rewrite Z.div_0_l by lia.
  - rewrite progress_lines_S, List.length_app, Nat2Z.inj_add, IH.
    replace (Z.of_nat (S n)) with (Z.of_nat n + 1) by lia.
    pose proof (Z.div_mod (Z.of_nat n) every ltac:(lia)) as Hn.
    pose proof (Z.mod_pos_bound (Z.of_nat n) every Hevery) as Hr.
    pose proof (Z.div_mod (Z.of_nat n + 1) every ltac:(lia)) as Hn1.
    pose proof (Z.mod_pos_bound (Z.of_nat n + 1) every Hevery) as Hr1.
    destruct (Z.eqb_spec ((Z.of_nat n + 1) mod every) 0) as [Hz | Hnz]; cbn [length]; nia.
Qed.

Section DatasetWriterResults.

Variable outline : Z -> Z -> Z -> Z -> Z -> Z -> Z -> bool.
Variable jpeg_encode : Canvas -> string.
Variable imwrite_blocked : string -> Canvas -> Py unit.
Variable path_absolute : string -> string.

Let save := save_dataset outline jpeg_encode imwrite_blocked path_absolute.

Lemma save_dataset_run (num_train num_val img_size : Z) (w : World) :
  200 <= img_size ->
  (forall d content, In d (test_dir :: dataset_dirs) ->
     files w !! d <> Some (RegularFile content)) ->
  no_directory_named_as_sample (files w) ->
  exists w' : World,
    save num_train num_val img_size w = (Returned tt, w')
    /\ (forall d, In d (test_dir :: dataset_dirs) -> files w' !! d = Some Directory)
    /\ (forall i, 0 <= i < num_train -> sample_saved jpeg_encode img_size "train" (files w') i)
    /\ (forall i, 0 <= i < num_val -> sample_saved jpeg_encode img_size "val" (files w') i)
    /\ (forall i, 0 <= i < 5 -> test_saved jpeg_encode img_size (files w') i)
    /\ (forall p, ~ In p (written_paths num_train num_val) -> files w' !! p = files w !! p)
    /\ exists opening middle closing : list string,
         stdout w' = stdout w ++ opening
                     ++ progress_lines 50 num_train (Z.to_nat num_train) ++ middle
                     ++ progress_lines 20 num_val (Z.to_nat num_val) ++ closing
         /\ length opening = 3%nat /\ length middle = 2%nat /\ length closing = 14%nat
         /\ Z.of_nat (length (progress_lines 50 num_train (Z.to_nat num_train)))
            = Z.max 0 num_train / 50
         /\ Z.of_nat (length (progress_lines 20 num_val (Z.to_nat num_val)))
            = Z.max 0 num_val / 20.
Proof.
  intros Hsize Hnofile Hnodir. unfold save, save_dataset, range. cbv zeta.
  do 2 rewrite print_run.
  (* the directories *)
  match goal with
  | |- context [bind (for_each ["train"; "val"] _) _ ?w0] =>
      destruct (make_dataset_dirs_run w0) as (w1 & E1 & Ho1 & _ & _ & Hd1 & Hm1 & Hr1);
        [intros d content Hd; apply Hnofile; now right
        | rewrite (bind_returned _ _ _ _ _ E1)]
  end.
  cbn [files with_stdout] in Hm1, Hr1.
  assert (Hnodir1 : no_directory_named_as_sample (files w1)).
  { intros p Hp. destruct (in_dec String.string_dec p dataset_dirs) as [Hin | Hout].
    - apply dataset_dirs_names. now right.
    - rewrite Hr1 in Hp by exact Hout. now apply Hnodir. }
  rewrite print_run.
  (* the training split *)
  match goal with
  | |- context [bind (for_each _ (save_sample _ _ _ "train" _ _ _)) _ ?w1'] =>
      destruct (save_samples_run outline jpeg_encode imwrite_blocked "train" 50 num_train
                  img_size (Z.to_nat num_train) w1' Hsize Hnodir1)
        as (w2 & E2 & Ho2 & Hs2 & Hr2 & Hm2);
        rewrite (bind_returned _ _ _ _ _ E2)
  end.
  cbn [files with_stdout] in Hr2, Hm2.
  assert (Hnodir2 : no_directory_named_as_sample (files w2)).
  { intros p Hp. apply Hnodir1. now apply Hm2. }
  do 2 rewrite print_run.
  (* the validation split *)
  match goal with
  | |- context [bind (for_each _ (save_sample _ _ _ "val" _ _ _)) _ ?w2'] =>
      destruct (save_samples_run outline jpeg_encode imwrite_blocked "val" 20 num_val
                  img_size (Z.to_nat num_val) w2' Hsize Hnodir2)
        as (w3 & E3 & Ho3 & Hs3 & Hr3 & Hm3);
        rewrite (bind_returned _ _ _ _ _ E3)
  end.
  cbn [files with_stdout] in Hr3, Hm3.
  assert (Hnodir3 : no_directory_named_as_sample (files w3)).
  { intros p Hp. apply Hnodir2. now apply Hm3. }
  do 2 rewrite print_run.
  (* the test pictures *)
  assert (Htest_names : sample_name test_dir = false) by reflexivity.
  destruct (not_sample_named test_dir Htest_names) as (Htest_split & Htest_test).
  match goal with
  | |- context [bind (mkdir_exist_ok "test_images") _ ?w3'] =>
      destruct (mkdir_exist_ok_run test_dir w3') as (w4 & E4 & Ho4 & Hd4 & Hr4)
  end.
  { intros content. cbn [files with_stdout].
    rewrite Hr3 by (intros i _; apply Htest_split).
    rewrite Hr2 by (intros i _; apply Htest_split).
    rewrite Hr1 by apply test_dir_outside_dataset.
    apply Hnofile. now left. }
  change "test_images" with test_dir. rewrite (bind_returned _ _ _ _ _ E4).
  cbn [files with_stdout] in Hr4.
  assert (Hnodir4 : no_directory_named_as_sample (files w4)).
  { intros p Hp. destruct (String.eqb_spec p test_dir) as [-> | Hne]; [reflexivity |].
    rewrite Hr4 in Hp by exact Hne. now apply Hnodir3. }
  match goal with
  | |- context [bind (for_each _ (save_test_image _ _ _ _)) _ ?w4'] =>
      destruct (save_test_images_run outline jpeg_encode imwrite_blocked img_size
                  (Z.to_nat 5) w4' Hsize Hnodir4)
        as (w5 & E5 & Ho5 & Hs5 & Hr5 & Hm5);
        rewrite (bind_returned _ _ _ _ _ E5)
  end.
  (* the closing lines *)
  run_steps. unfold print. eexists. split; [reflexivity |].
  cbn [files with_stdout stdout].
  (* lookups in the final filesystem, from those after each phase *)
  assert (Hkeep_named : forall p, sample_name p = false -> p <> test_dir ->
            files w5 !! p = files w1 !! p).
  { intros p Hname Hne. destruct (not_sample_named p Hname) as (Hsplit & Htest).
    rewrite Hr5 by (intros i _; apply Htest). rewrite Hr4 by exact Hne.
    rewrite Hr3 by (intros i _; apply Hsplit). now rewrite Hr2 by (intros i _; apply Hsplit). }
  split; [| split; [| split; [| split; [| split]]]].
  - intros d [<- | Hd].
    + rewrite Hr5 by (intros i _; apply Htest_test). exact Hd4.
    + rewrite Hkeep_named.
      * now apply Hd1.
      * apply dataset_dirs_names. now right.
      * intros ->. now apply test_dir_outside_dataset.
  - intros i Hi. destruct (range_index num_train i Hi) as (k & Hk & <-).
    destruct (Hs2 k Hk) as (image & labels & Hwf & Himg & Hlab).
    exists image, labels. split; [exact Hwf |]. split.
    + rewrite Hr5 by (intros j _ H; symmetry in H; now apply test_path_not_image_path in H).
      rewrite Hr4 by (intros H; symmetry in H; now apply Htest_split in H).
      rewrite Hr3; [exact Himg |].
      intros j _. split; [apply train_image_not_val_image | apply image_path_not_label_path].
    + rewrite Hr5 by (intros j _ H; symmetry in H; now apply test_path_not_label_path in H).
      rewrite Hr4 by (intros H; symmetry in H; now apply Htest_split in H).
      rewrite Hr3; [exact Hlab |].
      intros j _. split; [| apply train_label_not_val_label].
      intros H. symmetry in H. now apply image_path_not_label_path in H.
  - intros i Hi. destruct (range_index num_val i Hi) as (k & Hk & <-).
    destruct (Hs3 k Hk) as (image & labels & Hwf & Himg & Hlab).
    exists image, labels. split; [exact Hwf |]. split.
    + rewrite Hr5 by (intros j _ H; symmetry in H; now apply test_path_not_image_path in H).
      rewrite Hr4 by (intros H; symmetry in H; now apply Htest_split in H).
      exact Himg.
    + rewrite Hr5 by (intros j _ H; symmetry in H; now apply test_path_not_label_path in H).
      rewrite Hr4 by (intros H; symmetry in H; now apply Htest_split in H).
      exact Hlab.
  - intros i Hi. destruct (range_index 5 i Hi) as (k & Hk & <-). now apply Hs5.
  - intros p Hp. unfold written_paths in Hp. cbn [In] in Hp.
    rewrite !List.in_app_iff, !in_flat_map, in_map_iff in Hp.
    rewrite Hr5.
    2:{ intros k Hk ->. apply Hp. do 4 right. eexists. split; [reflexivity |].
        now apply in_range. }
    rewrite Hr4 by (intros ->; tauto).
    rewrite Hr3.
    2:{ intros k Hk. split; intros ->; apply Hp; do 3 right; left;
          exists (Z.of_nat k); (split; [now apply in_range | cbn [In]; tauto]). }
    rewrite Hr2.
    2:{ intros k Hk. split; intros ->; apply Hp; do 2 right; left;
          exists (Z.of_nat k); (split; [now apply in_range | cbn [In]; tauto]). }
    apply Hr1. tauto.
  - rewrite Ho5. cbn [stdout with_stdout]. rewrite Ho4. cbn [stdout with_stdout].
    rewrite Ho3. cbn [stdout with_stdout]. rewrite Ho2. cbn [stdout with_stdout].
    rewrite Ho1. cbn [stdout with_stdout].
    repeat rewrite <- app_assoc. cbn [app].
    match goal with
    | |- exists _ _ _, stdout w ++ ?a :: ?b :: ?c :: _ ++ ?d :: ?e :: _ ++ ?closing = _ /\ _ =>
        exists [a; b; c], [d; e], closing
    end.
    split; [reflexivity |]. split; [reflexivity |]. split; [reflexivity |].
    split; [reflexivity |].
    rewrite !progress_lines_length by lia. rewrite !ZifyInst.of_nat_to_nat_eq. now split.
Qed.


End DatasetWriterResults.

Lemma busy_world_has_no_file (d content : string) :
  files busy_world !! d <> Some (RegularFile content).
Proof.
  cbn [busy_world world_of files].
  destruct (String.eqb_spec d "dataset") as [-> | Hne].
  - rewrite lookup_insert_eq. discriminate.
  - rewrite lookup_insert_ne by congruence. rewrite lookup_empty. discriminate.
Defined.

Lemma busy_world_directories : no_directory_named_as_sample (files busy_world).
Proof.
  intros path. cbn [busy_world world_of files].
  destruct (String.eqb_spec path "dataset") as [-> | Hne].
  - reflexivity.
  - rewrite lookup_insert_ne by congruence. rewrite lookup_empty. discriminate.
Defined.


(** ** Runs that stop early *)

Lemma only_adds_directories_refl (w : World) : only_adds_directories w w.
Proof. repeat split. intros p. now left. Qed.

Lemma only_adds_directories_trans (w1 w2 w3 : World) :
  only_adds_directories w1 w2 -> only_adds_directories w2 w3 -> only_adds_directories w1 w3.
Proof.
  intros (Ho & Hp & Hn & Hf) (Ho' & Hp' & Hn' & Hf').
  split; [congruence |]. split; [congruence |]. split; [congruence |].
  intros p. destruct (Hf p) as [E | (E1 & E2)], (Hf' p) as [E' | (E1' & E2')].
  - left. congruence.
  - right. split; congruence.
  - right. split; congruence.
  - congruence.
Qed.

Lemma directory_stays (w w' : World) (d : string) :
  only_adds_directories w w' -> files w !! d = Some Directory -> files w' !! d = Some Directory.
Proof. intros (_ & _ & _ & Hf) Hd. destruct (Hf d) as [E | (E1 & E2)]; congruence. Qed.

Lemma file_stays (w w' : World) (p content : string) :
  only_adds_directories w w' ->
  files w' !! p = Some (RegularFile content) <-> files w !! p = Some (RegularFile content).
Proof. intros (_ & _ & _ & Hf). destruct (Hf p) as [E | (E1 & E2)]; split; congruence. Qed.

Lemma mkdir_like_ret : mkdir_like [] (ret tt).
Proof.
  intros w. exists (Returned tt), w. split; [reflexivity |].
  split; [apply only_adds_directories_refl | intros d []].
Qed.

Lemma mkdir_like_bind (dirs1 dirs2 : list string) (m1 m2 : Py unit) :
  mkdir_like dirs1 m1 -> mkdir_like dirs2 m2 ->
  mkdir_like (dirs1 ++ dirs2) (run m1 ;; m2).
Proof.
  intros H1 H2 w. destruct (H1 w) as (o1 & w1 & E1 & G1 & R1).
  destruct o1 as [[] | e].
  - destruct (H2 w1) as (o2 & w2 & E2 & G2 & R2).
    exists o2, w2. split; [now rewrite (bind_returned _ _ _ _ _ E1) |].
    split; [now apply only_adds_directories_trans with w1 |].
    destruct o2 as [[] | e]; [| exact R2].
    intros d Hd. apply in_app_or in Hd as [Hd | Hd]; [| now apply R2].
    apply (directory_stays w1); [exact G2 | now apply R1].
  - exists (Raised e), w1. split; [now apply bind_raised |]. now split.
Qed.

Lemma mkdir_like_makedirs (below : list string) :
  forall path : string, mkdir_like (ancestors path below) (makedirs path below).
Proof.
  induction below as [| name rest IH]; intros path w.
  - cbn [makedirs ancestors]. destruct (files w !! path) as [[content |] |] eqn:E.
    + exists (Raised FileExistsError), w.
      split; [reflexivity |]. split; [apply only_adds_directories_refl | now left].
    + exists (Returned tt), w. split; [reflexivity |].
      split; [apply only_adds_directories_refl |]. now intros d [<- | []].
    + eexists (Returned tt), _. split; [reflexivity |]. split.
      * repeat split. intros p. cbn [files with_files].
        destruct (String.eqb_spec p path) as [-> | Hne].
        -- right. now rewrite lookup_insert_eq.
        -- left. now apply lookup_insert_ne.
      * intros d [<- | []]. apply lookup_insert_eq.
  - cbn [makedirs ancestors]. destruct (files w !! path) as [[content |] |] eqn:E.
    + exists (Raised (ExternalError "NotADirectoryError")), w.
      split; [reflexivity |]. split; [apply only_adds_directories_refl | now right].
    + destruct (IH (path_join path name) w) as (o & w' & E' & G' & R').
      exists o, w'. split; [exact E' |]. split; [exact G' |].
      destruct o as [[] | e]; [| exact R'].
      intros d [<- | Hd]; [| now apply R'].
      now apply (directory_stays w).
    + destruct (IH (path_join path name) (with_files (<[path := Directory]> (files w)) w))
        as (o & w' & E' & G' & R').
      assert (G : only_adds_directories w (with_files (<[path := Directory]> (files w)) w)).
      { repeat split. intros p. cbn [files with_files].
        destruct (String.eqb_spec p path) as [-> | Hne].
        - right. now rewrite lookup_insert_eq.
        - left. now apply lookup_insert_ne. }
      exists o, w'. split; [exact E' |].
      split; [now apply only_adds_directories_trans with (2 := G') |].
      destruct o as [[] | e]; [| exact R'].
      intros d [<- | Hd]; [| now apply R'].
      apply (directory_stays _ _ _ G'). apply lookup_insert_eq.
Qed.

Lemma make_dataset_dirs_like :
  mkdir_like dataset_dirs
    (for_each ["train"; "val"]
       (fun split => run makedirs "dataset" ["images"; split] ;;
                     makedirs "dataset" ["labels"; split])).
Proof.
  intros w.
  destruct (mkdir_like_bind _ _ _ _
              (mkdir_like_bind _ _ _ _ (mkdir_like_makedirs ["images"; "train"] "dataset")
                                       (mkdir_like_makedirs ["labels"; "train"] "dataset"))
              (mkdir_like_bind _ _ _ _
                 (mkdir_like_bind _ _ _ _ (mkdir_like_makedirs ["images"; "val"] "dataset")
                                          (mkdir_like_makedirs ["labels"; "val"] "dataset"))
                 mkdir_like_ret) w) as (o & w' & E & G & R).
  exists o, w'. split; [exact E |]. split; [exact G |].
  destruct o as [[] | e]; [| exact R].
  intros d Hd. apply R. cbn in Hd |- *. tauto.
Qed.

Lemma for_each_first_raises {A} (x : A) (xs : list A) (body : A -> Py unit)
    (e : pyexn) (w w' : World) :
  body x w = (Raised e, w') -> for_each (x :: xs) body w = (Raised e, w').
Proof. intros H. cbn [for_each]. now apply bind_raised. Qed.

Lemma range_pos (n : Z) : 1 <= n -> exists rest, range n = 0 :: rest.
Proof.
  intros Hn. unfold range. destruct (Z.to_nat n) as [| k] eqn:E; [lia |].
  cbn [seq map]. now eexists.
Qed.

Lemma range_nonpos (n : Z) : n <= 0 -> range n = [].
Proof. intros Hn. unfold range. now replace (Z.to_nat n) with 0%nat by lia. Qed.

(** On a canvas too small for any shape the generator raises, and leaves
    filesystem and console alone. *)
Lemma generate_default_small
    (outline : Z -> Z -> Z -> Z -> Z -> Z -> Z -> bool) (img_size : Z) (w : World) :
  img_size < 50 ->
  exists w' : World,
    generate_red_square_image outline img_size None w = (Raised ValueError, w')
    /\ files w' = files w /\ stdout w' = stdout w.
Proof.
  intros Hsize.
  assert (H : img_size < 0
              \/ forallb (fits img_size) (planned_shapes img_size None (py_random w)) = false).
  { destruct (Z.ltb_spec img_size 0) as [Hneg | Hpos]; [now left | right].
    unfold planned_shapes, drawn_count.
    pose proof (randint_val_range 1 3 (peek (py_random w) 3) ltac:(lia) (peek_range _ _)) as Hn.
    destruct (Z.to_nat (randint_val 1 3 (peek (py_random w) 3))) as [| k] eqn:E; [lia |].
    rewrite placements_from_S. cbn [forallb]. unfold fits at 1.
    pose proof (placement_at_size img_size (py_random w) (first_shape_draw None)) as Hs.
    now rewrite (proj2 (Z.leb_gt _ _)) by lia. }
  pose proof (generate_traced_raised outline img_size None w H) as Hraised.
  destruct (pure_random_generate outline img_size None w w) as (_ & _ & Hfiles & Hstdout);
    [now split |].
  rewrite generate_unfold in Hfiles, Hstdout |- *.
  destruct (generate_traced outline img_size None w) as [[[[image labels] shapes] | e] w'];
    cbn [fst] in Hraised; [discriminate |].
  injection Hraised as ->. exists w'. now split.
Qed.

Section DatasetWriterFailures.

Variable outline : Z -> Z -> Z -> Z -> Z -> Z -> Z -> bool.
Variable jpeg_encode : Canvas -> string.
Variable imwrite_blocked : string -> Canvas -> Py unit.
Variable path_absolute : string -> string.

Let save := save_dataset outline jpeg_encode imwrite_blocked path_absolute.

Lemma save_sample_raises (split : string) (every count img_size i : Z) (w : World) :
  img_size < 50 ->
  exists w' : World,
    save_sample outline jpeg_encode imwrite_blocked split every count img_size i w
    = (Raised ValueError, w')
    /\ files w' = files w.
Proof.
  intros Hsize. destruct (generate_default_small outline img_size w Hsize) as (w' & E & Hf & _).
  exists w'. split; [| exact Hf]. unfold save_sample. now apply bind_raised.
Qed.

Lemma save_test_image_raises (img_size i : Z) (w : World) :
  img_size < 50 ->
  exists w' : World,
    save_test_image outline jpeg_encode imwrite_blocked img_size i w = (Raised ValueError, w')
    /\ files w' = files w.
Proof.
  intros Hsize. destruct (generate_default_small outline img_size w Hsize) as (w' & E & Hf & _).
  exists w'. split; [| exact Hf]. unfold save_test_image. now apply bind_raised.
Qed.

(** X12. A regular file under the name of one of the seven dataset
    directories stops [save_dataset] at the mkdir calls, with
    FileExistsError or NotADirectoryError.  Nothing has been generated
    by then: the random generators have not moved, the console has the
    two opening lines, and the filesystem has at most gained directories
    where there was nothing. *)
Theorem save_dataset_stops_at_blocked_directory
    (num_train num_val img_size : Z) (d content : string) (w : World) :
  In d dataset_dirs ->
  files w !! d = Some (RegularFile content) ->
  exists (e : pyexn) (w' : World),
    save num_train num_val img_size w = (Raised e, w')
    /\ blocked_by_file e
    /\ py_random w' = py_random w /\ np_random w' = np_random w
    /\ stdout w' = stdout w ++ ["🎨 开始生成红色方块数据集"; string_repeat "=" 60]
    /\ forall p, files w' !! p = files w !! p
                 \/ (files w !! p = None /\ files w' !! p = Some Directory).
Proof.
  intros Hd Hfile. unfold save, save_dataset. cbv zeta. do 2 rewrite print_run.
  match goal with
  | |- context [bind (for_each ["train"; "val"] _) _ ?w0] =>
      destruct (make_dataset_dirs_like w0) as (o & w' & E & G & R)
  end.
  destruct o as [[] | e].
  - pose proof (R d Hd) as Hdir.
    apply (file_stays _ _ d content) in G. cbn [files with_stdout] in G.
    apply G in Hfile. congruence.
  - exists e, w'. split; [now apply bind_raised |]. split; [exact R |].
    destruct G as (Ho & Hp & Hn & Hf). cbn [files with_stdout stdout py_random np_random] in *.
    split; [exact Hp |]. split; [exact Hn |]. split; [| exact Hf].
    rewrite Ho. now rewrite <- app_assoc.
Qed.

(** X13. On a canvas of side below 50 (negative sides included)
    [save_dataset] never completes: with the directories in place, the
    first sample it asks for, in whichever loop that is, raises
    ValueError.  The seven dataset directories have been created by then
    and no regular file has been written, changed or removed. *)
Theorem save_dataset_small_canvas (num_train num_val img_size : Z) (w : World) :
  img_size < 50 ->
  (forall d content, In d (test_dir :: dataset_dirs) ->
     files w !! d <> Some (RegularFile content)) ->
  exists w' : World,
    save num_train num_val img_size w = (Raised ValueError, w')
    /\ (forall d, In d dataset_dirs -> files w' !! d = Some Directory)
    /\ (forall p content,
          files w' !! p = Some (RegularFile content)
          <-> files w !! p = Some (RegularFile content)).
Proof.
  intros Hsize Hnofile. unfold save, save_dataset. cbv zeta. do 2 rewrite print_run.
  match goal with
  | |- context [bind (for_each ["train"; "val"] _) _ ?w0] =>
      destruct (make_dataset_dirs_run w0) as (w1 & E1 & _ & _ & _ & Hd1 & _ & Hr1);
        [intros d content Hd; apply Hnofile; now right
        | rewrite (bind_returned _ _ _ _ _ E1)]
  end.
  cbn [files with_stdout] in Hr1.
  assert (Hfinal : forall w' : World,
             (forall p, p <> test_dir -> files w' !! p = files w1 !! p) ->
             (files w' !! test_dir = files w1 !! test_dir
              \/ files w' !! test_dir = Some Directory) ->
             (forall d, In d dataset_dirs -> files w' !! d = Some Directory)
             /\ (forall p content,
                   files w' !! p = Some (RegularFile content)
                   <-> files w !! p = Some (RegularFile content))).
  { intros w' Hsame Htest. split.
    - intros d Hd. rewrite Hsame; [now apply Hd1 |].
      intros ->. now apply test_dir_outside_dataset.
    - intros p content.
      destruct (String.eqb_spec p test_dir) as [-> | Hne].
      + rewrite (Hr1 test_dir test_dir_outside_dataset) in Htest.
        split; intros H.
        * destruct Htest as [Ht | Ht]; congruence.
        * exfalso. apply (Hnofile test_dir content); [now left | exact H].
      + rewrite (Hsame p Hne).
        destruct (in_dec String.string_dec p dataset_dirs) as [Hin | Hout].
        * rewrite (Hd1 p Hin). split; [discriminate |].
          intros H. exfalso. apply (Hnofile p content); [now right | exact H].
        * now rewrite (Hr1 p Hout). }
  rewrite print_run.
  destruct (Z.le_gt_cases 1 num_train) as [Htrain | Htrain].
  { destruct (range_pos num_train Htrain) as (rest & ->).
    match goal with
    | |- context [bind (for_each _ (save_sample _ _ _ ?split ?every ?count _)) _ ?w1'] =>
        destruct (save_sample_raises split every count img_size 0 w1' Hsize) as (w' & E & Hf)
    end.
    exists w'. split; [apply bind_raised; now apply for_each_first_raises |].
    cbn [files with_stdout] in Hf.
    apply Hfinal; [intros p _; now rewrite Hf | left; now rewrite Hf]. }
  rewrite (range_nonpos num_train) by lia. cbn [for_each]. unfold ret at 1.
  rewrite bind_returned with (a := tt) (w' := with_stdout
    (stdout w1 ++ [nl +:+ "📦 生成训练集：" +:+ str_int num_train +:+ " 张图片..."]) w1)
    by reflexivity.
  do 2 rewrite print_run.
  destruct (Z.le_gt_cases 1 num_val) as [Hval | Hval].
  { destruct (range_pos num_val Hval) as (rest & ->).
    match goal with
    | |- context [bind (for_each _ (save_sample _ _ _ ?split ?every ?count _)) _ ?w2'] =>
        destruct (save_sample_raises split every count img_size 0 w2' Hsize) as (w' & E & Hf)
    end.
    exists w'. split; [apply bind_raised; now apply for_each_first_raises |].
    cbn [files with_stdout] in Hf.
    apply Hfinal; [intros p _; now rewrite Hf | left; now rewrite Hf]. }
  rewrite (range_nonpos num_val) by lia. cbn [for_each].
  match goal with
  | |- context [bind (ret tt) ?k ?w3] => change (bind (ret tt) k w3) with (k tt w3)
  end.
  cbv beta. do 2 rewrite print_run.
  match goal with
  | |- context [bind (mkdir_exist_ok "test_images") _ ?w3'] =>
      destruct (mkdir_exist_ok_run test_dir w3') as (w4 & E4 & _ & Hd4 & Hr4)
  end.
  { intros content. cbn [files with_stdout].
    rewrite Hr1 by apply test_dir_outside_dataset. apply Hnofile. now left. }
  change "test_images" with test_dir. rewrite (bind_returned _ _ _ _ _ E4).
  cbn [files with_stdout] in Hr4.
  change (range 5) with [0; 1; 2; 3; 4].
  destruct (save_test_image_raises img_size 0 w4 Hsize) as (w' & E & Hf).
  exists w'. split; [apply bind_raised; now apply for_each_first_raises |].
  apply Hfinal; [intros p Hp; rewrite Hf; now apply Hr4 | right; now rewrite Hf].
Qed.

End DatasetWriterFailures.

Lemma save_dataset_stops_at_blocked_directory_witness :
  In "dataset/images" dataset_dirs
  /\ files blocked_world !! "dataset/images" = Some (RegularFile "notes")
  /\ exists (e : pyexn) (w' : World),
       dataset_sample 200 50 640 blocked_world = (Raised e, w')
       /\ blocked_by_file e
       /\ py_random w' = py_random blocked_world.
Proof.
  split; [cbn; tauto |]. split; [reflexivity |].
  destruct (save_dataset_stops_at_blocked_directory inner_frame (fun _ => "jpeg")
              (fun _ _ => ret tt) (fun path => "/work/" +:+ path) 200 50 640
              "dataset/images" "notes" blocked_world)
    as (e & w' & E & He & Hpy & _).
  - cbn; tauto.
  - reflexivity.
  - exists e, w'. now split.
Defined.

Lemma save_dataset_small_canvas_witness :
  49 < 50
  /\ (forall d content, In d (test_dir :: dataset_dirs) ->
        files busy_world !! d <> Some (RegularFile content))
  /\ exists w' : World,
       dataset_sample 0 0 49 busy_world = (Raised ValueError, w')
       /\ files w' !! "dataset/labels/val" = Some Directory.
Proof.
  split; [lia |]. split; [intros d content _; apply busy_world_has_no_file |].
  destruct (save_dataset_small_canvas inner_frame (fun _ => "jpeg") (fun _ _ => ret tt)
              (fun path => "/work/" +:+ path) 0 0 49 busy_world ltac:(lia)
              (fun d content _ => busy_world_has_no_file d content))
    as (w' & E & Hdirs & _).
  exists w'. split; [exact E |]. apply Hdirs. cbn. tauto.
Defined.

(* ===================================================================== *)
(** * Further properties: the scripts after the dataset writer            *)
(* ===================================================================== *)

Lemma model_path_not_written (num_train num_val : Z) :
  ~ In "runs/train/square_detector/weights/best.pt" (written_paths num_train num_val).
Proof.
  unfold written_paths. cbn [In]. rewrite !List.in_app_iff, !in_flat_map, in_map_iff.
  intros [H | [H | [(i & _ & H) | [(i & _ & H) | (i & H & _)]]]].
  - discriminate.
  - cbn [In dataset_dirs] in H. intuition discriminate.
  - cbn [In] in H. unfold split_image_path, split_label_path, path_join in H.
    cbv [String.append] in H. intuition discriminate.
  - cbn [In] in H. unfold split_image_path, split_label_path, path_join in H.
    cbv [String.append] in H. intuition discriminate.
  - unfold test_image_path, path_join in H. cbv [String.append] in H. discriminate.
Qed.

Section AfterTheDataset.

Variable outline : Z -> Z -> Z -> Z -> Z -> Z -> Z -> bool.
Variable jpeg_encode : Canvas -> string.
Variable imwrite_blocked : string -> Canvas -> Py unit.
Variable path_absolute : string -> string.

Variable Image : Type.
Variable Contour : Type.
Variable cv2_decode : string -> option Image.
Variable cv2_encode : Image -> string.
Variable red_contours : Image -> list Contour.
Variable contour_area : Contour -> Q.
Variable bounding_rect : Contour -> Z * Z * Z * Z.
Variable approx_vertices : Contour -> Z.
Variable draw_detection : Image -> Z -> Contour -> Image.
Variable image_shape : Image -> Z * Z.

Variable Model : Type.
Variable Result : Type.
Variable yolo_load : string -> Py Model.
Variable yolo_predict : Model -> string -> Q -> Py (list Result).
Variable result_save : Result -> string -> Py unit.
Variable result_boxes : Result -> list Box.
Variable model_names : Model -> Z -> string.
Variable path_stem : string -> string.

Let save := save_dataset outline jpeg_encode imwrite_blocked path_absolute.
Let detector := detect_main Image Contour cv2_decode cv2_encode red_contours contour_area
                  bounding_rect approx_vertices draw_detection image_shape.
Let predictor := predict_main Model Result yolo_load yolo_predict result_save result_boxes
                   model_names path_stem.


(** X15. [main] of the predictor after the dataset writer: the writer
    leaves the model file alone, and its first test picture is the one
    the predictor asks for.  So with a model file in place both checks
    pass and the model is loaded; a loader that raises makes [main]
    raise, after seven lines on the console; without a model file the
    writer has not produced one, and [main] reports it missing. *)
Theorem predictor_after_dataset (num_train num_val img_size : Z) (w w' : World) :
  200 <= img_size ->
  (forall d content, In d (test_dir :: dataset_dirs) ->
     files w !! d <> Some (RegularFile content)) ->
  no_directory_named_as_sample (files w) ->
  save num_train num_val img_size w = (Returned tt, w') ->
  let model_path := "runs/train/square_detector/weights/best.pt" in
  let image_path := "test_images/test_image_1.jpg" in
  files w' !! model_path = files w !! model_path
  /\ is_Some (files w' !! image_path)
  /\ (is_Some (files w !! model_path) ->
      forall (e : pyexn) (w1 : World),
        yolo_load model_path
          (with_stdout (stdout w' ++ ["🚀 红色方块检测器 - 使用训练好的模型"; string_repeat "=" 60;
                                      nl +:+ "【方式 1】预测单张图片";
                                      "🎯 使用模型: " +:+ model_path;
                                      "📷 检测图片: " +:+ image_path;
                                      string_repeat "=" 60; nl +:+ "🔄 正在加载模型..."]) w')
        = (Raised e, w1) ->
        predictor w' = (Raised e, w1))
  /\ (files w !! model_path = None ->
      exists lines : list string,
        predictor w' = (Returned tt, with_stdout (stdout w' ++ lines) w')
        /\ In ("❌ 错误：找不到模型文件 '" +:+ model_path +:+ "'") lines).
Proof.
  intros Hsize Hnofile Hnodir Hsave model_path image_path.
  destruct (save_dataset_run outline jpeg_encode imwrite_blocked path_absolute
              num_train num_val img_size w Hsize Hnofile Hnodir)
    as (w'' & E & _ & _ & _ & Htests & Hframe & _).
  fold save in E. rewrite Hsave in E. injection E as <-.
  destruct (Htests 0 ltac:(lia)) as (picture & Hside & Hfile).
  change (test_image_path 0) with image_path in Hfile.
  pose proof (Hframe model_path (model_path_not_written num_train num_val)) as Hmodel.
  split; [exact Hmodel |]. split; [eexists; exact Hfile |]. split.
  - intros Hfound e w1 Hload. rewrite <- Hmodel in Hfound.
    unfold predictor, predict_main. cbv zeta. run_steps.
    apply bind_raised.
    rewrite predict_guards_passed by (rewrite files_with_stdout; eauto).
    apply bind_raised. rewrite <- Hload.
    rewrite ?with_stdout_twice, ?stdout_with_stdout.
    repeat rewrite <- app_assoc. reflexivity.
  - intros Hmissing. rewrite <- Hmodel in Hmissing.
    unfold predictor, predict_main. cbv zeta. run_steps.
    erewrite bind_returned;
      [| apply predict_model_missing; rewrite files_with_stdout; exact Hmissing].
    run_steps. unfold print. rewrite ?with_stdout_twice, ?stdout_with_stdout.
    eexists. split.
    + repeat rewrite <- app_assoc. reflexivity.
    + rewrite ?List.in_app_iff. cbn [In]. tauto.
Qed.

End AfterTheDataset.


Lemma predictor_after_dataset_witness :
  200 <= 200
  /\ (forall d content, In d (test_dir :: dataset_dirs) ->
        files busy_world !! d <> Some (RegularFile content))
  /\ no_directory_named_as_sample (files busy_world)
  /\ exists w' : World,
       dataset_sample 0 0 200 busy_world = (Returned tt, w')
       /\ is_Some (files w' !! "test_images/test_image_1.jpg")
       /\ exists lines : list string,
            main_sample (fun _ => ret tt) w' = (Returned tt, with_stdout (stdout w' ++ lines) w')
            /\ In "❌ 错误：找不到模型文件 'runs/train/square_detector/weights/best.pt'" lines.
Proof.
  split; [lia |]. split; [intros d content _; apply busy_world_has_no_file |].
  split; [exact busy_world_directories |].
  destruct (save_dataset_run inner_frame (fun _ => "jpeg") (fun _ _ => ret tt)
              (fun path => "/work/" +:+ path) 0 0 200 busy_world ltac:(lia)
              (fun d content _ => busy_world_has_no_file d content) busy_world_directories)
    as (w' & E & _).
  exists w'. split; [exact E |].
  destruct (predictor_after_dataset inner_frame (fun _ => "jpeg") (fun _ _ => ret tt)
              (fun path => "/work/" +:+ path) unit (list Box) (fun _ => ret tt)
              (fun _ _ _ => ret []) (fun _ _ => ret tt) (fun boxes => boxes)
              (fun _ _ => "red_square") (fun path => path)
              0 0 200 busy_world w' ltac:(lia)
              (fun d content _ => busy_world_has_no_file d content) busy_world_directories E)
    as (_ & Himage & _ & Hmissing).
  split; [exact Himage |]. apply Hmissing. reflexivity.
Defined.

(* ===================================================================== *)
(** * Further properties: annotations and the pixels they describe       *)
(* ===================================================================== *)

Lemma annotation_box (img_size : Z) (p : Placement) :
  0 < img_size ->
  let label := annotation_of img_size p in
  ((center_x label - width label / 2) * inject_Z img_size == inject_Z (origin_x p))%Q
  /\ ((center_x label + width label / 2) * inject_Z img_size
      == inject_Z (origin_x p + size_px p))%Q
  /\ ((center_y label - height label / 2) * inject_Z img_size == inject_Z (origin_y p))%Q
  /\ ((center_y label + height label / 2) * inject_Z img_size
      == inject_Z (origin_y p + size_px p))%Q.
Proof.
  intros Hsize label. subst label. cbn [annotation_of center_x center_y width height].
  assert (Hn : ~ (inject_Z img_size == 0)%Q).
  { intros H. apply inject_Z_pos in Hsize. rewrite H in Hsize. now apply Qlt_irrefl in Hsize. }
  rewrite !inject_Z_plus. repeat split; field; exact Hn.
Qed.

Section AnnotationsAndPixels.

Variable outline : Z -> Z -> Z -> Z -> Z -> Z -> Z -> bool.


End AnnotationsAndPixels.


(* ===================================================================== *)
(** * Further properties: the batch predictor with a library that works  *)
(* ===================================================================== *)

Section BatchTotals.

Variable Model : Type.
Variable Result : Type.
Variable yolo_load : string -> Py Model.
Variable yolo_predict : Model -> string -> Q -> Py (list Result).
Variable result_save : Result -> string -> Py unit.
Variable result_boxes : Result -> list Box.
Variable path_stem : string -> string.
Variable path_name : string -> string.
Variable path_suffix : string -> string.
Variable path_glob : gmap string fsnode -> string -> string -> list string.

Variable model : Model.
Variable detections : string -> list Result.

Hypothesis predict_returns :
  forall image_file w, yolo_predict model image_file (25 # 100) w
                       = (Returned (detections image_file), w).
Hypothesis save_returns :
  forall result path w, exists w' : World,
    result_save result path w = (Returned tt, w') /\ stdout w' = stdout w.

Let batch := predict_batch_images Model Result yolo_load yolo_predict result_save
               result_boxes path_stem path_name path_suffix path_glob.

Lemma batch_results_run (save_dir image_file : string) (results : list Result) :
  forall (total_detections : Z) (w : World),
    exists (w' : World) (lines : list string),
      batch_results Result result_save result_boxes path_stem path_suffix
        results save_dir image_file total_detections w
      = (Returned (total_detections
                   + sum_Z (map (fun result => Z.of_nat (length (result_boxes result))) results)),
         w')
      /\ stdout w' = stdout w ++ lines.
Proof.
  induction results as [| result rest IH]; intros total_detections w.
  - exists w, []. cbn [batch_results map sum_Z fold_right]. unfold ret.
    now rewrite Z.add_0_r, app_nil_r.
  - cbn [batch_results]. cbv zeta.
    destruct (save_returns result
                (save_dir +:+ "/" +:+ path_stem image_file +:+ "_detected"
                 +:+ path_suffix image_file) w) as (w1 & E1 & Ho1).
    rewrite (bind_returned _ _ _ _ _ E1).
    assert (Hprint : forall line : string,
               exists (w' : World) (lines : list string),
                 (run print line ;;
                  batch_results Result result_save result_boxes path_stem path_suffix rest
                    save_dir image_file
                    (total_detections + Z.of_nat (length (result_boxes result)))) w1
                 = (Returned (total_detections
                              + sum_Z (map (fun r => Z.of_nat (length (result_boxes r)))
                                           (result :: rest))), w')
                 /\ stdout w' = stdout w ++ lines).
    { intros line. rewrite print_run.
      destruct (IH (total_detections + Z.of_nat (length (result_boxes result)))
                   (with_stdout (stdout w1 ++ [line]) w1)) as (w' & lines & E & Ho).
      exists w', (line :: lines). split.
      - rewrite E. cbn [map sum_Z fold_right]. do 2 f_equal. unfold sum_Z. lia.
      - rewrite Ho. cbn [stdout with_stdout]. rewrite Ho1. now rewrite <- app_assoc. }
    destruct (0 <? Z.of_nat (length (result_boxes result))); apply Hprint.
Qed.

Lemma batch_images_run (save_dir : string) (count : Z) (image_files : list string) :
  forall (start total_detections : Z) (w : World),
    exists (w' : World) (lines : list string),
      batch_images Model Result yolo_predict result_save result_boxes path_stem path_name
        path_suffix model (enumerate start image_files) count save_dir total_detections w
      = (Returned (total_detections + boxes_in result_boxes detections image_files), w')
      /\ stdout w' = stdout w ++ lines.
Proof.
  induction image_files as [| image_file rest IH]; intros start total_detections w.
  - exists w, []. cbn [enumerate batch_images]. unfold ret, boxes_in.
    cbn [map sum_Z fold_right]. now rewrite Z.add_0_r, app_nil_r.
  - cbn [enumerate batch_images]. rewrite print_run.
    rewrite (bind_returned _ _ _ _ _ (predict_returns image_file _)).
    match goal with
    | |- context [bind (batch_results _ _ _ _ _ ?rs ?d ?f ?t) _ ?w1] =>
        destruct (batch_results_run d f rs t w1) as (w2 & lines2 & E2 & Ho2)
    end.
    rewrite (bind_returned _ _ _ _ _ E2).
    match goal with
    | |- context [batch_images _ _ _ _ _ _ _ _ _ (enumerate ?k rest) _ _ ?t ?w3] =>
        destruct (IH k t w3) as (w' & lines & E & Ho)
    end.
    exists w'. eexists. split.
    + rewrite E. unfold boxes_in. cbn [map sum_Z fold_right]. do 2 f_equal. unfold sum_Z. lia.
    + rewrite Ho, Ho2. cbn [stdout with_stdout]. repeat rewrite <- app_assoc. reflexivity.
Qed.


End BatchTotals.

